(** * Showers Auto Detail backend: coupons, bookings, reviews cache, sessions

    A shallow embedding of the request handlers of
    [backend/routes/coupons.js], [backend/routes/bookings.js],
    [backend/routes/google-reviews.js] and [backend/routes/auth.js], followed
    by the properties proved about them.

    Every handler is a function from a [world] (the PostgreSQL tables, the
    clock, the process environment and the outcomes of the outside services)
    to a reply and the world it leaves behind.  Each [pool.query] consumes one
    flag of a fault schedule, so that a statement that throws, and the
    [catch] block that answers it, are part of the model.

    Conventions:
    - numbers are exact: a JavaScript number is [NaN], an infinity or a
      rational, without the binary rounding of doubles;
    - a request field and a [NUMERIC] column are carried as what
      [parseFloat] reads from them; ids are integers; strings are made of
      8-bit characters;
    - the middleware in front of a route (authentication, rate limiting,
      validation) has run: bodies have the types the validators let through;
    - the clock does not move during a request. *)

From Stdlib Require Import ZArith QArith Qround Qabs Lqa Lia.
From Stdlib Require Import List String Ascii Bool.
From Stdlib.Strings Require Import Byte.
From stdpp Require Import base tactics option list strings gmap.

Open Scope Z_scope.

(* ===================================================================== *)
(** ** JavaScript numbers *)
(* ===================================================================== *)

(** A JavaScript number is modelled as an extended rational: [NaN], the two
    infinities, or a finite rational.  Arithmetic is exact: the binary
    rounding of IEEE doubles and the sign of zero are outside the model.
    [parseFloat] of a [NUMERIC] column or of a request field is modelled by
    its result, so that a [NULL] column or a missing field is [NaN]. *)
Module JsNumber.

Inductive num : Type :=
| NaN
| PosInf
| NegInf
| Fin (q : Q).

Definition of_Z (z : Z) : num := Fin (inject_Z z).

Definition sgn (q : Q) : Z := Z.sgn (Qnum q).

(** The infinity of the given sign; [0 * Infinity] and [0 / 0] are [NaN]. *)
Definition signed_inf (s : Z) : num :=
  match s with
  | Z0 => NaN
  | Zpos _ => PosInf
  | Zneg _ => NegInf
  end.

Definition neg (a : num) : num :=
  match a with
  | NaN => NaN
  | PosInf => NegInf
  | NegInf => PosInf
  | Fin x => Fin (- x)
  end.

Definition add (a b : num) : num :=
  match a, b with
  | NaN, _ | _, NaN => NaN
  | PosInf, NegInf | NegInf, PosInf => NaN
  | PosInf, _ | _, PosInf => PosInf
  | NegInf, _ | _, NegInf => NegInf
  | Fin x, Fin y => Fin (x + y)
  end.

Definition sub (a b : num) : num := add a (neg b).

Definition mul (a b : num) : num :=
  match a, b with
  | NaN, _ | _, NaN => NaN
  | Fin x, Fin y => Fin (x * y)
  | Fin x, PosInf | PosInf, Fin x => signed_inf (sgn x)
  | Fin x, NegInf | NegInf, Fin x => signed_inf (- sgn x)
  | PosInf, PosInf | NegInf, NegInf => PosInf
  | PosInf, NegInf | NegInf, PosInf => NegInf
  end.

Definition div (a b : num) : num :=
  match a, b with
  | NaN, _ | _, NaN => NaN
  | Fin x, Fin y => if Qeq_bool y 0 then signed_inf (sgn x) else Fin (x / y)
  | Fin _, (PosInf | NegInf) => Fin 0
  | PosInf, Fin y => if sgn y <? 0 then NegInf else PosInf
  | NegInf, Fin y => if sgn y <? 0 then PosInf else NegInf
  | (PosInf | NegInf), (PosInf | NegInf) => NaN
  end.

(** [a < b] of JavaScript: false as soon as one side is [NaN]. *)
Definition ltb (a b : num) : bool :=
  match a, b with
  | NaN, _ | _, NaN => false
  | _, NegInf => false
  | NegInf, _ => true
  | PosInf, _ => false
  | Fin _, PosInf => true
  | Fin x, Fin y => negb (Qle_bool y x)
  end.

Definition gtb (a b : num) : bool := ltb b a.

(** [Math.min(a, b)]. *)
Definition min (a b : num) : num :=
  match a, b with
  | NaN, _ | _, NaN => NaN
  | NegInf, _ | _, NegInf => NegInf
  | PosInf, o | o, PosInf => o
  | Fin x, Fin y => if Qle_bool x y then Fin x else Fin y
  end.

(** Truthiness of a number: [0] and [NaN] are falsy. *)
Definition truthy (a : num) : bool :=
  match a with
  | NaN => false
  | Fin x => negb (Qeq_bool x 0)
  | _ => true
  end.

(** The integer [n] for which [n / 100 - x] is closest to zero, the larger
    one on a tie (the rounding step of [Number.prototype.toFixed] on a
    non-negative [x]). *)
Definition cents (x : Q) : Z := Qfloor (x * 100 + (1 # 2))%Q.

(** [x.toFixed(2)] read back as a number on a finite [x]: the sign is split
    off first, and a magnitude of [10^21] or more is printed as it is. *)
Definition toFixed2_Q (x : Q) : Q :=
  if Qle_bool (inject_Z (10 ^ 21)) (Qabs x) then x
  else if Qle_bool 0 x then (inject_Z (cents x) / 100)%Q
  else (- (inject_Z (cents (- x)) / 100))%Q.

(** [parseFloat(a.toFixed(2))]: ["NaN"] and ["Infinity"] read back as
    themselves. *)
Definition toFixed2 (a : num) : num :=
  match a with
  | Fin x => Fin (toFixed2_Q x)
  | o => o
  end.

(** Value equality of numbers, [===] of JavaScript: [NaN] equals nothing. *)
Definition eqv (a b : num) : Prop :=
  match a, b with
  | PosInf, PosInf | NegInf, NegInf => True
  | Fin x, Fin y => (x == y)%Q
  | _, _ => False
  end.

End JsNumber.

Abbreviation num := JsNumber.num.
Abbreviation NaN := JsNumber.NaN.
Abbreviation Fin := JsNumber.Fin.

(* ===================================================================== *)
(** ** JavaScript strings *)
(* ===================================================================== *)

(** Strings are sequences of 8-bit characters; the case mappings act on the
    ASCII letters, which is what [toUpperCase] and [toLowerCase] do on them. *)
Module JsString.

Definition upper_ascii (c : ascii) : ascii :=
  let n := N_of_ascii c in
  if ((97 <=? n) && (n <=? 122))%N then ascii_of_N (n - 32) else c.

Definition lower_ascii (c : ascii) : ascii :=
  let n := N_of_ascii c in
  if ((65 <=? n) && (n <=? 90))%N then ascii_of_N (n + 32) else c.

Fixpoint toUpperCase (s : string) : string :=
  match s with
  | EmptyString => EmptyString
  | String c r => String (upper_ascii c) (toUpperCase r)
  end.

Fixpoint toLowerCase (s : string) : string :=
  match s with
  | EmptyString => EmptyString
  | String c r => String (lower_ascii c) (toLowerCase r)
  end.

(** Truthiness of a string: only the empty string is falsy. *)
Definition truthy (s : string) : bool :=
  match s with
  | EmptyString => false
  | String _ _ => true
  end.

(** Truthiness of a request field that may be missing. *)
Definition present (o : option string) : bool :=
  match o with
  | Some s => truthy s
  | None => false
  end.

(** [a || b] on an optional string. *)
Definition or_else (a : option string) (b : string) : string :=
  match a with
  | Some s => if truthy s then s else b
  | None => b
  end.

(** [a || null] on an optional string. *)
Definition or_none (a : option string) : option string :=
  match a with
  | Some s => if truthy s then Some s else None
  | None => None
  end.

(** [list.includes(s)] on an array of strings. *)
Definition includes (l : list string) (s : string) : bool :=
  existsb (String.eqb s) l.


Definition hex_digit (n : N) : ascii :=
  if (n <? 10)%N then ascii_of_N (48 + n) else ascii_of_N (87 + n).

(** [buf.toString('hex')]: two lower-case digits per byte. *)
Fixpoint hex (bs : list byte) : string :=
  match bs with
  | [] => EmptyString
  | b :: r =>
      let n := Byte.to_N b in
      String (hex_digit (n / 16)) (String (hex_digit (n mod 16)) (hex r))
  end.



End JsString.

(* ===================================================================== *)
(** ** The relational store *)
(* ===================================================================== *)

(** One record per table, with the columns the modelled statements read or
    write.  Timestamps are milliseconds since the epoch; a nullable column is
    an [option], except for [NUMERIC] columns, which the handlers always read
    through [parseFloat]. *)
Module Store.

Record coupon := {
  c_id : Z;
  c_code : string;
  c_discount_type : string;
  c_discount_value : num;
  c_max_uses : option Z;
  c_used_count : Z;
  c_expires_at : option Z;
  c_is_active : bool
}.

Record booking := {
  b_id : Z;
  b_customer_name : string;
  b_customer_email : string;
  b_customer_phone : string;
  b_vehicle_type : string;
  b_package_id : option Z;
  b_service_id : option Z;
  b_booking_date : string;
  b_booking_time : string;
  b_address : string;
  b_notes : string;
  b_total_amount : num;
  b_deposit_amount : num;
  b_status : string;
  b_payment_token : option string;
  b_coupon_code : option string;
  b_coupon_discount : option num;
  b_updated_at : option Z
}.

Record service := {
  s_id : Z;
  s_name : string;
  s_sedan_price : num;
  s_suv_price : num;
  s_truck_price : num
}.

Record package := {
  p_id : Z;
  p_name : string;
  p_base_price : num;
  p_vehicle_multipliers : gmap string num
}.

Record addon := {
  a_id : Z;
  a_name : string;
  a_sedan_price : num;
  a_suv_price : num;
  a_commercial_price : num;
  a_is_active : bool
}.

Record setting := {
  st_key : string;
  st_value : num
}.

Record booking_addon := {
  ba_booking_id : Z;
  ba_addon_id : Z;
  ba_price_charged : num
}.

Record admin_user := {
  u_id : Z;
  u_email : string;
  u_password_hash : string;
  u_name : string;
  u_role : string;
  u_totp_enabled : bool;
  u_totp_secret : option string;
  u_is_active : bool
}.

Record refresh_token := {
  rt_user_id : Z;
  rt_token_hash : string;
  rt_expires_at : Z;
  rt_device_info : string;
  rt_is_revoked : bool
}.

(** One review as the cache stores it (the output of [transformReviews]). *)
Record review := {
  author_name : string;
  author_photo_url : option string;
  rating : num;
  text : string;
  relative_time : string;
  publish_time : option string;
  google_maps_uri : option string
}.

Record reviews_data := {
  rd_overall_rating : option num;
  rd_total_reviews : num;
  rd_business_name : string;
  rd_reviews : list review
}.

Record cache_row := {
  gc_place_id : string;
  gc_overall_rating : option num;
  gc_total_reviews : num;
  gc_reviews_data : reviews_data;
  gc_cached_at : Z
}.

(** Column defaults of [schema.sql] for the columns an [INSERT] leaves out.
    The schema file is not part of the sources at hand, so the defaults are
    carried as data. *)
Record defaults := {
  d_coupon_is_active : bool;
  d_coupon_used_count : Z;
  (** whether [bookings.updated_at] defaults to [CURRENT_TIMESTAMP] *)
  d_booking_updated_now : bool;
  d_admin_totp_enabled : bool;
  d_admin_is_active : bool;
  d_token_is_revoked : bool
}.

Record database := {
  coupons : list coupon;
  bookings : list booking;
  services : list service;
  packages : list package;
  addons : list addon;
  settings : list setting;
  booking_addons : list booking_addon;
  admin_users : list admin_user;
  refresh_tokens : list refresh_token;
  google_reviews_cache : list cache_row;
  schema : defaults;
  (** the next value of the [SERIAL] sequences *)
  next_id : Z
}.

Definition with_coupons (l : list coupon) (d : database) : database :=
  {| coupons := l; bookings := bookings d; services := services d;
     packages := packages d; addons := addons d; settings := settings d;
     booking_addons := booking_addons d; admin_users := admin_users d;
     refresh_tokens := refresh_tokens d;
     google_reviews_cache := google_reviews_cache d;
     schema := schema d; next_id := next_id d |}.

Definition with_bookings (l : list booking) (d : database) : database :=
  {| coupons := coupons d; bookings := l; services := services d;
     packages := packages d; addons := addons d; settings := settings d;
     booking_addons := booking_addons d; admin_users := admin_users d;
     refresh_tokens := refresh_tokens d;
     google_reviews_cache := google_reviews_cache d;
     schema := schema d; next_id := next_id d |}.

Definition with_booking_addons (l : list booking_addon) (d : database) : database :=
  {| coupons := coupons d; bookings := bookings d; services := services d;
     packages := packages d; addons := addons d; settings := settings d;
     booking_addons := l; admin_users := admin_users d;
     refresh_tokens := refresh_tokens d;
     google_reviews_cache := google_reviews_cache d;
     schema := schema d; next_id := next_id d |}.

Definition with_admin_users (l : list admin_user) (d : database) : database :=
  {| coupons := coupons d; bookings := bookings d; services := services d;
     packages := packages d; addons := addons d; settings := settings d;
     booking_addons := booking_addons d; admin_users := l;
     refresh_tokens := refresh_tokens d;
     google_reviews_cache := google_reviews_cache d;
     schema := schema d; next_id := next_id d |}.

Definition with_refresh_tokens (l : list refresh_token) (d : database) : database :=
  {| coupons := coupons d; bookings := bookings d; services := services d;
     packages := packages d; addons := addons d; settings := settings d;
     booking_addons := booking_addons d; admin_users := admin_users d;
     refresh_tokens := l;
     google_reviews_cache := google_reviews_cache d;
     schema := schema d; next_id := next_id d |}.

Definition with_google_reviews_cache (l : list cache_row) (d : database) : database :=
  {| coupons := coupons d; bookings := bookings d; services := services d;
     packages := packages d; addons := addons d; settings := settings d;
     booking_addons := booking_addons d; admin_users := admin_users d;
     refresh_tokens := refresh_tokens d;
     google_reviews_cache := l;
     schema := schema d; next_id := next_id d |}.

Definition with_next_id (n : Z) (d : database) : database :=
  {| coupons := coupons d; bookings := bookings d; services := services d;
     packages := packages d; addons := addons d; settings := settings d;
     booking_addons := booking_addons d; admin_users := admin_users d;
     refresh_tokens := refresh_tokens d;
     google_reviews_cache := google_reviews_cache d;
     schema := schema d; next_id := n |}.

End Store.

(* ===================================================================== *)
(** ** The world of a request and the handler monad *)
(* ===================================================================== *)

Module Io.
Import Store.

(** [process.env], each variable read the way the code reads it. *)
Record environment := {
  ADMIN_EMAIL : option string;
  ADMIN_PASSWORD : option string;
  JWT_SECRET : option string;
  APP_URL : option string;
  GOOGLE_MAPS_API_KEY : option string;
  GOOGLE_PLACE_ID : option string;
  (** [parseInt(GOOGLE_REVIEWS_CACHE_HOURS)], [None] when it is [NaN] *)
  GOOGLE_REVIEWS_CACHE_HOURS : option Z;
  (** [None] when the variable is unset or empty, else what [parseFloat]
      reads from it *)
  DEPOSIT_PERCENTAGE : option num
}.

(** A review and a place as the Places API returns them: every field may be
    missing. *)
Record google_review := {
  gr_author_displayName : option string;
  gr_author_photoUri : option string;
  gr_rating : option num;
  gr_text : option string;
  gr_originalText : option string;
  gr_relativePublishTimeDescription : option string;
  gr_publishTime : option string;
  gr_googleMapsUri : option string
}.

Record google_place := {
  gp_rating : option num;
  gp_userRatingCount : option num;
  gp_displayName : option string;
  gp_reviews : option (list google_review)
}.

Record world := {
  w_db : database;
  (** [NOW()] and [Date.now()] during the request *)
  w_now : Z;
  w_env : environment;
  (** one flag per [pool.query] to come: [true] makes the statement throw;
      an exhausted schedule means no further fault *)
  w_faults : list bool;
  (** the bytes [crypto.randomBytes] will deliver, and how many it has *)
  w_entropy : nat -> byte;
  w_drawn : nat;
  (** the answer of the Places API, [None] when the call fails or the
      response is not ok; and the number of calls made *)
  w_google : option google_place;
  w_fetches : nat;
  (** whether [sendNotification] succeeds, and the notifications sent:
      type and booking id *)
  w_notify : bool;
  w_sent : list (string * Z)
}.

Definition with_db (d : database) (w : world) : world :=
  {| w_db := d; w_now := w_now w; w_env := w_env w; w_faults := w_faults w;
     w_entropy := w_entropy w; w_drawn := w_drawn w; w_google := w_google w;
     w_fetches := w_fetches w; w_notify := w_notify w; w_sent := w_sent w |}.

Definition with_faults (f : list bool) (w : world) : world :=
  {| w_db := w_db w; w_now := w_now w; w_env := w_env w; w_faults := f;
     w_entropy := w_entropy w; w_drawn := w_drawn w; w_google := w_google w;
     w_fetches := w_fetches w; w_notify := w_notify w; w_sent := w_sent w |}.

Definition with_drawn (n : nat) (w : world) : world :=
  {| w_db := w_db w; w_now := w_now w; w_env := w_env w; w_faults := w_faults w;
     w_entropy := w_entropy w; w_drawn := n; w_google := w_google w;
     w_fetches := w_fetches w; w_notify := w_notify w; w_sent := w_sent w |}.

Definition with_fetches (n : nat) (w : world) : world :=
  {| w_db := w_db w; w_now := w_now w; w_env := w_env w; w_faults := w_faults w;
     w_entropy := w_entropy w; w_drawn := w_drawn w; w_google := w_google w;
     w_fetches := n; w_notify := w_notify w; w_sent := w_sent w |}.

Definition with_sent (l : list (string * Z)) (w : world) : world :=
  {| w_db := w_db w; w_now := w_now w; w_env := w_env w; w_faults := w_faults w;
     w_entropy := w_entropy w; w_drawn := w_drawn w; w_google := w_google w;
     w_fetches := w_fetches w; w_notify := w_notify w; w_sent := l |}.

(** What a JavaScript [throw] carries: a database error with its SQLSTATE
    code, or any other error. *)
Inductive exn : Type :=
| DbError (code : string)
| JsError (message : string).

Inductive outcome (A : Type) : Type :=
| Returned (a : A)
| Thrown (e : exn).
Arguments Returned {A} a.
Arguments Thrown {A} e.

(** A computation of a handler: it reads and changes the world, and returns
    or throws. *)
Definition io (A : Type) : Type := world -> outcome A * world.

Definition ret {A} (a : A) : io A := fun w => (Returned a, w).

Definition throw {A} (e : exn) : io A := fun w => (Thrown e, w).

Definition bind {A B} (m : io A) (k : A -> io B) : io B :=
  fun w =>
    match m w with
    | (Returned a, w') => k a w'
    | (Thrown e, w') => (Thrown e, w')
    end.

(** [try { m } catch (e) { h e }]. *)
Definition try_catch {A} (m : io A) (h : exn -> io A) : io A :=
  fun w =>
    match m w with
    | (Returned a, w') => (Returned a, w')
    | (Thrown e, w') => h e w'
    end.

(** A handler whose whole body is a [try] with a [catch] that answers:
    it always produces a reply. *)
Definition handler {R} (m : io R) (h : exn -> R) : world -> R * world :=
  fun w =>
    match m w with
    | (Returned r, w') => (r, w')
    | (Thrown e, w') => (h e, w')
    end.

Notation "x <- m ;; k" := (bind m (fun x => k))
  (at level 100, m at next level, right associativity).

(** A statement is a function of the database that returns rows or fails on
    a constraint. *)
Definition statement (A : Type) : Type := database -> outcome A * database.

(** [await pool.query(...)]: the next flag of the fault schedule decides
    whether the statement throws (a lost connection, SQLSTATE 08006) before
    it has any effect. *)
Definition query {A} (stmt : statement A) : io A :=
  fun w =>
    match w_faults w with
    | true :: fs => (Thrown (DbError "08006"), with_faults fs w)
    | false :: fs =>
        let w1 := with_faults fs w in
        let (r, d) := stmt (w_db w1) in (r, with_db d w1)
    | [] => let (r, d) := stmt (w_db w) in (r, with_db d w)
    end.

(** The flag of the [n]-th statement to come, counting from [0]. *)
Definition fault_at (n : nat) (w : world) : bool := nth n (w_faults w) false.

(** A [SELECT]: rows, no change. *)
Definition select {A} (rows : database -> A) : statement A :=
  fun d => (Returned (rows d), d).

(** An [INSERT], [UPDATE] or upsert that no constraint can stop and whose
    rows are not read. *)
Definition execute (change : database -> database) : statement unit :=
  fun d => (Returned tt, change d).

(** [NOW()] seen from the handler. *)
Definition now : io Z := fun w => (Returned (w_now w), w).

Definition getenv {A} (var : environment -> A) : io A :=
  fun w => (Returned (var (w_env w)), w).

(** [crypto.randomBytes(n)]. *)
Definition randomBytes (n : nat) : io (list byte) :=
  fun w =>
    (Returned (map (w_entropy w) (seq (w_drawn w) n)),
     with_drawn (w_drawn w + n)%nat w).

(** An answer of the API: a success with its JSON body, or an error status
    with its message. *)
Inductive reply (A : Type) : Type :=
| Json (status : Z) (body : A)
| Failure (status : Z) (error : string).
Arguments Json {A} status body.
Arguments Failure {A} status error.

Definition status_of {A} (r : reply A) : Z :=
  match r with
  | Json s _ => s
  | Failure s _ => s
  end.

(** Truthiness of an id taken from a request body. *)
Definition truthy_id (o : option Z) : bool :=
  match o with
  | Some z => negb (z =? 0)
  | None => false
  end.

End Io.

(* ===================================================================== *)
(** ** routes/coupons.js *)
(* ===================================================================== *)

Module Coupons.
Import Store Io.

(** Body of [POST /api/coupons]. *)
Record create_body := {
  cb_code : option string;
  cb_discountType : option string;
  cb_discountValue : option num;
  cb_maxUses : option Z;
  cb_expiresAt : option Z
}.

(** Body of [POST /api/coupons/validate]; [vb_subtotal] is
    [parseFloat(subtotal)]. *)
Record validate_body := {
  vb_code : option string;
  vb_subtotal : num
}.

(** Body of [POST /api/coupons/apply]. *)
Record apply_body := {
  ab_code : option string;
  ab_bookingId : option Z
}.

Record validate_reply := {
  vr_valid : bool;
  vr_code : string;
  vr_discountType : string;
  vr_discountValue : num;
  vr_discountAmount : num
}.

Record apply_reply := {
  ar_success : bool;
  ar_discountApplied : num;
  ar_newTotal : num;
  ar_newDeposit : num
}.

(** [!discountValue] negated: the field is there and neither [0] nor [NaN]. *)
Definition value_present (o : option num) : bool :=
  match o with
  | Some v => JsNumber.truthy v
  | None => false
  end.

(** [maxUses || null]. *)
Definition or_null (o : option Z) : option Z :=
  if truthy_id o then o else None.

(** [INSERT INTO coupons (code, discount_type, discount_value, max_uses,
    expires_at) VALUES (...) RETURNING *].  The [catch] of the handler names
    SQLSTATE 23505: the code column is unique. *)
Definition insert_coupon (code dtype : string) (value : num)
    (max_uses expires_at : option Z) : statement (list coupon) :=
  fun d =>
    if existsb (fun c => String.eqb (c_code c) code) (coupons d)
    then (Thrown (DbError "23505"), d)
    else
      let row :=
        {| c_id := next_id d; c_code := code; c_discount_type := dtype;
           c_discount_value := value; c_max_uses := max_uses;
           c_used_count := d_coupon_used_count (schema d);
           c_expires_at := expires_at;
           c_is_active := d_coupon_is_active (schema d) |} in
      (Returned [row],
       with_next_id (next_id d + 1) (with_coupons (coupons d ++ [row]) d)).

(** [POST /api/coupons], behind [authenticateToken]. *)
Definition create (rq : create_body) : world -> reply coupon * world :=
  handler
    (if negb (JsString.present (cb_code rq))
        || negb (JsString.present (cb_discountType rq))
        || negb (value_present (cb_discountValue rq))
     then ret (Failure 400 "Code, discount type, and value required")
     else
       match cb_code rq, cb_discountType rq, cb_discountValue rq with
       | Some code, Some discountType, Some discountValue =>
           if negb (JsString.includes ["percent"; "fixed"] discountType)
           then ret (Failure 400 "Discount type must be percent or fixed")
           else if String.eqb discountType "percent"
                   && (JsNumber.ltb discountValue (JsNumber.of_Z 0)
                       || JsNumber.gtb discountValue (JsNumber.of_Z 100))
           then ret (Failure 400 "Percent discount must be between 0 and 100")
           else
             rows <- query (insert_coupon (JsString.toUpperCase code)
                              discountType discountValue
                              (or_null (cb_maxUses rq)) (cb_expiresAt rq)) ;;
             match rows with
             | row :: _ => ret (Json 201 row)
             | [] => throw (JsError "TypeError")
             end
       | _, _, _ => throw (JsError "TypeError")
       end)
    (fun e =>
       match e with
       | DbError code =>
           if String.eqb code "23505"
           then Failure 400 "Coupon code already exists"
           else Failure 500 "Failed to create coupon"
       | JsError _ => Failure 500 "Failed to create coupon"
       end).

(** The [WHERE] clause of the coupon lookup of validate and apply:
    [code = $1 AND is_active = true AND (expires_at IS NULL OR expires_at >
    NOW()) AND (max_uses IS NULL OR used_count < max_uses)]. *)
Definition usable (t : Z) (code : string) (c : coupon) : bool :=
  String.eqb (c_code c) code
  && c_is_active c
  && match c_expires_at c with
     | None => true
     | Some e => t <? e
     end
  && match c_max_uses c with
     | None => true
     | Some m => c_used_count c <? m
     end.

Definition select_coupon (t : Z) (code : string) : statement (list coupon) :=
  select (fun d => List.filter (usable t code) (coupons d)).

(** The discount of a coupon on an amount, before the cap: a share of the
    amount for a percent coupon, the value itself otherwise. *)
Definition raw_discount (c : coupon) (amount : num) : num :=
  if String.eqb (c_discount_type c) "percent"
  then JsNumber.div (JsNumber.mul amount (c_discount_value c)) (JsNumber.of_Z 100)
  else c_discount_value c.

(** [Math.min(discount, amount)]. *)
Definition capped_discount (c : coupon) (amount : num) : num :=
  JsNumber.min (raw_discount c amount) amount.

(** [POST /api/coupons/validate]. *)
Definition validate (rq : validate_body) : world -> reply validate_reply * world :=
  handler
    (match vb_code rq with
     | Some code =>
         if negb (JsString.truthy code)
         then ret (Failure 400 "Coupon code required")
         else
           t <- now ;;
           rows <- query (select_coupon t (JsString.toUpperCase code)) ;;
           match rows with
           | [] => ret (Failure 404 "Invalid or expired coupon code")
           | coupon :: _ =>
               let discount := capped_discount coupon (vb_subtotal rq) in
               ret (Json 200
                      {| vr_valid := true;
                         vr_code := c_code coupon;
                         vr_discountType := c_discount_type coupon;
                         vr_discountValue := c_discount_value coupon;
                         vr_discountAmount := JsNumber.toFixed2 discount |})
           end
     | None => ret (Failure 400 "Coupon code required")
     end)
    (fun _ => Failure 500 "Failed to validate coupon").

Definition select_booking (id : Z) : statement (list booking) :=
  select (fun d => List.filter (fun b => b_id b =? id) (bookings d)).

(** The row a booking becomes under [UPDATE bookings SET coupon_code = $1,
    coupon_discount = $2, total_amount = $3, deposit_amount = $4]. *)
Definition set_coupon (code : string) (discount newTotal newDeposit : num)
    (b : booking) : booking :=
  {| b_id := b_id b; b_customer_name := b_customer_name b;
     b_customer_email := b_customer_email b;
     b_customer_phone := b_customer_phone b;
     b_vehicle_type := b_vehicle_type b; b_package_id := b_package_id b;
     b_service_id := b_service_id b; b_booking_date := b_booking_date b;
     b_booking_time := b_booking_time b; b_address := b_address b;
     b_notes := b_notes b;
     b_total_amount := newTotal; b_deposit_amount := newDeposit;
     b_status := b_status b; b_payment_token := b_payment_token b;
     b_coupon_code := Some code; b_coupon_discount := Some discount;
     b_updated_at := b_updated_at b |}.

Definition update_booking_coupon (id : Z) (code : string)
    (discount newTotal newDeposit : num) (d : database) : database :=
  with_bookings
    (map (fun b => if b_id b =? id
                   then set_coupon code discount newTotal newDeposit b
                   else b)
         (bookings d)) d.

Definition bump_used_count (c : coupon) : coupon :=
  {| c_id := c_id c; c_code := c_code c;
     c_discount_type := c_discount_type c;
     c_discount_value := c_discount_value c; c_max_uses := c_max_uses c;
     c_used_count := c_used_count c + 1; c_expires_at := c_expires_at c;
     c_is_active := c_is_active c |}.

(** [UPDATE coupons SET used_count = used_count + 1 WHERE id = $1]. *)
Definition increment_used_count (id : Z) (d : database) : database :=
  with_coupons
    (map (fun c => if c_id c =? id then bump_used_count c else c) (coupons d)) d.

(** The three numbers the handler derives from the booking and the capped
    discount. *)
Definition depositPercentage (b : booking) : num :=
  JsNumber.div (b_deposit_amount b) (b_total_amount b).

Definition newTotal (b : booking) (discount : num) : num :=
  JsNumber.sub (b_total_amount b) discount.

Definition newDeposit (b : booking) (discount : num) : num :=
  JsNumber.mul (newTotal b discount) (depositPercentage b).

(** [POST /api/coupons/apply]. *)
Definition apply (rq : apply_body) : world -> reply apply_reply * world :=
  handler
    (if negb (JsString.present (ab_code rq)) || negb (truthy_id (ab_bookingId rq))
     then ret (Failure 400 "Coupon code and booking ID required")
     else
       match ab_code rq, ab_bookingId rq with
       | Some code, Some bookingId =>
           t <- now ;;
           couponResult <- query (select_coupon t (JsString.toUpperCase code)) ;;
           match couponResult with
           | [] => ret (Failure 404 "Invalid or expired coupon code")
           | coupon :: _ =>
               bookingResult <- query (select_booking bookingId) ;;
               match bookingResult with
               | [] => ret (Failure 404 "Booking not found")
               | booking :: _ =>
                   let discount := capped_discount coupon (b_total_amount booking) in
                   _ <- query (execute
                                 (update_booking_coupon bookingId (c_code coupon)
                                    discount (newTotal booking discount)
                                    (newDeposit booking discount))) ;;
                   _ <- query (execute (increment_used_count (c_id coupon))) ;;
                   ret (Json 200
                          {| ar_success := true;
                             ar_discountApplied := JsNumber.toFixed2 discount;
                             ar_newTotal :=
                               JsNumber.toFixed2 (newTotal booking discount);
                             ar_newDeposit :=
                               JsNumber.toFixed2 (newDeposit booking discount) |})
               end
           end
       | _, _ => throw (JsError "TypeError")
       end)
    (fun _ => Failure 500 "Failed to apply coupon").


End Coupons.

(* ===================================================================== *)
(** ** routes/bookings.js *)
(* ===================================================================== *)

Module Bookings.
Import Store Io.

(** [generatePaymentToken]: six random bytes in hexadecimal. *)
Definition generatePaymentToken : io string :=
  bytes <- randomBytes 6 ;;
  ret (JsString.hex bytes).

(** Body of [POST /api/bookings], after [bookingValidation]. *)
Record create_body := {
  customerName : string;
  customerEmail : string;
  customerPhone : string;
  vehicleType : string;
  packageId : option Z;
  serviceId : option Z;
  (** [None] when the field is missing or is not an array *)
  addonIds : option (list Z);
  bookingDate : string;
  bookingTime : string;
  address : string;
  notes : string
}.

Record addon_detail := {
  ad_id : Z;
  ad_name : string;
  ad_price : num
}.

(** The payment link [`${baseUrl}/pay?id=${booking.id}&token=${paymentToken}`],
    kept as its three parts. *)
Record payment_link := {
  pl_baseUrl : string;
  pl_id : Z;
  pl_token : string
}.

Record create_reply := {
  cr_success : bool;
  cr_booking : booking;
  cr_totalAmount : num;
  cr_depositAmount : num;
  cr_addons : list addon_detail;
  cr_paymentLink : payment_link
}.

Definition select_service (id : Z) : statement (list service) :=
  select (fun d => List.filter (fun s => s_id s =? id) (services d)).

Definition select_package (id : Z) : statement (list package) :=
  select (fun d => List.filter (fun p => p_id p =? id) (packages d)).

(** The price column of a service for a vehicle type: everything that is
    neither a sedan nor an SUV pays the truck price. *)
Definition service_price (s : service) (vehicle : string) : num :=
  if String.eqb vehicle "sedan" then s_sedan_price s
  else if String.eqb vehicle "suv" then s_suv_price s
  else s_truck_price s.

(** [vehicle_multipliers[vehicle] || 1.0]. *)
Definition multiplier (p : package) (vehicle : string) : num :=
  match p_vehicle_multipliers p !! vehicle with
  | Some m => if JsNumber.truthy m then m else Fin 1
  | None => Fin 1
  end.

(** The price column of an add-on: [commercial_price], [suv_price] or
    [sedan_price]. *)
Definition addon_price (a : addon) (vehicle : string) : num :=
  if String.eqb vehicle "commercial" then a_commercial_price a
  else if String.eqb vehicle "suv" then a_suv_price a
  else a_sedan_price a.

(** [SELECT id, name, <column> as price FROM addons WHERE id IN (...) AND
    is_active = true]. *)
Definition select_addons (ids : list Z) (vehicle : string)
    : statement (list addon_detail) :=
  select (fun d =>
    map (fun a => {| ad_id := a_id a; ad_name := a_name a;
                     ad_price := addon_price a vehicle |})
        (List.filter (fun a => existsb (Z.eqb (a_id a)) ids && a_is_active a)
                     (addons d))).


(** The loop [for (const addon of addonResult.rows) addonTotal += price]. *)
Definition addon_total (rows : list addon_detail) : num :=
  fold_left (fun acc a => JsNumber.add acc (ad_price a)) rows (JsNumber.of_Z 0).

Definition select_deposit_percentage : statement (list setting) :=
  select (fun d =>
    List.filter (fun s => String.eqb (st_key s) "deposit_percentage") (settings d)).

(** [rows.length > 0 ? parseFloat(rows[0].value)
                     : parseFloat(process.env.DEPOSIT_PERCENTAGE || 0.25)]. *)
Definition deposit_percentage (rows : list setting) (from_env : option num) : num :=
  match rows with
  | s :: _ => st_value s
  | [] => default (Fin (1 # 4)) from_env
  end.

(** [INSERT INTO bookings (...) VALUES (...) RETURNING *]: the status is
    ['pending'], the coupon columns are left [NULL]. *)
Definition insert_booking (rq : create_body) (totalAmount depositAmount : num)
    (paymentToken : string) (t : Z) : statement (list booking) :=
  fun d =>
    let row :=
      {| b_id := next_id d;
         b_customer_name := customerName rq;
         b_customer_email := customerEmail rq;
         b_customer_phone := customerPhone rq;
         b_vehicle_type := vehicleType rq;
         b_package_id := if truthy_id (packageId rq) then packageId rq else None;
         b_service_id := if truthy_id (serviceId rq) then serviceId rq else None;
         b_booking_date := bookingDate rq;
         b_booking_time := bookingTime rq;
         b_address := address rq;
         b_notes := notes rq;
         b_total_amount := totalAmount;
         b_deposit_amount := depositAmount;
         b_status := "pending";
         b_payment_token := Some paymentToken;
         b_coupon_code := None;
         b_coupon_discount := None;
         b_updated_at :=
           if d_booking_updated_now (schema d) then Some t else None |} in
    (Returned [row],
     with_next_id (next_id d + 1) (with_bookings (bookings d ++ [row]) d)).

Definition insert_booking_addon (booking_id : Z) (a : addon_detail)
    (d : database) : database :=
  with_booking_addons
    (booking_addons d ++
       [{| ba_booking_id := booking_id; ba_addon_id := ad_id a;
           ba_price_charged := ad_price a |}]) d.

(** [await Promise.all(promises)]: every promise was started by the [map]
    that built the array, so every statement runs; the first rejection is the
    one thrown. *)
Fixpoint promise_all (ms : list (io unit)) : io unit :=
  match ms with
  | [] => ret tt
  | m :: rest =>
      fun w =>
        match m w with
        | (Returned _, w1) => promise_all rest w1
        | (Thrown e, w1) => (Thrown e, snd (promise_all rest w1))
        end
  end.

(** [sendNotification] of [middleware/notifications.js], which is not among
    the sources at hand: the call completes and the notification is recorded,
    or it throws. *)
Definition sendNotification (type : string) (bookingId : Z) : io unit :=
  fun w =>
    if w_notify w
    then (Returned tt, with_sent (w_sent w ++ [(type, bookingId)]) w)
    else (Thrown (JsError "notification failed"), w).

(** The handler from the add-ons on, once the base price is known. *)
Definition priced (rq : create_body) (basePrice : num) (serviceName : string)
    : io (reply create_reply) :=
  addonDetails <-
    match addonIds rq with
    | Some ((_ :: _) as ids) =>
        query (select_addons ids (JsString.toLowerCase (vehicleType rq)))
    | _ => ret []
    end ;;
  let totalAmount := JsNumber.add basePrice (addon_total addonDetails) in
  settingsResult <- query select_deposit_percentage ;;
  from_env <- getenv DEPOSIT_PERCENTAGE ;;
  let depositAmount :=
    JsNumber.mul totalAmount (deposit_percentage settingsResult from_env) in
  paymentToken <- generatePaymentToken ;;
  t <- now ;;
  result <- query (insert_booking rq totalAmount depositAmount paymentToken t) ;;
  match result with
  | [] => throw (JsError "TypeError")
  | booking :: _ =>
      _ <- promise_all
             (map (fun a => query (execute (insert_booking_addon (b_id booking) a)))
                  addonDetails) ;;
      _ <- sendNotification "new_booking" (b_id booking) ;;
      app_url <- getenv APP_URL ;;
      let baseUrl :=
        match app_url with
        | Some u => if JsString.truthy u then u else "https://showersautodetail.com"
        | None => "https://showersautodetail.com"
        end in
      ret (Json 201
             {| cr_success := true;
                cr_booking := booking;
                cr_totalAmount := JsNumber.toFixed2 totalAmount;
                cr_depositAmount := JsNumber.toFixed2 depositAmount;
                cr_addons := addonDetails;
                cr_paymentLink :=
                  {| pl_baseUrl := baseUrl; pl_id := b_id booking;
                     pl_token := paymentToken |} |})
  end.

(** The branch [if (serviceId)]: the fixed prices of the services table. *)
Definition by_service (rq : create_body) (id : Z) : io (reply create_reply) :=
  serviceResult <- query (select_service id) ;;
  match serviceResult with
  | [] => ret (Failure 404 "Service not found")
  | service :: _ =>
      priced rq
        (service_price service (JsString.toLowerCase (vehicleType rq)))
        (s_name service)
  end.

(** The branch [else if (packageId)]: the legacy packages table. *)
Definition by_package (rq : create_body) (id : Z) : io (reply create_reply) :=
  packageResult <- query (select_package id) ;;
  match packageResult with
  | [] => ret (Failure 404 "Package not found")
  | package :: _ =>
      priced rq
        (JsNumber.mul (p_base_price package)
           (multiplier package (JsString.toLowerCase (vehicleType rq))))
        (p_name package)
  end.

(** [POST /api/bookings], behind [bookingLimiter] and [bookingValidation]. *)
Definition create (rq : create_body) : world -> reply create_reply * world :=
  handler
    (if truthy_id (serviceId rq)
     then by_service rq (default 0 (serviceId rq))
     else if truthy_id (packageId rq)
     then by_package rq (default 0 (packageId rq))
     else ret (Failure 400 "Service or package ID required"))
    (fun _ => Failure 500 "Failed to create booking").

Definition validStatuses : list string :=
  ["pending"; "confirmed"; "in_progress"; "completed"; "cancelled"].

(** One [column = $n] of an [UPDATE bookings SET ...], with its value. *)
Inductive assignment : Type :=
| customer_name (v : string)
| customer_email (v : string)
| customer_phone (v : string)
| vehicle_type (v : string)
| booking_date (v : string)
| booking_time (v : string)
| address_ (v : string)
| notes_ (v : string)
| total_amount (v : num)
| deposit_amount (v : num)
| status (v : string)
| updated_at (t : Z).

Definition assign (b : booking) (a : assignment) : booking :=
  match a with
  | customer_name v =>
      Build_booking (b_id b) v (b_customer_email b) (b_customer_phone b)
        (b_vehicle_type b) (b_package_id b) (b_service_id b) (b_booking_date b)
        (b_booking_time b) (b_address b) (b_notes b) (b_total_amount b)
        (b_deposit_amount b) (b_status b) (b_payment_token b)
        (b_coupon_code b) (b_coupon_discount b) (b_updated_at b)
  | customer_email v =>
      Build_booking (b_id b) (b_customer_name b) v (b_customer_phone b)
        (b_vehicle_type b) (b_package_id b) (b_service_id b) (b_booking_date b)
        (b_booking_time b) (b_address b) (b_notes b) (b_total_amount b)
        (b_deposit_amount b) (b_status b) (b_payment_token b)
        (b_coupon_code b) (b_coupon_discount b) (b_updated_at b)
  | customer_phone v =>
      Build_booking (b_id b) (b_customer_name b) (b_customer_email b) v
        (b_vehicle_type b) (b_package_id b) (b_service_id b) (b_booking_date b)
        (b_booking_time b) (b_address b) (b_notes b) (b_total_amount b)
        (b_deposit_amount b) (b_status b) (b_payment_token b)
        (b_coupon_code b) (b_coupon_discount b) (b_updated_at b)
  | vehicle_type v =>
      Build_booking (b_id b) (b_customer_name b) (b_customer_email b)
        (b_customer_phone b) v (b_package_id b) (b_service_id b)
        (b_booking_date b) (b_booking_time b) (b_address b) (b_notes b)
        (b_total_amount b) (b_deposit_amount b) (b_status b)
        (b_payment_token b) (b_coupon_code b) (b_coupon_discount b)
        (b_updated_at b)
  | booking_date v =>
      Build_booking (b_id b) (b_customer_name b) (b_customer_email b)
        (b_customer_phone b) (b_vehicle_type b) (b_package_id b)
        (b_service_id b) v (b_booking_time b) (b_address b) (b_notes b)
        (b_total_amount b) (b_deposit_amount b) (b_status b)
        (b_payment_token b) (b_coupon_code b) (b_coupon_discount b)
        (b_updated_at b)
  | booking_time v =>
      Build_booking (b_id b) (b_customer_name b) (b_customer_email b)
        (b_customer_phone b) (b_vehicle_type b) (b_package_id b)
        (b_service_id b) (b_booking_date b) v (b_address b) (b_notes b)
        (b_total_amount b) (b_deposit_amount b) (b_status b)
        (b_payment_token b) (b_coupon_code b) (b_coupon_discount b)
        (b_updated_at b)
  | address_ v =>
      Build_booking (b_id b) (b_customer_name b) (b_customer_email b)
        (b_customer_phone b) (b_vehicle_type b) (b_package_id b)
        (b_service_id b) (b_booking_date b) (b_booking_time b) v (b_notes b)
        (b_total_amount b) (b_deposit_amount b) (b_status b)
        (b_payment_token b) (b_coupon_code b) (b_coupon_discount b)
        (b_updated_at b)
  | notes_ v =>
      Build_booking (b_id b) (b_customer_name b) (b_customer_email b)
        (b_customer_phone b) (b_vehicle_type b) (b_package_id b)
        (b_service_id b) (b_booking_date b) (b_booking_time b) (b_address b) v
        (b_total_amount b) (b_deposit_amount b) (b_status b)
        (b_payment_token b) (b_coupon_code b) (b_coupon_discount b)
        (b_updated_at b)
  | total_amount v =>
      Build_booking (b_id b) (b_customer_name b) (b_customer_email b)
        (b_customer_phone b) (b_vehicle_type b) (b_package_id b)
        (b_service_id b) (b_booking_date b) (b_booking_time b) (b_address b)
        (b_notes b) v (b_deposit_amount b) (b_status b) (b_payment_token b)
        (b_coupon_code b) (b_coupon_discount b) (b_updated_at b)
  | deposit_amount v =>
      Build_booking (b_id b) (b_customer_name b) (b_customer_email b)
        (b_customer_phone b) (b_vehicle_type b) (b_package_id b)
        (b_service_id b) (b_booking_date b) (b_booking_time b) (b_address b)
        (b_notes b) (b_total_amount b) v (b_status b) (b_payment_token b)
        (b_coupon_code b) (b_coupon_discount b) (b_updated_at b)
  | status v =>
      Build_booking (b_id b) (b_customer_name b) (b_customer_email b)
        (b_customer_phone b) (b_vehicle_type b) (b_package_id b)
        (b_service_id b) (b_booking_date b) (b_booking_time b) (b_address b)
        (b_notes b) (b_total_amount b) (b_deposit_amount b) v
        (b_payment_token b) (b_coupon_code b) (b_coupon_discount b)
        (b_updated_at b)
  | updated_at t =>
      Build_booking (b_id b) (b_customer_name b) (b_customer_email b)
        (b_customer_phone b) (b_vehicle_type b) (b_package_id b)
        (b_service_id b) (b_booking_date b) (b_booking_time b) (b_address b)
        (b_notes b) (b_total_amount b) (b_deposit_amount b) (b_status b)
        (b_payment_token b) (b_coupon_code b) (b_coupon_discount b) (Some t)
  end.

(** [UPDATE bookings SET <updates> WHERE id = $n RETURNING *]. *)
Definition update_booking (id : Z) (updates : list assignment)
    : statement (list booking) :=
  fun d =>
    let rows :=
      map (fun b => if b_id b =? id then fold_left assign updates b else b)
          (bookings d) in
    (Returned (List.filter (fun b => b_id b =? id) rows), with_bookings rows d).

(** [PATCH /api/bookings/:id/status], behind [authenticateToken]; [None] is
    a body without a status, or with one that is not a string. *)
Definition patch_status (id : Z) (body_status : option string)
    : world -> reply booking * world :=
  handler
    (match body_status with
     | Some s =>
         if negb (JsString.includes validStatuses s)
         then ret (Failure 400 "Invalid status")
         else
           t <- now ;;
           result <- query (update_booking id [status s; updated_at t]) ;;
           match result with
           | [] => ret (Failure 404 "Booking not found")
           | row :: _ => ret (Json 200 row)
           end
     | None => ret (Failure 400 "Invalid status")
     end)
    (fun _ => Failure 500 "Failed to update booking").

(** Body of [PUT /api/bookings/:id]: a field is [None] when it is
    [undefined]. *)
Record put_body := {
  put_customerName : option string;
  put_customerEmail : option string;
  put_customerPhone : option string;
  put_vehicleType : option string;
  put_bookingDate : option string;
  put_bookingTime : option string;
  put_address : option string;
  put_notes : option string;
  put_totalAmount : option num;
  put_depositAmount : option num;
  put_status : option string
}.

(** [if (field !== undefined) { updates.push(...); values.push(field) }]. *)
Definition push {A} (col : A -> assignment) (field : option A)
    (updates : list assignment) : list assignment :=
  match field with
  | Some v => updates ++ [col v]
  | None => updates
  end.

(** The assignments collected before the status is looked at. *)
Definition plain_updates (rq : put_body) : list assignment :=
  push deposit_amount (put_depositAmount rq)
    (push total_amount (put_totalAmount rq)
      (push notes_ (put_notes rq)
        (push address_ (put_address rq)
          (push booking_time (put_bookingTime rq)
            (push booking_date (put_bookingDate rq)
              (push vehicle_type (put_vehicleType rq)
                (push customer_phone (put_customerPhone rq)
                  (push customer_email (put_customerEmail rq)
                    (push customer_name (put_customerName rq) []))))))))).

(** [PUT /api/bookings/:id], behind [authenticateToken] and
    [idParamValidation]. *)
Definition put (id : Z) (rq : put_body) : world -> reply booking * world :=
  handler
    (let updates := plain_updates rq in
     let checked :=
       match put_status rq with
       | Some s =>
           if negb (JsString.includes validStatuses s) then None
           else Some (updates ++ [status s])
       | None => Some updates
       end in
     match checked with
     | None => ret (Failure 400 "Invalid status")
     | Some [] => ret (Failure 400 "No fields to update")
     | Some updates =>
         t <- now ;;
         result <- query (update_booking id (updates ++ [updated_at t])) ;;
         match result with
         | [] => ret (Failure 404 "Booking not found")
         | row :: _ => ret (Json 200 row)
         end
     end)
    (fun _ => Failure 500 "Failed to update booking").

End Bookings.

(* ===================================================================== *)
(** ** routes/google-reviews.js *)
(* ===================================================================== *)

Module GoogleReviews.
Import Store Io.

(** [parseInt(process.env.GOOGLE_REVIEWS_CACHE_HOURS) || 24]. *)
Definition CACHE_HOURS (e : environment) : Z :=
  match GOOGLE_REVIEWS_CACHE_HOURS e with
  | Some h => if h =? 0 then 24 else h
  | None => 24
  end.

Definition isConfigured (e : environment) : bool :=
  JsString.present (GOOGLE_MAPS_API_KEY e) && JsString.present (GOOGLE_PLACE_ID e).

(** [fetchFromGoogle]: one call of the Places API; a failed call and a
    response that is not ok both throw. *)
Definition fetchFromGoogle : io google_place :=
  fun w =>
    let w1 := with_fetches (S (w_fetches w)) w in
    match w_google w with
    | Some place => (Returned place, w1)
    | None => (Thrown (JsError "Google API error"), w1)
    end.

Definition num_or (a : option num) (b : num) : num :=
  match a with
  | Some n => if JsNumber.truthy n then n else b
  | None => b
  end.

Definition transformReview (r : google_review) : review :=
  {| author_name := JsString.or_else (gr_author_displayName r) "Anonymous";
     author_photo_url := JsString.or_none (gr_author_photoUri r);
     rating := num_or (gr_rating r) (JsNumber.of_Z 5);
     text := JsString.or_else (gr_text r) (JsString.or_else (gr_originalText r) "");
     relative_time := JsString.or_else (gr_relativePublishTimeDescription r) "";
     publish_time := JsString.or_none (gr_publishTime r);
     google_maps_uri := JsString.or_none (gr_googleMapsUri r) |}.

Definition transformReviews (googleData : google_place) : reviews_data :=
  {| rd_overall_rating :=
       match gp_rating googleData with
       | Some n => if JsNumber.truthy n then Some n else None
       | None => None
       end;
     rd_total_reviews := num_or (gp_userRatingCount googleData) (JsNumber.of_Z 0);
     rd_business_name := JsString.or_else (gp_displayName googleData) "";
     rd_reviews := map transformReview (default [] (gp_reviews googleData)) |}.

(** The body of a successful answer; [NotConfigured] is
    [{ enabled: false, ... }]. *)
Inductive reviews_reply : Type :=
| NotConfigured
| Reviews (overall_rating : option num) (total_reviews : num)
    (reviews : list review) (business_name : string)
    (cached stale : bool) (cached_at : Z).

(** [WHERE place_id = $1 AND cached_at > NOW() - INTERVAL 'h hours']. *)
Definition fresh (place : string) (t hours : Z) (r : cache_row) : bool :=
  String.eqb (gc_place_id r) place && (t - hours * 3600000 <? gc_cached_at r).

Definition select_fresh (place : string) (t hours : Z) : statement (list cache_row) :=
  select (fun d => List.filter (fresh place t hours) (google_reviews_cache d)).

Definition select_cached (place : string) : statement (list cache_row) :=
  select (fun d =>
    List.filter (fun r => String.eqb (gc_place_id r) place) (google_reviews_cache d)).

(** [INSERT INTO google_reviews_cache ... ON CONFLICT (place_id) DO UPDATE
    SET ..., cached_at = NOW()]. *)
Definition upsert_cache (place : string) (data : reviews_data) (t : Z)
    (d : database) : database :=
  let row :=
    {| gc_place_id := place;
       gc_overall_rating := rd_overall_rating data;
       gc_total_reviews := rd_total_reviews data;
       gc_reviews_data := data;
       gc_cached_at := t |} in
  let rows := google_reviews_cache d in
  with_google_reviews_cache
    (if existsb (fun r => String.eqb (gc_place_id r) place) rows
     then map (fun r => if String.eqb (gc_place_id r) place then row else r) rows
     else rows ++ [row]) d.

(** The answer built from a cache row.  [parseFloat] of a [NULL] rating is
    [NaN], which the JSON reply prints as [null]: [None]. *)
Definition from_cache (cached : cache_row) (stale : bool) : reviews_reply :=
  Reviews (gc_overall_rating cached) (gc_total_reviews cached)
    (rd_reviews (gc_reviews_data cached))
    (rd_business_name (gc_reviews_data cached))
    true stale (gc_cached_at cached).

Definition getCachedOrFetch (forceRefresh : bool) : io reviews_reply :=
  place <- getenv GOOGLE_PLACE_ID ;;
  let placeId := default "" place in
  hours <- getenv CACHE_HOURS ;;
  t <- now ;;
  cacheResult <-
    (if forceRefresh then ret [] else query (select_fresh placeId t hours)) ;;
  match cacheResult with
  | cached :: _ => ret (from_cache cached false)
  | [] =>
      googleData <- fetchFromGoogle ;;
      let transformed := transformReviews googleData in
      _ <- query (execute (upsert_cache placeId transformed t)) ;;
      ret (Reviews (rd_overall_rating transformed) (rd_total_reviews transformed)
             (rd_reviews transformed) (rd_business_name transformed)
             false false t)
  end.

(** The inner [try] of the [catch] block: the cache row whatever its age,
    [None] when there is none or when the lookup throws as well. *)
Definition stale_fallback : io (option reviews_reply) :=
  try_catch
    (place <- getenv GOOGLE_PLACE_ID ;;
     staleResult <- query (select_cached (default "" place)) ;;
     match staleResult with
     | cached :: _ => ret (Some (from_cache cached true))
     | [] => ret None
     end)
    (fun _ => ret None).

(** [GET /api/google-reviews].  Nothing escapes the two [catch] blocks; the
    last argument of [handler] is the error middleware of [server.js]. *)
Definition get : world -> reply reviews_reply * world :=
  handler
    (try_catch
       (configured <- getenv isConfigured ;;
        if negb configured then ret (Json 200 NotConfigured)
        else
          data <- getCachedOrFetch false ;;
          ret (Json 200 data))
       (fun _ =>
          fallback <- stale_fallback ;;
          match fallback with
          | Some data => ret (Json 200 data)
          | None => ret (Failure 500 "Failed to fetch Google reviews")
          end))
    (fun _ => Failure 500 "Internal server error").

(** [GET /api/google-reviews/refresh]. *)
Definition refresh : world -> reply reviews_reply * world :=
  handler
    (configured <- getenv isConfigured ;;
     if negb configured then ret (Failure 400 "Google Reviews not configured")
     else
       data <- getCachedOrFetch true ;;
       ret (Json 200 data))
    (fun _ => Failure 500 "Failed to refresh Google reviews").

(** Proof steps for [get]: open the handler down to its statements, given
    that the place is configured ([Hconf], [Hplace]); and close a branch once
    the fault schedule is known. *)
Ltac run_get Hconf Hplace :=
  unfold get, handler, try_catch, bind, getenv, getCachedOrFetch, stale_fallback,
    try_catch, bind, getenv, now, query, select_fresh, select_cached, select,
    execute, fetchFromGoogle, ret;
  simpl; rewrite Hconf; simpl; rewrite !Hplace; simpl.

Ltac finish_get Hplace :=
  simpl; rewrite ?Hplace; simpl;
  repeat (destruct (List.filter _ _); simpl); repeat split; reflexivity.

End GoogleReviews.

(* ===================================================================== *)
(** ** routes/auth.js *)
(* ===================================================================== *)

Module Auth.
Import Store Io.

Section WithLibraries.

(** The library functions the routes call: the hexadecimal SHA-256 digest of
    [crypto], [jwt.sign] on a payload (id, email, role) with a secret at a
    given time, and [authenticator.verify] of otplib at a given time. *)
Variable sha256_hex : string -> string.
Variable jwt_sign : Z -> string -> string -> string -> Z -> string.
Variable totp_verify : string -> string -> Z -> bool.

Definition REFRESH_TOKEN_EXPIRY_DAYS : Z := 30.

(** Body and headers of [POST /api/auth/login], after [loginValidation]. *)
Record login_body := {
  email : string;
  password : string;
  rememberMe : bool;
  totpCode : option string;
  user_agent : option string
}.

Inductive login_reply : Type :=
| RequiresTwoFactor
| LoggedIn (accessToken refreshToken : string) (id : Z) (email name role : string).

(** [jwt.sign(payload, process.env.JWT_SECRET, ...)]: a missing or empty
    secret makes it throw. *)
Definition sign (id : Z) (email role : string) : io string :=
  secret <- getenv JWT_SECRET ;;
  t <- now ;;
  match secret with
  | Some k =>
      if JsString.truthy k then ret (jwt_sign id email role k t)
      else throw (JsError "secretOrPrivateKey must have a value")
  | None => throw (JsError "secretOrPrivateKey must have a value")
  end.

Definition select_admin (email : string) : statement (list admin_user) :=
  select (fun d => List.filter (fun u => String.eqb (u_email u) email) (admin_users d)).

(** [INSERT INTO admin_users (email, password_hash, name, role) ...]. *)
Definition insert_admin (email : string) : statement (list admin_user) :=
  fun d =>
    let row :=
      {| u_id := next_id d; u_email := email; u_password_hash := "ENV_MANAGED";
         u_name := "Admin"; u_role := "admin";
         u_totp_enabled := d_admin_totp_enabled (schema d);
         u_totp_secret := None;
         u_is_active := d_admin_is_active (schema d) |} in
    (Returned [row],
     with_next_id (next_id d + 1) (with_admin_users (admin_users d ++ [row]) d)).

(** [INSERT INTO refresh_tokens (user_id, token_hash, expires_at,
    device_info) VALUES (...)]. *)
Definition insert_refresh_token (user_id : Z) (token_hash : string)
    (expires_at : Z) (device_info : string) (d : database) : database :=
  with_refresh_tokens
    (refresh_tokens d ++
       [{| rt_user_id := user_id; rt_token_hash := token_hash;
           rt_expires_at := expires_at; rt_device_info := device_info;
           rt_is_revoked := d_token_is_revoked (schema d) |}]) d.

(** The end of the login handler, once the user row is known: the access
    token, then the refresh token, of which only the digest is stored. *)
Definition issue_tokens (rq : login_body) (adminEmail : string) (user : admin_user)
    : io (reply login_reply) :=
  accessToken <- sign (u_id user) adminEmail "admin" ;;
  bytes <- randomBytes 64 ;;
  let refreshToken := JsString.hex bytes in
  let tokenHash := sha256_hex refreshToken in
  let expiryDays := if rememberMe rq then REFRESH_TOKEN_EXPIRY_DAYS else 1 in
  t <- now ;;
  let expiresAt := t + expiryDays * 24 * 60 * 60 * 1000 in
  _ <- query (execute
                (insert_refresh_token (u_id user) tokenHash expiresAt
                   (JsString.or_else (user_agent rq) "Unknown"))) ;;
  ret (Json 200
         (LoggedIn accessToken refreshToken (u_id user) adminEmail
            (if JsString.truthy (u_name user) then u_name user else "Admin")
            "admin")).

(** [POST /api/auth/login]. *)
Definition login (rq : login_body) : world -> reply login_reply * world :=
  handler
    (adminEmail <- getenv ADMIN_EMAIL ;;
     adminPassword <- getenv ADMIN_PASSWORD ;;
     match adminEmail, adminPassword with
     | Some adminEmail, Some adminPassword =>
         if negb (JsString.truthy adminEmail) || negb (JsString.truthy adminPassword)
         then ret (Failure 500 "Server configuration error")
         else if negb (String.eqb (email rq) adminEmail)
                 || negb (String.eqb (password rq) adminPassword)
         then ret (Failure 401 "Invalid credentials")
         else
           userResult <- query (select_admin adminEmail) ;;
           match userResult with
           | user :: _ =>
               if u_totp_enabled user && JsString.present (u_totp_secret user)
               then
                 match totpCode rq with
                 | Some code =>
                     if negb (JsString.truthy code)
                     then ret (Json 200 RequiresTwoFactor)
                     else
                       t <- now ;;
                       if totp_verify code (default "" (u_totp_secret user)) t
                       then issue_tokens rq adminEmail user
                       else ret (Failure 401 "Invalid 2FA code")
                 | None => ret (Json 200 RequiresTwoFactor)
                 end
               else issue_tokens rq adminEmail user
           | [] =>
               result <- query (insert_admin adminEmail) ;;
               match result with
               | user :: _ => issue_tokens rq adminEmail user
               | [] => throw (JsError "TypeError")
               end
           end
     | _, _ => ret (Failure 500 "Server configuration error")
     end)
    (fun _ => Failure 500 "Login failed").

(** The [WHERE] clause of the refresh lookup on a joined row:
    [rt.token_hash = $1 AND rt.is_revoked = false AND rt.expires_at > NOW()
    AND au.is_active = true]. *)
Definition live (tokenHash : string) (t : Z) (rt : refresh_token) (au : admin_user)
    : bool :=
  String.eqb (rt_token_hash rt) tokenHash
  && negb (rt_is_revoked rt)
  && (t <? rt_expires_at rt)
  && u_is_active au.

(** [SELECT rt.*, au.email, au.name, au.role FROM refresh_tokens rt JOIN
    admin_users au ON rt.user_id = au.id WHERE ...]. *)
Definition select_session (tokenHash : string) (t : Z)
    : statement (list (refresh_token * admin_user)) :=
  select (fun d =>
    flat_map
      (fun rt =>
         map (fun au => (rt, au))
             (List.filter
                (fun au => (rt_user_id rt =? u_id au) && live tokenHash t rt au)
                (admin_users d)))
      (refresh_tokens d)).

(** A digest matches a stored session: a refresh-token row with that digest
    that is not revoked and not expired, whose user is active. *)
Definition valid_session (tokenHash : string) (t : Z) (d : database) : Prop :=
  exists rt au,
    In rt (refresh_tokens d) /\ In au (admin_users d) /\
    rt_user_id rt = u_id au /\
    rt_token_hash rt = tokenHash /\
    rt_is_revoked rt = false /\
    t < rt_expires_at rt /\
    u_is_active au = true.

(** [POST /api/auth/refresh]; the reply carries the new access token. *)
Definition refresh (refreshToken : option string) : world -> reply string * world :=
  if negb (JsString.present refreshToken)
  then fun w => (Failure 400 "Refresh token required", w)
  else
    handler
      (t <- now ;;
       result <- query (select_session (sha256_hex (default "" refreshToken)) t) ;;
       match result with
       | [] => ret (Failure 401 "Invalid or expired refresh token")
       | (rt, au) :: _ =>
           accessToken <- sign (rt_user_id rt) (u_email au) (u_role au) ;;
           ret (Json 200 accessToken)
       end)
      (fun _ => Failure 500 "Token refresh failed").

Definition revoke (rt : refresh_token) : refresh_token :=
  {| rt_user_id := rt_user_id rt; rt_token_hash := rt_token_hash rt;
     rt_expires_at := rt_expires_at rt; rt_device_info := rt_device_info rt;
     rt_is_revoked := true |}.

(** [UPDATE refresh_tokens SET is_revoked = true WHERE token_hash = $1]. *)
Definition revoke_token (tokenHash : string) (d : database) : database :=
  with_refresh_tokens
    (map (fun rt => if String.eqb (rt_token_hash rt) tokenHash
                    then revoke rt else rt)
         (refresh_tokens d)) d.

(** [POST /api/auth/logout]: the answer is [{ success: true }] whatever
    happens; an error of the statement is only logged. *)
Definition logout (refreshToken : option string) : world -> reply bool * world :=
  handler
    (_ <- (if JsString.present refreshToken
           then try_catch
                  (query (execute
                            (revoke_token (sha256_hex (default "" refreshToken)))))
                  (fun _ => ret tt)
           else ret tt) ;;
     ret (Json 200 true))
    (fun _ => Failure 500 "Internal server error").

End WithLibraries.

End Auth.

(* ===================================================================== *)
(** ** A small shop, for worked examples *)
(* ===================================================================== *)

Module Samples.
Import Store Io.

Definition sample_coupons : list coupon :=
  [ {| c_id := 1; c_code := "SAVE20"; c_discount_type := "fixed";
       c_discount_value := Fin 20; c_max_uses := None; c_used_count := 0;
       c_expires_at := None; c_is_active := true |};
    {| c_id := 2; c_code := "HALF"; c_discount_type := "percent";
       c_discount_value := Fin 50; c_max_uses := Some 10; c_used_count := 3;
       c_expires_at := None; c_is_active := true |};
    {| c_id := 3; c_code := "FREE"; c_discount_type := "percent";
       c_discount_value := Fin 100; c_max_uses := None; c_used_count := 0;
       c_expires_at := None; c_is_active := true |};
    {| c_id := 4; c_code := "OLD"; c_discount_type := "percent";
       c_discount_value := Fin 10; c_max_uses := None; c_used_count := 0;
       c_expires_at := Some 500; c_is_active := true |} ].

Definition sample_booking : booking :=
  {| b_id := 1; b_customer_name := "Ada Park"; b_customer_email := "ada@example.com";
     b_customer_phone := "555-0100"; b_vehicle_type := "suv";
     b_package_id := None; b_service_id := Some 1;
     b_booking_date := "2025-06-01"; b_booking_time := "10:00";
     b_address := "1 Main St"; b_notes := "";
     b_total_amount := Fin 100; b_deposit_amount := Fin 25;
     b_status := "pending"; b_payment_token := Some "00a1b2c3d4e5";
     b_coupon_code := None; b_coupon_discount := None; b_updated_at := None |}.

Definition sample_services : list service :=
  [ {| s_id := 1; s_name := "Full Detail"; s_sedan_price := Fin 150;
       s_suv_price := Fin 180; s_truck_price := Fin 200 |} ].

Definition sample_packages : list package :=
  [ {| p_id := 1; p_name := "Classic"; p_base_price := Fin 100;
       p_vehicle_multipliers := {[ "suv" := Fin (5 # 4) ]} |} ].

Definition sample_addons : list addon :=
  [ {| a_id := 1; a_name := "Wax"; a_sedan_price := Fin 20;
       a_suv_price := Fin 30; a_commercial_price := Fin 40; a_is_active := true |};
    {| a_id := 2; a_name := "Pet hair"; a_sedan_price := Fin 15;
       a_suv_price := Fin 25; a_commercial_price := Fin 35; a_is_active := false |} ].

Definition sample_admin : admin_user :=
  {| u_id := 7; u_email := "owner@example.com"; u_password_hash := "ENV_MANAGED";
     u_name := "Admin"; u_role := "admin"; u_totp_enabled := false;
     u_totp_secret := None; u_is_active := true |}.

Definition sample_reviews : reviews_data :=
  {| rd_overall_rating := Some (Fin (49 # 10)); rd_total_reviews := Fin 12;
     rd_business_name := "Showers Auto Detail"; rd_reviews := [] |}.

(** A cache row written at time [0], long before the sample clock. *)
Definition old_cache_row : cache_row :=
  {| gc_place_id := "place-1"; gc_overall_rating := Some (Fin (49 # 10));
     gc_total_reviews := Fin 12; gc_reviews_data := sample_reviews;
     gc_cached_at := 0 |}.

Definition sample_defaults : defaults :=
  {| d_coupon_is_active := true; d_coupon_used_count := 0;
     d_booking_updated_now := true; d_admin_totp_enabled := false;
     d_admin_is_active := true; d_token_is_revoked := false |}.

Definition sample_db : database :=
  {| coupons := sample_coupons; bookings := [sample_booking];
     services := sample_services; packages := sample_packages;
     addons := sample_addons; settings := [];
     booking_addons := []; admin_users := [sample_admin];
     refresh_tokens := []; google_reviews_cache := [old_cache_row];
     schema := sample_defaults; next_id := 100 |}.

Definition sample_env : environment :=
  {| ADMIN_EMAIL := Some "owner@example.com"; ADMIN_PASSWORD := Some "hunter2";
     JWT_SECRET := Some "secret"; APP_URL := None;
     GOOGLE_MAPS_API_KEY := Some "key"; GOOGLE_PLACE_ID := Some "place-1";
     GOOGLE_REVIEWS_CACHE_HOURS := None; DEPOSIT_PERCENTAGE := None |}.

Definition sample_entropy (n : nat) : byte :=
  default x00 (Byte.of_N (N.of_nat (17 * n + 3) mod 256)).

(** The shop five days after the epoch, with a database that answers, a
    Places API that does not, and a notifier that works. *)
Definition shop : world :=
  {| w_db := sample_db; w_now := 432000000; w_env := sample_env;
     w_faults := []; w_entropy := sample_entropy; w_drawn := 0;
     w_google := None; w_fetches := 0; w_notify := true; w_sent := [] |}.

(** A stand-in for the SHA-256 digest in worked examples: 64 characters made
    of the input's first characters and a padding. *)
Fixpoint pad64 (n : nat) (s : string) : string :=
  match n with
  | O => EmptyString
  | S m =>
      match s with
      | EmptyString => String "0" (pad64 m EmptyString)
      | String c r => String c (pad64 m r)
      end
  end.

Definition toy_digest (s : string) : string := pad64 64 s.

Definition toy_sign (id : Z) (email role secret : string) (t : Z) : string :=
  (email ++ "." ++ role ++ "." ++ secret)%string.

Definition toy_totp (code secret : string) (t : Z) : bool := String.eqb code secret.

End Samples.

(* ===================================================================== *)
(** ** routes/coupons.js: the administration routes *)
(* ===================================================================== *)

Module CouponsAdmin.
Import Store Io Coupons.

Definition toggle_active (c : coupon) : coupon :=
  {| c_id := c_id c; c_code := c_code c;
     c_discount_type := c_discount_type c;
     c_discount_value := c_discount_value c; c_max_uses := c_max_uses c;
     c_used_count := c_used_count c; c_expires_at := c_expires_at c;
     c_is_active := negb (c_is_active c) |}.

(** [UPDATE coupons SET is_active = NOT is_active WHERE id = $1
    RETURNING *]. *)
Definition toggle_coupon (id : Z) : statement (list coupon) :=
  fun d =>
    let rows :=
      map (fun c => if c_id c =? id then toggle_active c else c) (coupons d) in
    (Returned (List.filter (fun c => c_id c =? id) rows), with_coupons rows d).

(** [PATCH /api/coupons/:id/toggle], behind [authenticateToken]. *)
Definition toggle (id : Z) : world -> reply coupon * world :=
  handler
    (result <- query (toggle_coupon id) ;;
     match result with
     | [] => ret (Failure 404 "Coupon not found")
     | row :: _ => ret (Json 200 row)
     end)
    (fun _ => Failure 500 "Failed to toggle coupon").

(** [DELETE FROM coupons WHERE id = $1 RETURNING id, code]. *)
Definition delete_coupon (id : Z) : statement (list (Z * string)) :=
  fun d =>
    (Returned (map (fun c => (c_id c, c_code c))
                   (List.filter (fun c => c_id c =? id) (coupons d))),
     with_coupons (List.filter (fun c => negb (c_id c =? id)) (coupons d)) d).

(** [DELETE /api/coupons/:id], behind [authenticateToken]; the reply
    [{ success: true, deleted }] is carried as the deleted id and code. *)
Definition delete (id : Z) : world -> reply (Z * string) * world :=
  handler
    (result <- query (delete_coupon id) ;;
     match result with
     | [] => ret (Failure 404 "Coupon not found")
     | row :: _ => ret (Json 200 row)
     end)
    (fun _ => Failure 500 "Failed to delete coupon").

(** Proof step: a branch of a handler that answers before it writes. *)
Ltac nothing_written Hres :=
  subst; left; split; [reflexivity | intros x Hx; simpl in Hx; discriminate Hx].

End CouponsAdmin.

(* ===================================================================== *)
(** ** routes/bookings.js: deletion and the payment page *)
(* ===================================================================== *)

Module BookingsAdmin.
Import Store Io Bookings.

(** [DELETE FROM booking_addons WHERE booking_id = $1]. *)
Definition delete_booking_addons (id : Z) (d : database) : database :=
  with_booking_addons
    (List.filter (fun a => negb (ba_booking_id a =? id)) (booking_addons d)) d.

(** [DELETE FROM bookings WHERE id = $1 RETURNING id, customer_name]. *)
Definition delete_booking (id : Z) : statement (list (Z * string)) :=
  fun d =>
    (Returned (map (fun b => (b_id b, b_customer_name b))
                   (List.filter (fun b => b_id b =? id) (bookings d))),
     with_bookings (List.filter (fun b => negb (b_id b =? id)) (bookings d)) d).

(** [DELETE /api/bookings/:id], behind [authenticateToken] and
    [idParamValidation]. *)
Definition delete (id : Z) : world -> reply (Z * string) * world :=
  handler
    (_ <- query (execute (delete_booking_addons id)) ;;
     result <- query (delete_booking id) ;;
     match result with
     | [] => ret (Failure 404 "Booking not found")
     | row :: _ => ret (Json 200 row)
     end)
    (fun _ => Failure 500 "Failed to delete booking").

(** The columns no update of a booking can reach: its identity, its payment
    token and its coupon. *)
Definition identity_of (b : booking) :=
  (b_id b, b_payment_token b, b_package_id b, b_service_id b,
   b_coupon_code b, b_coupon_discount b).

(** The row [PUT /api/bookings/:id] is to leave at time [t]: each field of
    the body that is there replaces its column, every other column stays. *)
Definition put_result (rq : put_body) (t : Z) (b : booking) : booking :=
  {| b_id := b_id b;
     b_customer_name := default (b_customer_name b) (put_customerName rq);
     b_customer_email := default (b_customer_email b) (put_customerEmail rq);
     b_customer_phone := default (b_customer_phone b) (put_customerPhone rq);
     b_vehicle_type := default (b_vehicle_type b) (put_vehicleType rq);
     b_package_id := b_package_id b;
     b_service_id := b_service_id b;
     b_booking_date := default (b_booking_date b) (put_bookingDate rq);
     b_booking_time := default (b_booking_time b) (put_bookingTime rq);
     b_address := default (b_address b) (put_address rq);
     b_notes := default (b_notes b) (put_notes rq);
     b_total_amount := default (b_total_amount b) (put_totalAmount rq);
     b_deposit_amount := default (b_deposit_amount b) (put_depositAmount rq);
     b_status := default (b_status b) (put_status rq);
     b_payment_token := b_payment_token b;
     b_coupon_code := b_coupon_code b;
     b_coupon_discount := b_coupon_discount b;
     b_updated_at := Some t |}.

(** [s.split(' ')[0]]: the characters before the first space. *)
Fixpoint first_word (s : string) : string :=
  match s with
  | EmptyString => EmptyString
  | String c r => if Ascii.eqb c " " then EmptyString else String c (first_word r)
  end.

(** Whether a string has a space. *)
Fixpoint has_space (s : string) : bool :=
  match s with
  | EmptyString => false
  | String c r => Ascii.eqb c " " || has_space r
  end.

(** A row of the lookup of the payment page: the booking columns it selects,
    with [deposit_paid] and the name of the service or package. *)
Record payment_row := {
  pr_id : Z;
  pr_customer_name : string;
  pr_vehicle_type : string;
  pr_booking_date : string;
  pr_booking_time : string;
  pr_total_amount : num;
  pr_deposit_amount : num;
  pr_deposit_paid : bool;
  pr_payment_token : option string;
  pr_service_name : option string
}.

Record payment_info := {
  pi_id : Z;
  pi_customerFirstName : string;
  pi_vehicleType : string;
  pi_serviceName : option string;
  pi_bookingDate : string;
  pi_bookingTime : string;
  pi_totalAmount : num;
  pi_depositAmount : num;
  pi_depositPaid : bool
}.

Section PaymentPage.

(** The [SELECT ... FROM bookings b LEFT JOIN services s ... LEFT JOIN
    packages p ... WHERE b.id = $1] of the payment page reads the
    [deposit_paid] column, which the store above does not carry: the
    statement is a parameter. *)
Variable select_payment_row : Z -> statement (list payment_row).

(** [GET /api/bookings/:id/payment-info], behind [idParamValidation];
    [token] is the query parameter. *)
Definition get_payment_info (id : Z) (token : option string)
    : world -> reply payment_info * world :=
  handler
    (match token with
     | Some tok =>
         if negb (JsString.truthy tok)
         then ret (Failure 400 "Payment token required")
         else
           result <- query (select_payment_row id) ;;
           match result with
           | [] => ret (Failure 404 "Booking not found")
           | booking :: _ =>
               if negb (match pr_payment_token booking with
                        | Some stored => String.eqb stored tok
                        | None => false
                        end)
               then ret (Failure 404 "Invalid payment link")
               else
                 ret (Json 200
                        {| pi_id := pr_id booking;
                           pi_customerFirstName :=
                             first_word (pr_customer_name booking);
                           pi_vehicleType := pr_vehicle_type booking;
                           pi_serviceName := pr_service_name booking;
                           pi_bookingDate := pr_booking_date booking;
                           pi_bookingTime := pr_booking_time booking;
                           pi_totalAmount := pr_total_amount booking;
                           pi_depositAmount := pr_deposit_amount booking;
                           pi_depositPaid := pr_deposit_paid booking |})
           end
     | None => ret (Failure 400 "Payment token required")
     end)
    (fun _ => Failure 500 "Failed to fetch payment info").

End PaymentPage.

End BookingsAdmin.

(* ===================================================================== *)
(** ** routes/auth.js: two-factor authentication *)
(* ===================================================================== *)

Module TwoFactor.
Import Store Io.

Section WithLibraries.

(** [authenticator.verify] at a given time; [authenticator.generateSecret],
    as the number of random bytes it draws and their encoding;
    [authenticator.keyuri]; and [QRCode.toDataURL], [None] when it
    rejects. *)
Variable totp_verify : string -> string -> Z -> bool.
Variable secret_bytes : nat.
Variable encode_secret : list byte -> string.
Variable keyuri : string -> string -> string -> string.
Variable toDataURL : string -> option string.

Definition select_user (id : Z) : statement (list admin_user) :=
  select (fun d => List.filter (fun u => u_id u =? id) (admin_users d)).

Definition set_totp (enabled : bool) (secret : option string) (u : admin_user)
    : admin_user :=
  {| u_id := u_id u; u_email := u_email u;
     u_password_hash := u_password_hash u; u_name := u_name u;
     u_role := u_role u; u_totp_enabled := enabled;
     u_totp_secret := secret; u_is_active := u_is_active u |}.

(** [UPDATE admin_users SET totp_secret = $1 WHERE id = $2]. *)
Definition store_secret (secret : string) (id : Z) (d : database) : database :=
  with_admin_users
    (map (fun u => if u_id u =? id
                   then set_totp (u_totp_enabled u) (Some secret) u else u)
         (admin_users d)) d.

(** [UPDATE admin_users SET totp_enabled = true WHERE id = $1]. *)
Definition enable_totp (id : Z) (d : database) : database :=
  with_admin_users
    (map (fun u => if u_id u =? id then set_totp true (u_totp_secret u) u else u)
         (admin_users d)) d.

(** [UPDATE admin_users SET totp_enabled = false, totp_secret = NULL WHERE
    id = $1]. *)
Definition disable_totp (id : Z) (d : database) : database :=
  with_admin_users
    (map (fun u => if u_id u =? id then set_totp false None u else u)
         (admin_users d)) d.

Record setup_reply := {
  sr_secret : string;
  sr_qrCode : string;
  sr_manualEntry : string
}.

(** [POST /api/auth/2fa/setup], behind [authenticateToken], which supplies
    the id and the email of the user. *)
Definition setup (userId : Z) (email : string)
    : world -> reply setup_reply * world :=
  handler
    (userResult <- query (select_user userId) ;;
     if match userResult with
        | user :: _ => u_totp_enabled user
        | [] => false
        end
     then ret (Failure 400 "2FA is already enabled")
     else
       bytes <- randomBytes secret_bytes ;;
       let secret := encode_secret bytes in
       let otpauth := keyuri email "Showers Auto Detail" secret in
       match toDataURL otpauth with
       | None => throw (JsError "QRCode")
       | Some qrCode =>
           _ <- query (execute (store_secret secret userId)) ;;
           ret (Json 200 {| sr_secret := secret; sr_qrCode := qrCode;
                            sr_manualEntry := secret |})
       end)
    (fun _ => Failure 500 "Failed to setup 2FA").

(** [POST /api/auth/2fa/verify]. *)
Definition verify (userId : Z) (code : option string)
    : world -> reply string * world :=
  handler
    (if negb (JsString.present code)
     then ret (Failure 400 "Verification code required")
     else
       result <- query (select_user userId) ;;
       match result with
       | [] => ret (Failure 400 "Please setup 2FA first")
       | user :: _ =>
           if negb (JsString.present (u_totp_secret user))
           then ret (Failure 400 "Please setup 2FA first")
           else if u_totp_enabled user
           then ret (Failure 400 "2FA is already enabled")
           else
             t <- now ;;
             if negb (totp_verify (default "" code)
                        (default "" (u_totp_secret user)) t)
             then ret (Failure 400 "Invalid verification code")
             else
               _ <- query (execute (enable_totp userId)) ;;
               ret (Json 200 "2FA enabled successfully")
       end)
    (fun _ => Failure 500 "Failed to verify 2FA").

(** [POST /api/auth/2fa/disable].  A missing secret of an enabled user is
    handed to the verifier as it is; it is read here as the empty string. *)
Definition disable (userId : Z) (code : option string)
    : world -> reply string * world :=
  handler
    (if negb (JsString.present code)
     then ret (Failure 400 "Current 2FA code required")
     else
       result <- query (select_user userId) ;;
       match result with
       | [] => ret (Failure 400 "2FA is not enabled")
       | user :: _ =>
           if negb (u_totp_enabled user)
           then ret (Failure 400 "2FA is not enabled")
           else
             t <- now ;;
             if negb (totp_verify (default "" code)
                        (default "" (u_totp_secret user)) t)
             then ret (Failure 400 "Invalid verification code")
             else
               _ <- query (execute (disable_totp userId)) ;;
               ret (Json 200 "2FA disabled successfully")
       end)
    (fun _ => Failure 500 "Failed to disable 2FA").

(** [GET /api/auth/2fa/status]: [rows[0]?.totp_enabled || false]. *)
Definition status (userId : Z) : world -> reply bool * world :=
  handler
    (result <- query (select_user userId) ;;
     ret (Json 200
            match result with
            | user :: _ => u_totp_enabled user
            | [] => false
            end))
    (fun _ => Failure 500 "Failed to get 2FA status").

End WithLibraries.


End TwoFactor.


(* ===================================================================== *)
(** * Further worked examples *)

Module MoreSamples.
Import Store Io.

(** An SUV booked for the Full Detail with wax. *)
Definition suv_request : Bookings.create_body :=
  {| Bookings.customerName := "Ada Park";
     Bookings.customerEmail := "ada@example.com";
     Bookings.customerPhone := "555-0100"; Bookings.vehicleType := "SUV";
     Bookings.packageId := None; Bookings.serviceId := Some 1;
     Bookings.addonIds := Some [1];
     Bookings.bookingDate := "2025-06-01"; Bookings.bookingTime := "10:00";
     Bookings.address := "1 Main St"; Bookings.notes := "" |}.

(** The sample shop on a day its notifier is down. *)
Definition shop_notifier_down : world :=
  {| w_db := Samples.sample_db; w_now := 432000000; w_env := Samples.sample_env;
     w_faults := []; w_entropy := Samples.sample_entropy; w_drawn := 0;
     w_google := None; w_fetches := 0; w_notify := false; w_sent := [] |}.

(** The lookup of the payment page over a store where no deposit has been
    paid yet: the booking with the id, with [COALESCE(s.name, p.name)]. *)
Definition unpaid_payment_rows (id : Z)
    : statement (list BookingsAdmin.payment_row) :=
  select (fun d =>
    map (fun b =>
           let service_name :=
             match b_service_id b with
             | Some sid =>
                 match List.filter (fun s => s_id s =? sid) (services d) with
                 | s :: _ => Some (s_name s)
                 | [] => None
                 end
             | None => None
             end in
           let package_name :=
             match b_package_id b with
             | Some pid =>
                 match List.filter (fun p => p_id p =? pid) (packages d) with
                 | p :: _ => Some (p_name p)
                 | [] => None
                 end
             | None => None
             end in
           {| BookingsAdmin.pr_id := b_id b;
              BookingsAdmin.pr_customer_name := b_customer_name b;
              BookingsAdmin.pr_vehicle_type := b_vehicle_type b;
              BookingsAdmin.pr_booking_date := b_booking_date b;
              BookingsAdmin.pr_booking_time := b_booking_time b;
              BookingsAdmin.pr_total_amount := b_total_amount b;
              BookingsAdmin.pr_deposit_amount := b_deposit_amount b;
              BookingsAdmin.pr_deposit_paid := false;
              BookingsAdmin.pr_payment_token := b_payment_token b;
              BookingsAdmin.pr_service_name :=
                match service_name with
                | Some n => Some n
                | None => package_name
                end |})
        (List.filter (fun b => b_id b =? id) (bookings d))).

(** The Places API answering with one review that has no author and no
    rating. *)
Definition sample_place : google_place :=
  {| gp_rating := Some (Fin (47 # 10)); gp_userRatingCount := Some (Fin 31);
     gp_displayName := Some "Showers Auto Detail";
     gp_reviews :=
       Some [ {| gr_author_displayName := None; gr_author_photoUri := None;
                 gr_rating := None; gr_text := Some "Spotless.";
                 gr_originalText := None;
                 gr_relativePublishTimeDescription := Some "a week ago";
                 gr_publishTime := None; gr_googleMapsUri := None |} ] |}.

(** The sample shop on a day the Places API answers. *)
Definition shop_online : world :=
  {| w_db := Samples.sample_db; w_now := 432000000; w_env := Samples.sample_env;
     w_faults := []; w_entropy := Samples.sample_entropy; w_drawn := 0;
     w_google := Some sample_place; w_fetches := 0; w_notify := true;
     w_sent := [] |}.

(** The sample shop before the Places key is set. *)
Definition shop_without_reviews : world :=
  {| w_db := Samples.sample_db; w_now := 432000000;
     w_env :=
       {| ADMIN_EMAIL := Some "owner@example.com"; ADMIN_PASSWORD := Some "hunter2";
          JWT_SECRET := Some "secret"; APP_URL := None;
          GOOGLE_MAPS_API_KEY := None; GOOGLE_PLACE_ID := Some "place-1";
          GOOGLE_REVIEWS_CACHE_HOURS := None; DEPOSIT_PERCENTAGE := None |};
     w_faults := []; w_entropy := Samples.sample_entropy; w_drawn := 0;
     w_google := None; w_fetches := 0; w_notify := true; w_sent := [] |}.

(** The same shop an hour later. *)
Definition shop_an_hour_later (w : world) : world :=
  {| w_db := w_db w; w_now := w_now w + 3600000; w_env := w_env w;
     w_faults := w_faults w; w_entropy := w_entropy w; w_drawn := w_drawn w;
     w_google := w_google w; w_fetches := w_fetches w; w_notify := w_notify w;
     w_sent := w_sent w |}.

(** The owner with 2FA enabled, and the shop with that owner. *)
Definition guarded_admin : admin_user :=
  {| u_id := 7; u_email := "owner@example.com"; u_password_hash := "ENV_MANAGED";
     u_name := "Admin"; u_role := "admin"; u_totp_enabled := true;
     u_totp_secret := Some "JBSWY3DP"; u_is_active := true |}.

Definition guarded_shop : world :=
  with_db (with_admin_users [guarded_admin] Samples.sample_db) Samples.shop.

(** The owner's login, without a 2FA code. *)
Definition owner_login : Auth.login_body :=
  {| Auth.email := "owner@example.com"; Auth.password := "hunter2";
     Auth.rememberMe := false; Auth.totpCode := None;
     Auth.user_agent := None |}.

(** Stand-ins for the secret generator, the key URI and the QR code in
    worked examples. *)
Definition toy_keyuri (email issuer secret : string) : string :=
  ("otpauth://totp/" ++ issuer ++ ":" ++ email ++ "?secret=" ++ secret)%string.

Definition toy_qr (uri : string) : option string :=
  Some ("data:image/png;base64," ++ uri)%string.

End MoreSamples.
(* ===================================================================== *)
(** * Properties *)
(* ===================================================================== *)

(* ===================================================================== *)
(** ** Facts about numbers and strings *)
(* ===================================================================== *)

Module JsNumberFacts.
Import JsNumber.

Lemma ltb_fin x y : ltb (Fin x) (Fin y) = true <-> (x < y)%Q.
Proof.
  simpl. rewrite negb_true_iff. split.
  - intros H. apply Qnot_le_lt. intros Hle. apply Qle_bool_iff in Hle. congruence.
  - intros H. destruct (Qle_bool y x) eqn:E; auto.
    apply Qle_bool_iff in E. exfalso. apply (Qlt_not_le _ _ H E).
Qed.








End JsNumberFacts.

Module JsStringFacts.
Import JsString.



Lemma includes_In l s : includes l s = true <-> In s l.
Proof.
  unfold includes. rewrite existsb_exists. split.
  - intros (x & Hx & He). apply String.eqb_eq in He. now subst.
  - intros H. exists s. split; [exact H | apply String.eqb_refl].
Qed.

Lemma hex_length bs : String.length (hex bs) = (2 * List.length bs)%nat.
Proof.
  induction bs as [|b r IH]; simpl; [reflexivity|]. rewrite IH. lia.
Qed.




End JsStringFacts.

Module ListFacts.

Lemma filter_nil_iff A (f : A -> bool) l :
  List.filter f l = [] <-> forall x, In x l -> f x = false.
Proof.
  induction l as [|a l IH]; simpl.
  - split; [intros _ x [] | reflexivity].
  - destruct (f a) eqn:E; split.
    + discriminate.
    + intros H. specialize (H a (or_introl eq_refl)). congruence.
    + intros H x [<-|Hx]; [exact E | now apply IH].
    + intros H. apply IH. intros x Hx. apply H. now right.
Qed.

Lemma filter_head_In A (f : A -> bool) l x xs :
  List.filter f l = x :: xs -> In x l /\ f x = true.
Proof.
  intros H. apply filter_In. rewrite H. now left.
Qed.

End ListFacts.

(* ===================================================================== *)
(** ** Facts about the handler monad *)
(* ===================================================================== *)

Module IoFacts.
Import Store Io.

Lemma query_returned A (stmt : statement A) w a w' :
  query stmt w = (Returned a, w') ->
  stmt (w_db w) = (Returned a, w_db w') /\
  w' = with_db (w_db w') (with_faults (tl (w_faults w)) w).
Proof.
  unfold query. destruct w as [d t e fl en dr g fe n s]; simpl.
  destruct fl as [|[] fs]; simpl; try discriminate;
    destruct (stmt d) as [r d'] eqn:E; intros [= -> <-]; simpl; auto.
Qed.


Lemma fault_at_next n d w :
  fault_at n (with_db d (with_faults (tl (w_faults w)) w)) = fault_at (S n) w.
Proof.
  unfold fault_at. simpl. destruct (w_faults w); simpl; [now destruct n | reflexivity].
Qed.

(** A statement whose flag is clear runs on the database as it is. *)
Lemma query_runs A (stmt : statement A) w :
  fault_at 0 w = false ->
  query stmt w =
    (fst (stmt (w_db w)),
     with_db (snd (stmt (w_db w))) (with_faults (tl (w_faults w)) w)).
Proof.
  unfold query, fault_at. destruct w as [d t e fl en dr g fe n s]; simpl.
  destruct fl as [|[] fs]; simpl; try discriminate; intros _;
    destruct (stmt d); reflexivity.
Qed.

(** A statement whose flag is set throws and changes nothing. *)
Lemma query_throws A (stmt : statement A) w :
  fault_at 0 w = true ->
  query stmt w = (Thrown (DbError "08006"), with_faults (tl (w_faults w)) w).
Proof.
  unfold query, fault_at. destruct (w_faults w) as [|[] fs]; simpl;
    try discriminate; reflexivity.
Qed.

Lemma bind_returned A B (m : io A) (k : A -> io B) w b w' :
  bind m k w = (Returned b, w') ->
  exists a w1, m w = (Returned a, w1) /\ k a w1 = (Returned b, w').
Proof.
  unfold bind. destruct (m w) as [[a|e] w1]; [eauto | discriminate].
Qed.

(** A success reply of a handler was returned by its body, as soon as the
    [catch] block only answers with failures. *)
Lemma handler_json A (m : io (reply A)) h w s r w' :
  (forall e, h e <> Json s r) ->
  handler m h w = (Json s r, w') -> m w = (Returned (Json s r), w').
Proof.
  unfold handler. intros Hh. destruct (m w) as [[a|e] w1]; intros Heq;
    injection Heq as Ha Hw; subst; auto.
  exfalso. eapply Hh; eauto.
Qed.

End IoFacts.

(* ===================================================================== *)
(** ** Coupons *)
(* ===================================================================== *)

Module CouponsFacts.
Import Store Io Coupons IoFacts ListFacts.

Lemma usable_spec t code c :
  usable t code c = true <->
  c_code c = code /\ c_is_active c = true /\
  (forall e, c_expires_at c = Some e -> t < e) /\
  (forall m, c_max_uses c = Some m -> c_used_count c < m).
Proof.
  unfold usable. rewrite !andb_true_iff, String.eqb_eq. split.
  - intros (((Hc & Ha) & He) & Hm). repeat split; auto.
    + intros e Ee. rewrite Ee in He. now apply Z.ltb_lt.
    + intros m Em. rewrite Em in Hm. now apply Z.ltb_lt.
  - intros (Hc & Ha & He & Hm). repeat split; auto.
    + destruct (c_expires_at c) as [e|]; [|reflexivity]. now apply Z.ltb_lt, He.
    + destruct (c_max_uses c) as [m|]; [|reflexivity]. now apply Z.ltb_lt, Hm.
Qed.


(** What a successful application did: two reads, then the two updates. *)
Lemma apply_ok rq w r w' :
  apply rq w = (Json 200 r, w') ->
  exists code id c cs b bs,
    ab_code rq = Some code /\ ab_bookingId rq = Some id /\
    List.filter (usable (w_now w) (JsString.toUpperCase code)) (coupons (w_db w))
      = c :: cs /\
    List.filter (fun b => b_id b =? id) (bookings (w_db w)) = b :: bs /\
    let discount := capped_discount c (b_total_amount b) in
    w_db w' =
      increment_used_count (c_id c)
        (update_booking_coupon id (c_code c) discount (newTotal b discount)
           (newDeposit b discount) (w_db w)) /\
    w_faults w' = tl (tl (tl (tl (w_faults w)))) /\
    r = {| ar_success := true;
           ar_discountApplied := JsNumber.toFixed2 discount;
           ar_newTotal := JsNumber.toFixed2 (newTotal b discount);
           ar_newDeposit := JsNumber.toFixed2 (newDeposit b discount) |}.
Proof.
  intros H. apply handler_json in H; [|discriminate].
  destruct (negb _ || negb _) eqn:E in H; [discriminate|].
  destruct (ab_code rq) as [code|] eqn:Ec; [|discriminate].
  destruct (ab_bookingId rq) as [id|] eqn:Ei; [|discriminate].
  apply bind_returned in H as (t & w1 & Ht & H). injection Ht as <- <-.
  apply bind_returned in H as (crows & w2 & Hq1 & H).
  apply query_returned in Hq1 as (Hs1 & Hw2). injection Hs1 as <- Hd2.
  destruct (List.filter _ _) as [|c cs] eqn:Ecs in H; [discriminate|].
  apply bind_returned in H as (brows & w3 & Hq2 & H).
  apply query_returned in Hq2 as (Hs2 & Hw3). injection Hs2 as <- Hd3.
  destruct (List.filter _ _) as [|b bs] eqn:Ebs in H; [discriminate|].
  apply bind_returned in H as ([] & w4 & Hq3 & H).
  apply query_returned in Hq3 as (Hs3 & Hw4). injection Hs3 as Hd4.
  apply bind_returned in H as ([] & w5 & Hq4 & H).
  apply query_returned in Hq4 as (Hs4 & Hw5). injection Hs4 as Hd5.
  injection H as <- <-.
  rewrite Hd2 in *. rewrite <- Hd3 in *.
  exists code, id, c, cs, b, bs. repeat split; auto.
  - simpl. rewrite <- Hd5, <- Hd4. reflexivity.
  - rewrite Hw5, Hw4, Hw3, Hw2. reflexivity.
Qed.

(** The rows of a booking id after the first update. *)
Lemma update_booking_coupon_rows id code d nt nd db b' :
  In b' (bookings (update_booking_coupon id code d nt nd db)) ->
  b_id b' = id ->
  b_total_amount b' = nt /\ b_deposit_amount b' = nd /\
  b_coupon_code b' = Some code /\ b_coupon_discount b' = Some d.
Proof.
  unfold update_booking_coupon. simpl. intros Hin Hid.
  apply in_map_iff in Hin as (b0 & Hb & _).
  destruct (b_id b0 =? id) eqn:E.
  - subst b'. simpl. auto.
  - subst b'. apply Z.eqb_neq in E. contradiction.
Qed.




End CouponsFacts.

Module CouponsWrites.
Import Store Io Coupons IoFacts ListFacts CouponsFacts.

Lemma increment_used_count_rows id db :
  coupons (increment_used_count id db) =
    map (fun c => if c_id c =? id then bump_used_count c else c) (coupons db) /\
  bookings (increment_used_count id db) = bookings db.
Proof. split; reflexivity. Qed.

(** C3: a successful application runs four statements, the two reads and
    then two writes: the booking row takes the coupon code, the capped
    discount, the reduced total and the recomputed deposit, and then the
    coupon's [used_count] goes up by exactly one.  Nothing ties the two
    writes together: when the second one throws, the handler answers 500 and
    the booking stays updated while [used_count] is what it was. *)
Theorem apply_two_writes_no_transaction :
  (forall rq w r w',
     apply rq w = (Json 200 r, w') ->
     exists id c b,
       ab_bookingId rq = Some id /\
       In c (coupons (w_db w)) /\ In b (bookings (w_db w)) /\ b_id b = id /\
       let discount := capped_discount c (b_total_amount b) in
       w_db w' =
         increment_used_count (c_id c)
           (update_booking_coupon id (c_code c) discount (newTotal b discount)
              (newDeposit b discount) (w_db w)) /\
       w_faults w' = tl (tl (tl (tl (w_faults w)))) /\
       (forall b', In b' (bookings (w_db w')) -> b_id b' = id ->
          b_coupon_code b' = Some (c_code c) /\
          b_coupon_discount b' = Some discount /\
          b_total_amount b' = JsNumber.sub (b_total_amount b) discount /\
          b_deposit_amount b' =
            JsNumber.mul (JsNumber.sub (b_total_amount b) discount)
              (JsNumber.div (b_deposit_amount b) (b_total_amount b))) /\
       coupons (w_db w') =
         map (fun c' => if c_id c' =? c_id c then bump_used_count c' else c')
             (coupons (w_db w)) /\
       forall c', c_used_count (bump_used_count c') = c_used_count c' + 1) /\
  (forall rq w code id c cs b bs,
     ab_code rq = Some code -> code <> EmptyString ->
     ab_bookingId rq = Some id -> id <> 0 ->
     List.filter (usable (w_now w) (JsString.toUpperCase code)) (coupons (w_db w))
       = c :: cs ->
     List.filter (fun b => b_id b =? id) (bookings (w_db w)) = b :: bs ->
     fault_at 0 w = false -> fault_at 1 w = false -> fault_at 2 w = false ->
     fault_at 3 w = true ->
     let discount := capped_discount c (b_total_amount b) in
     let w' := snd (apply rq w) in
     fst (apply rq w) = Failure 500 "Failed to apply coupon" /\
     w_db w' =
       update_booking_coupon id (c_code c) discount (newTotal b discount)
         (newDeposit b discount) (w_db w) /\
     coupons (w_db w') = coupons (w_db w) /\
     forall b', In b' (bookings (w_db w')) -> b_id b' = id ->
       b_coupon_code b' = Some (c_code c) /\
       b_total_amount b' = JsNumber.sub (b_total_amount b) discount).
Proof.
  split.
  - intros rq w r w' H.
    apply apply_ok in H as (code & id & c & cs & b & bs & _ & Hid & Hc & Hb & Hdb & Hfs & _).
    apply filter_head_In in Hc as [Hc _].
    apply filter_head_In in Hb as [Hb Hbid]. apply Z.eqb_eq in Hbid.
    exists id, c, b. simpl in Hdb.
    split; [exact Hid|]. split; [exact Hc|]. split; [exact Hb|].
    split; [exact Hbid|]. split; [exact Hdb|]. split; [exact Hfs|].
    split; [|split; [rewrite Hdb; reflexivity | reflexivity]].
    intros b' Hin Hb'. rewrite Hdb in Hin. simpl in Hin.
    eapply update_booking_coupon_rows in Hin; eauto.
    destruct Hin as (Ht & Hd & Hcc & Hcd). auto.
  - intros rq w code id c cs b bs Hcode Hne Hid Hid0 Hc Hb F0 F1 F2 F3.
    assert (Happly : apply rq w =
      (Failure 500 "Failed to apply coupon",
       with_db (update_booking_coupon id (c_code c)
                  (capped_discount c (b_total_amount b))
                  (newTotal b (capped_discount c (b_total_amount b)))
                  (newDeposit b (capped_discount c (b_total_amount b))) (w_db w))
         (with_faults (tl (tl (tl (tl (w_faults w))))) w))).
    { unfold apply, handler. rewrite Hcode, Hid.
      assert (Et : JsString.present (Some code) = true)
        by (destruct code; [contradiction | reflexivity]).
      assert (Ei : truthy_id (Some id) = true)
        by (simpl; apply negb_true_iff, Z.eqb_neq, Hid0).
      rewrite Et, Ei. simpl.
      unfold bind at 1. unfold now at 1.
      unfold bind at 1. rewrite (query_runs _ _ w F0).
      unfold select_coupon at 1, select at 1. simpl fst. simpl snd. rewrite Hc.
      unfold bind at 1. rewrite query_runs by (rewrite fault_at_next; exact F1).
      unfold select_booking at 1, select at 1. simpl fst. simpl snd. simpl w_db.
      rewrite Hb.
      unfold bind at 1. rewrite query_runs by (rewrite !fault_at_next; exact F2).
      unfold execute at 1. simpl fst. simpl snd.
      unfold bind at 1. rewrite query_throws by (rewrite !fault_at_next; exact F3).
      reflexivity. }
    simpl. rewrite Happly. simpl.
    split; [reflexivity|]. split; [reflexivity|]. split; [reflexivity|].
    intros b' Hin Hb'.
    apply (update_booking_coupon_rows id (c_code c) _ _ _ (w_db w)) in Hin; auto.
    destruct Hin as (Ht & _ & Hcc & _). auto.
Qed.

(** C3 on the sample shop: HALF is applied to booking 1 and the fourth
    statement throws. *)
Lemma apply_two_writes_no_transaction_witness :
  let rq := {| ab_code := Some "half"; ab_bookingId := Some 1 |} in
  let w := with_faults [false; false; false; true] Samples.shop in
  fst (apply rq w) = Failure 500 "Failed to apply coupon" /\
  coupons (w_db (snd (apply rq w))) = coupons (w_db w) /\
  map b_total_amount (bookings (w_db (snd (apply rq w)))) <> map b_total_amount (bookings (w_db w)).
Proof.
  intros rq w.
  destruct apply_two_writes_no_transaction as [_ H].
  destruct (H rq w "half"%string 1 _ _ _ _ eq_refl ltac:(discriminate) eq_refl
              ltac:(discriminate) eq_refl eq_refl eq_refl eq_refl eq_refl eq_refl)
    as (Hr & _ & Hc & _).
  split; [exact Hr|]. split; [exact Hc|]. discriminate.
Defined.

End CouponsWrites.

Module CouponsRatio.
Import Store Io Coupons IoFacts ListFacts CouponsFacts.




End CouponsRatio.

Module CouponsLookup.
Import Store Io Coupons IoFacts ListFacts CouponsFacts.

(** What a successful creation stored. *)
Lemma create_ok rq w row w' :
  create rq w = (Json 201 row, w') ->
  exists code dtype value,
    cb_code rq = Some code /\ cb_discountType rq = Some dtype /\
    cb_discountValue rq = Some value /\
    JsNumber.truthy value = true /\
    JsString.includes ["percent"; "fixed"] dtype = true /\
    (String.eqb dtype "percent"
     && (JsNumber.ltb value (JsNumber.of_Z 0)
         || JsNumber.gtb value (JsNumber.of_Z 100)) = false) /\
    c_code row = JsString.toUpperCase code /\
    c_discount_type row = dtype /\ c_discount_value row = value /\
    coupons (w_db w') = coupons (w_db w) ++ [row].
Proof.
  intros H. apply handler_json in H.
  2:{ intros [code|m]; [destruct (String.eqb code "23505")|]; discriminate. }
  destruct (cb_code rq) as [code|]; [|discriminate].
  destruct (cb_discountType rq) as [dtype|];
    [|simpl in H; rewrite orb_true_r in H; discriminate].
  destruct (cb_discountValue rq) as [value|];
    [|simpl in H; rewrite orb_true_r in H; discriminate].
  destruct (negb _ || negb _ || negb _) eqn:E in H; [discriminate|].
  apply orb_false_iff in E as [_ E]. apply negb_false_iff in E. simpl in E.
  destruct (JsString.includes _ dtype) eqn:Ei; [|discriminate]. simpl in H.
  destruct (String.eqb dtype "percent" && _) eqn:Eb; [discriminate|].
  apply bind_returned in H as (rows & w1 & Hq & H).
  apply query_returned in Hq as (Hs & Hw1). unfold insert_coupon in Hs.
  destruct (existsb _ _); [discriminate|]. injection Hs as <- Hd.
  injection H as <- <-.
  exists code, dtype, value. rewrite <- Hd. simpl. repeat split; auto.
Qed.



(** C6: validation answers 404 exactly when no coupon can be used.  For a
    request that carries a code and whose lookup runs, the answer is 404 if
    and only if no coupon row has the upper-case form of the code, is active,
    is unexpired (or has no expiry) and has its [used_count] below [max_uses]
    (or has no maximum); in particular a code whose coupons have all expired
    gets 404. *)
Theorem validate_404_iff_no_usable_coupon rq w code :
  vb_code rq = Some code -> code <> EmptyString -> fault_at 0 w = false ->
  (status_of (fst (validate rq w)) = 404 <->
   forall c, In c (coupons (w_db w)) ->
     ~ (c_code c = JsString.toUpperCase code /\ c_is_active c = true /\
        (forall e, c_expires_at c = Some e -> w_now w < e) /\
        (forall m, c_max_uses c = Some m -> c_used_count c < m))) /\
  ((forall c, In c (coupons (w_db w)) -> c_code c = JsString.toUpperCase code ->
      exists e, c_expires_at c = Some e /\ e <= w_now w) ->
   fst (validate rq w) = Failure 404 "Invalid or expired coupon code").
Proof.
  intros Hcode Hne F0.
  assert (Hrun : fst (validate rq w) =
    match List.filter (usable (w_now w) (JsString.toUpperCase code)) (coupons (w_db w)) with
    | [] => Failure 404 "Invalid or expired coupon code"
    | coupon :: _ =>
        Json 200
          {| vr_valid := true; vr_code := c_code coupon;
             vr_discountType := c_discount_type coupon;
             vr_discountValue := c_discount_value coupon;
             vr_discountAmount :=
               JsNumber.toFixed2 (capped_discount coupon (vb_subtotal rq)) |}
    end).
  { unfold validate, handler. rewrite Hcode.
    assert (Et : JsString.truthy code = true)
      by (destruct code; [contradiction | reflexivity]).
    rewrite Et. simpl.
    unfold bind at 1. unfold now at 1.
    unfold bind at 1. rewrite (query_runs _ _ w F0).
    unfold select_coupon, select. simpl.
    destruct (List.filter _ _); reflexivity. }
  assert (Hnil : List.filter (usable (w_now w) (JsString.toUpperCase code))
                   (coupons (w_db w)) = [] <->
                 forall c, In c (coupons (w_db w)) ->
                   ~ (c_code c = JsString.toUpperCase code /\ c_is_active c = true /\
                      (forall e, c_expires_at c = Some e -> w_now w < e) /\
                      (forall m, c_max_uses c = Some m -> c_used_count c < m))).
  { rewrite filter_nil_iff. split; intros H c Hin.
    - rewrite <- usable_spec. rewrite (H c Hin). discriminate.
    - specialize (H c Hin). rewrite <- usable_spec in H.
      now destruct (usable _ _ c). }
  split.
  - rewrite Hrun, <- Hnil.
    destruct (List.filter _ _); simpl; split; try discriminate; reflexivity.
  - intros Hexp. rewrite Hrun.
    replace (List.filter _ _) with (@nil coupon); [reflexivity|].
    symmetry. apply Hnil. intros c Hin (Hc & _ & He & _).
    destruct (Hexp c Hin Hc) as (e & Ee & Hle).
    specialize (He e Ee). lia.
Qed.

(** C6 on the sample shop: OLD expired at time 500. *)
Lemma validate_404_iff_no_usable_coupon_witness :
  fst (validate {| vb_code := Some "old"; vb_subtotal := Fin 80 |} Samples.shop)
  = Failure 404 "Invalid or expired coupon code".
Proof.
  apply (proj2 (validate_404_iff_no_usable_coupon
                  {| vb_code := Some "old"; vb_subtotal := Fin 80 |}
                  Samples.shop "old" eq_refl ltac:(discriminate) eq_refl)).
  intros c [<-|[<-|[<-|[<-|[]]]]] Hc; try discriminate Hc.
  exists 500. split; [reflexivity | discriminate].
Defined.

End CouponsLookup.

Module CouponsBounds.
Import Store Io Coupons IoFacts ListFacts CouponsFacts CouponsLookup.





End CouponsBounds.

(* ===================================================================== *)
(** ** Bookings *)
(* ===================================================================== *)

Module BookingsFacts.
Import Store Io Bookings IoFacts.







(** C8: a status outside the five of [validStatuses] is answered 400 by
    [PATCH /api/bookings/:id/status], and by [PUT /api/bookings/:id] when the
    body carries it, and the world, so every booking row, is left as it
    was. *)
Theorem status_outside_enum_rejected id s w :
  ~ In s ["pending"; "confirmed"; "in_progress"; "completed"; "cancelled"]%string ->
  patch_status id (Some s) w = (Failure 400 "Invalid status", w) /\
  patch_status id None w = (Failure 400 "Invalid status", w) /\
  forall rq, put_status rq = Some s ->
             put id rq w = (Failure 400 "Invalid status", w).
Proof.
  intros Hout.
  assert (E : JsString.includes validStatuses s = false).
  { destruct (JsString.includes validStatuses s) eqn:E; [|reflexivity].
    apply JsStringFacts.includes_In in E. contradiction. }
  split; [|split].
  - unfold patch_status, handler. rewrite E. reflexivity.
  - reflexivity.
  - intros rq Hs. unfold put, handler. rewrite Hs, E. reflexivity.
Qed.

(** C8 on the sample shop: "done" is not a status. *)
Lemma status_outside_enum_rejected_witness :
  patch_status 1 (Some "done"%string) Samples.shop
  = (Failure 400 "Invalid status", Samples.shop).
Proof.
  apply (proj1 (status_outside_enum_rejected 1 "done" Samples.shop
                  ltac:(intros [H|[H|[H|[H|[H|[]]]]]]; discriminate H))).
Defined.

End BookingsFacts.

(* ===================================================================== *)
(** ** Google reviews *)
(* ===================================================================== *)

Module GoogleReviewsFacts.
Import Store Io GoogleReviews IoFacts.

(** After the upsert the configured place has a row, and every row of the
    place carries the new data and the time of the upsert. *)
Lemma upsert_cache_rows place data t d :
  (exists row, In row (google_reviews_cache (upsert_cache place data t d)) /\
               gc_place_id row = place) /\
  forall row, In row (google_reviews_cache (upsert_cache place data t d)) ->
              gc_place_id row = place ->
              gc_reviews_data row = data /\ gc_cached_at row = t.
Proof.
  unfold upsert_cache. simpl.
  destruct (existsb _ _) eqn:E.
  - split.
    + apply existsb_exists in E as (r & Hin & Hr).
      eexists. split.
      * apply in_map_iff. exists r. split; [reflexivity | exact Hin].
      * rewrite Hr. reflexivity.
    + intros row Hin Hp. apply in_map_iff in Hin as (r & Hr & _).
      destruct (String.eqb (gc_place_id r) place) eqn:Er.
      * subst row. simpl. auto.
      * subst row. apply String.eqb_neq in Er. contradiction.
  - split.
    + eexists. split; [apply in_or_app; right; left; reflexivity | reflexivity].
    + intros row Hin Hp. apply in_app_or in Hin as [Hin|[<-|[]]].
      * exfalso. assert (existsb (fun r => String.eqb (gc_place_id r) place)
                                 (google_reviews_cache d) = true); [|congruence].
        apply existsb_exists. exists row. split; [exact Hin|].
        now apply String.eqb_eq.
      * simpl. auto.
Qed.

(** C4 (amended): [GET /api/google-reviews], once configured, is a
    cache-or-fetch with a stale fallback.  When the cache lookup runs and
    finds a row of the configured place cached within [CACHE_HOURS] of now,
    that row is returned with [cached = true] and no upstream call is made;
    when it runs and finds none, the Places API is fetched and the cache row
    upserted.  When the cache lookup, the fetch or the upsert throws, the
    handler looks the cache row up whatever its age: if that lookup runs and
    finds a row, the row is returned marked [stale = true]; a 500 is answered
    when no cache row exists, and also when the stale lookup throws in its
    turn. *)
Theorem reviews_cache_fetch_or_stale w place :
  isConfigured (w_env w) = true ->
  GOOGLE_PLACE_ID (w_env w) = Some place ->
  let fresh_rows :=
    List.filter (fresh place (w_now w) (CACHE_HOURS (w_env w)))
                (google_reviews_cache (w_db w)) in
  let cached_rows :=
    List.filter (fun r => String.eqb (gc_place_id r) place)
                (google_reviews_cache (w_db w)) in
  let answer := fst (get w) in
  let w' := snd (get w) in
  (forall row rest,
     fault_at 0 w = false -> fresh_rows = row :: rest ->
     answer =
       Json 200
         (Reviews (gc_overall_rating row) (gc_total_reviews row)
            (rd_reviews (gc_reviews_data row))
            (rd_business_name (gc_reviews_data row))
            true false (gc_cached_at row)) /\
     w_fetches w' = w_fetches w /\ w_db w' = w_db w) /\
  (forall g,
     fault_at 0 w = false -> fresh_rows = [] ->
     w_google w = Some g -> fault_at 1 w = false ->
     answer =
       Json 200
         (Reviews (rd_overall_rating (transformReviews g))
            (rd_total_reviews (transformReviews g))
            (rd_reviews (transformReviews g))
            (rd_business_name (transformReviews g))
            false false (w_now w)) /\
     w_fetches w' = S (w_fetches w) /\
     w_db w' = upsert_cache place (transformReviews g) (w_now w) (w_db w) /\
     (exists row, In row (google_reviews_cache (w_db w')) /\ gc_place_id row = place) /\
     (forall row, In row (google_reviews_cache (w_db w')) -> gc_place_id row = place ->
                  gc_reviews_data row = transformReviews g /\
                  gc_cached_at row = w_now w)) /\
  (forall stale_lookup_throws,
     (fault_at 0 w = true /\ stale_lookup_throws = fault_at 1 w) \/
     (fault_at 0 w = false /\ fresh_rows = [] /\ w_google w = None /\
      stale_lookup_throws = fault_at 1 w) \/
     (fault_at 0 w = false /\ fresh_rows = [] /\ w_google w <> None /\
      fault_at 1 w = true /\ stale_lookup_throws = fault_at 2 w) ->
     w_db w' = w_db w /\
     match stale_lookup_throws, cached_rows with
     | false, row :: _ =>
         answer =
           Json 200
             (Reviews (gc_overall_rating row) (gc_total_reviews row)
                (rd_reviews (gc_reviews_data row))
                (rd_business_name (gc_reviews_data row))
                true true (gc_cached_at row))
     | _, _ => answer = Failure 500 "Failed to fetch Google reviews"
     end) /\
  (status_of answer = 500 ->
   cached_rows = [] \/
   (fault_at 1 w = true /\
    (fault_at 0 w = true \/ w_google w = None \/ fault_at 2 w = true))).
Proof.
  intros Hconf Hplace fresh_rows cached_rows answer w'.
  subst answer w' fresh_rows cached_rows.
  destruct w as [db t env fl ent dr g fe nt snt]. simpl in Hconf, Hplace.
  unfold fault_at. cbn [w_faults w_env w_db w_now w_google w_fetches].
  split; [|split; [|split]].
  - intros row rest F0 Hfresh. run_get Hconf Hplace.
    destruct fl as [|[] fs]; simpl in F0; try discriminate; simpl; rewrite Hfresh;
      repeat split; reflexivity.
  - intros g0 F0 Hfresh Hg F1. subst g. run_get Hconf Hplace.
    pose proof (upsert_cache_rows place (transformReviews g0) t db) as [Hex Hall].
    destruct fl as [|[] [|[] fs]]; simpl in F0, F1; try discriminate; simpl;
      rewrite Hfresh;
      (split; [reflexivity|]); (split; [reflexivity|]); (split; [reflexivity|]);
      (split; [exact Hex | exact Hall]).
  - intros stale_lookup_throws H. run_get Hconf Hplace.
    destruct H as [[F0 ->]|[(F0 & Hf & Hg & ->)|(F0 & Hf & Hg & F1 & ->)]].
    + destruct fl as [|[] [|[] fs]]; simpl in F0; try discriminate;
        finish_get Hplace.
    + subst g. destruct fl as [|[] [|[] fs]]; simpl in F0; try discriminate; simpl;
        rewrite Hf; finish_get Hplace.
    + destruct g; [|contradiction].
      destruct fl as [|[] [|[] [|[] fs]]]; simpl in F0, F1; try discriminate; simpl;
        rewrite Hf; finish_get Hplace.
  - run_get Hconf Hplace.
    destruct (List.filter (fun r => String.eqb (gc_place_id r) place) _) eqn:Ec;
      [intros _; left; reflexivity|].
    destruct (List.filter (fresh _ _ _) _) eqn:Ef;
    destruct g; destruct fl as [|[] [|[] [|[] fs]]]; simpl;
      rewrite ?Hplace; simpl; rewrite ?Ec, ?Ef; simpl;
      try discriminate; intros _; right; auto.
Qed.

(** C4, as stated, fails when the database is down: the cache lookup throws,
    the stale lookup throws as well, and the answer is 500 although a cache
    row of the configured place exists. *)
Lemma stale_lookup_failure_answers_500 :
  let w := with_faults [true; true] Samples.shop in
  GOOGLE_PLACE_ID (w_env w) = Some "place-1"%string /\
  isConfigured (w_env w) = true /\
  In Samples.old_cache_row (google_reviews_cache (w_db w)) /\
  gc_place_id Samples.old_cache_row = "place-1"%string /\
  fst (get w) = Failure 500 "Failed to fetch Google reviews".
Proof.
  repeat split; try reflexivity. left. reflexivity.
Qed.

(** The amended C4 on the sample shop, whose cache row is five days old and
    whose Places API is out of reach: the old row is served, marked stale. *)
Lemma reviews_cache_fetch_or_stale_witness :
  fst (get Samples.shop) =
    Json 200
      (Reviews (Some (Fin (49 # 10))) (Fin 12) [] "Showers Auto Detail"
         true true 0) /\
  w_db (snd (get Samples.shop)) = w_db Samples.shop.
Proof.
  destruct (reviews_cache_fetch_or_stale Samples.shop "place-1" eq_refl eq_refl)
    as (_ & _ & Hstale & _).
  destruct (Hstale false) as (Hdb & Hanswer).
  - right. left. repeat split; reflexivity.
  - split; [exact Hanswer | exact Hdb].
Defined.

End GoogleReviewsFacts.

(* ===================================================================== *)
(** ** Sessions *)
(* ===================================================================== *)

Module AuthFacts.
Import Store Io Auth IoFacts.



Section WithLibraries.

Variable sha256_hex : string -> string.
Variable jwt_sign : Z -> string -> string -> string -> Z -> string.
Variable totp_verify : string -> string -> Z -> bool.

(** A SHA-256 digest in hexadecimal has 64 characters. *)
Hypothesis sha256_hex_length : forall s, String.length (sha256_hex s) = 64%nat.





Lemma live_spec h t rt au :
  live h t rt au = true <->
  rt_token_hash rt = h /\ rt_is_revoked rt = false /\ t < rt_expires_at rt /\
  u_is_active au = true.
Proof.
  unfold live. rewrite !andb_true_iff, String.eqb_eq, negb_true_iff, Z.ltb_lt.
  tauto.
Qed.

Lemma session_rows_In h t d rt au :
  In (rt, au)
     (flat_map
        (fun rt =>
           map (fun au => (rt, au))
               (List.filter (fun au => (rt_user_id rt =? u_id au) && live h t rt au)
                            (admin_users d)))
        (refresh_tokens d)) <->
  In rt (refresh_tokens d) /\ In au (admin_users d) /\
  rt_user_id rt = u_id au /\ live h t rt au = true.
Proof.
  rewrite in_flat_map. split.
  - intros (rt' & Hrt & Hin).
    apply in_map_iff in Hin as (au' & Heq & Hin). injection Heq as -> ->.
    apply filter_In in Hin as (Hau & Hb).
    apply andb_true_iff in Hb as (Hid & Hlive). apply Z.eqb_eq in Hid. tauto.
  - intros (Hrt & Hau & Hid & Hlive). exists rt. split; [exact Hrt|].
    apply in_map, filter_In. split; [exact Hau|].
    apply andb_true_iff. split; [now apply Z.eqb_eq | exact Hlive].
Qed.

Lemma session_rows_head h t d rt au rest :
  flat_map
    (fun rt =>
       map (fun au => (rt, au))
           (List.filter (fun au => (rt_user_id rt =? u_id au) && live h t rt au)
                        (admin_users d)))
    (refresh_tokens d) = (rt, au) :: rest ->
  valid_session h t d.
Proof.
  intros E.
  assert (Hin : In (rt, au) ((rt, au) :: rest)) by now left.
  rewrite <- E in Hin. apply session_rows_In in Hin as (Hrt & Hau & Hid & Hlive).
  apply live_spec in Hlive. exists rt, au. tauto.
Qed.

Lemma session_rows_nil h t d :
  ~ valid_session h t d ->
  flat_map
    (fun rt =>
       map (fun au => (rt, au))
           (List.filter (fun au => (rt_user_id rt =? u_id au) && live h t rt au)
                        (admin_users d)))
    (refresh_tokens d) = [].
Proof.
  intros Hno.
  destruct (flat_map _ _) as [|[rt au] rest] eqn:E; [reflexivity|].
  exfalso. eapply Hno, session_rows_head, E.
Qed.

Lemma session_rows_valid h t d :
  valid_session h t d ->
  flat_map
    (fun rt =>
       map (fun au => (rt, au))
           (List.filter (fun au => (rt_user_id rt =? u_id au) && live h t rt au)
                        (admin_users d)))
    (refresh_tokens d) <> [].
Proof.
  intros (rt & au & Hrt & Hau & Hid & Hlive) Hnil.
  assert (Hin : In (rt, au) []); [|destruct Hin].
  rewrite <- Hnil. apply session_rows_In.
  repeat split; try assumption. now apply live_spec.
Qed.

(** The answer of a refresh whose lookup runs. *)
Lemma refresh_runs tok w :
  tok <> EmptyString -> fault_at 0 w = false ->
  fst (refresh sha256_hex jwt_sign (Some tok) w) =
    match fst (select_session (sha256_hex tok) (w_now w) (w_db w)) with
    | Returned [] => Failure 401 "Invalid or expired refresh token"
    | Returned ((rt, au) :: _) =>
        match JWT_SECRET (w_env w) with
        | Some k =>
            if JsString.truthy k
            then Json 200 (jwt_sign (rt_user_id rt) (u_email au) (u_role au) k (w_now w))
            else Failure 500 "Token refresh failed"
        | None => Failure 500 "Token refresh failed"
        end
    | Thrown _ => Failure 500 "Token refresh failed"
    end.
Proof.
  intros Hne F0. unfold refresh.
  assert (JsString.present (Some tok) = true) as ->
    by (destruct tok; [contradiction | reflexivity]).
  cbn [negb]. unfold handler. unfold bind at 1. unfold now at 1.
  unfold bind at 1. rewrite (query_runs _ _ w F0).
  cbn [default]. unfold select_session, select. cbn [fst snd].
  destruct (flat_map _ _) as [|[rt au] rest]; [reflexivity|].
  unfold sign, bind, getenv, now. cbn [w_env w_now with_db with_faults].
  destruct (JWT_SECRET (w_env w)) as [k|]; [|reflexivity].
  destruct (JsString.truthy k); reflexivity.
Qed.





End WithLibraries.


End AuthFacts.

(* ===================================================================== *)
(** * Further properties *)
(* ===================================================================== *)

Module MoreListFacts.

Lemma NoDup_map_In_eq A B (f : A -> B) l a b :
  List.NoDup (map f l) -> In a l -> In b l -> f a = f b -> a = b.
Proof.
  induction l as [|x l IH]; simpl; [intros _ []|].
  intros Hnd Ha Hb Hf. inversion Hnd as [|y ys Hnot Hnd']; subst.
  destruct Ha as [->|Ha], Hb as [->|Hb]; auto.
  - exfalso. apply Hnot. rewrite Hf. now apply in_map.
  - exfalso. apply Hnot. rewrite <- Hf. now apply in_map.
Qed.

Lemma map_map_same A B (f : A -> B) (g : A -> A) l :
  (forall x, f (g x) = f x) -> map f (map g l) = map f l.
Proof.
  intros H. rewrite map_map. apply map_ext. exact H.
Qed.

Lemma map_id_on A (g : A -> A) l :
  (forall x, In x l -> g x = x) -> map g l = l.
Proof.
  induction l as [|a l IH]; simpl; intros H; [reflexivity|].
  rewrite H by now left. f_equal. apply IH. intros x Hx. apply H. now right.
Qed.

Lemma filter_all A (f : A -> bool) l :
  (forall x, In x l -> f x = true) -> List.filter f l = l.
Proof.
  induction l as [|a l IH]; simpl; intros H; [reflexivity|].
  rewrite H by now left. f_equal. apply IH. intros x Hx. apply H. now right.
Qed.

Lemma filter_app_single A (f : A -> bool) l x :
  (forall y, In y l -> f y = false) -> f x = true ->
  List.filter f (l ++ [x]) = [x].
Proof.
  intros Hl Hx. rewrite List.filter_app. simpl. rewrite Hx.
  now rewrite (proj2 (ListFacts.filter_nil_iff _ f l) Hl).
Qed.


End MoreListFacts.

Module MoreIoFacts.
Import Store Io IoFacts.

(** How a statement leaves the world, whatever its flag. *)
Lemma query_cases A (stmt : statement A) w :
  (fault_at 0 w = true /\
   query stmt w = (Thrown (DbError "08006"), with_faults (tl (w_faults w)) w)) \/
  (fault_at 0 w = false /\
   query stmt w =
     (fst (stmt (w_db w)),
      with_db (snd (stmt (w_db w))) (with_faults (tl (w_faults w)) w))).
Proof.
  destruct (fault_at 0 w) eqn:F.
  - left. split; [reflexivity|]. now apply query_throws.
  - right. split; [reflexivity|]. now apply query_runs.
Qed.

Lemma query_select A (rows : database -> A) w :
  query (select rows) w =
    (if fault_at 0 w then Thrown (DbError "08006") else Returned (rows (w_db w)),
     with_faults (tl (w_faults w)) w).
Proof.
  destruct (query_cases _ (select rows) w) as [[-> ->]|[-> ->]]; reflexivity.
Qed.

Lemma query_execute change w :
  query (execute change) w =
    if fault_at 0 w
    then (Thrown (DbError "08006"), with_faults (tl (w_faults w)) w)
    else (Returned tt, with_db (change (w_db w)) (with_faults (tl (w_faults w)) w)).
Proof.
  destruct (query_cases _ (execute change) w) as [[-> ->]|[-> ->]]; reflexivity.
Qed.

End MoreIoFacts.

Module CouponsAdminFacts.
Import Store Io Coupons CouponsAdmin IoFacts ListFacts MoreListFacts MoreIoFacts.

(** The codes of the coupons, and their ids. *)
Lemma toggle_coupon_codes id l :
  map c_code (map (fun c => if c_id c =? id then toggle_active c else c) l)
  = map c_code l.
Proof. apply map_map_same. intros c. now destruct (c_id c =? id). Qed.

Lemma toggle_twice id l :
  map (fun c => if c_id c =? id then toggle_active c else c)
      (map (fun c => if c_id c =? id then toggle_active c else c) l) = l.
Proof.
  rewrite map_map. apply map_id_on. intros c _.
  destruct c as [i co ty va mu uc ex ac]. simpl.
  destruct (i =? id) eqn:E; simpl; rewrite E; [|reflexivity].
  unfold toggle_active. simpl. now rewrite negb_involutive.
Qed.

(** What a toggle does when its statement runs. *)
Lemma toggle_runs id w :
  fault_at 0 w = false ->
  toggle id w =
    (match List.filter (fun c => c_id c =? id)
             (map (fun c => if c_id c =? id then toggle_active c else c)
                  (coupons (w_db w))) with
     | [] => Failure 404 "Coupon not found"
     | row :: _ => Json 200 row
     end,
     with_db
       (with_coupons
          (map (fun c => if c_id c =? id then toggle_active c else c)
               (coupons (w_db w))) (w_db w))
       (with_faults (tl (w_faults w)) w)).
Proof.
  intros F0. unfold toggle, handler, bind. rewrite (query_runs _ _ w F0).
  unfold toggle_coupon. cbn [fst snd].
  destruct (List.filter _ _); reflexivity.
Qed.

(** Toggling a coupon flips [is_active] on the rows of that id and touches
    nothing else: an unknown id is answered 404 with the table as it was, the
    answer to a known id carries the flipped flag, and a second toggle brings
    the table back. *)
Theorem toggle_flips_and_undoes id w :
  fault_at 0 w = false ->
  let w1 := snd (toggle id w) in
  ((forall c, In c (coupons (w_db w)) -> c_id c <> id) ->
   fst (toggle id w) = Failure 404 "Coupon not found" /\
   coupons (w_db w1) = coupons (w_db w)) /\
  (forall row, fst (toggle id w) = Json 200 row ->
     c_id row = id /\ In row (coupons (w_db w1)) /\
     exists c, In c (coupons (w_db w)) /\ c_id c = id /\
               c_is_active row = negb (c_is_active c) /\
               c_code row = c_code c /\ c_used_count row = c_used_count c /\
               c_discount_value row = c_discount_value c) /\
  (forall c, In c (coupons (w_db w)) -> c_id c <> id -> In c (coupons (w_db w1))) /\
  (fault_at 1 w = false ->
   coupons (w_db (snd (toggle id w1))) = coupons (w_db w)).
Proof.
  intros F0 w1. subst w1. rewrite (toggle_runs id w F0). cbn [fst snd].
  split; [|split; [|split]].
  - intros Hno. split.
    + rewrite (proj2 (filter_nil_iff _ _ _)); [reflexivity|].
      intros x Hx. apply in_map_iff in Hx as (c & <- & Hc).
      specialize (Hno c Hc). apply Z.eqb_neq in Hno. rewrite Hno. exact Hno.
    + simpl. apply map_id_on. intros c Hc. specialize (Hno c Hc).
      apply Z.eqb_neq in Hno. now rewrite Hno.
  - intros row Hrow.
    destruct (List.filter _ _) as [|r rest] eqn:E; [discriminate|].
    injection Hrow as ->.
    apply filter_head_In in E as [Hin Hid]. apply Z.eqb_eq in Hid.
    split; [exact Hid|]. split; [exact Hin|].
    apply in_map_iff in Hin as (c & Hc & Hin).
    destruct (c_id c =? id) eqn:Ec.
    + exists c. apply Z.eqb_eq in Ec. subst row. simpl. auto 10.
    + subst row. apply Z.eqb_neq in Ec. contradiction.
  - intros c Hc Hne. simpl. apply in_map_iff. exists c.
    apply Z.eqb_neq in Hne. rewrite Hne. auto.
  - intros F1. rewrite toggle_runs by (rewrite fault_at_next; exact F1).
    simpl. apply toggle_twice.
Qed.

(** The sample shop: HALF (id 2) is switched off and on again. *)
Lemma toggle_flips_and_undoes_witness :
  coupons (w_db (snd (toggle 2 (snd (toggle 2 Samples.shop)))))
  = coupons (w_db Samples.shop) /\
  map c_is_active (coupons (w_db (snd (toggle 2 Samples.shop))))
  = [true; false; true; true].
Proof.
  destruct (toggle_flips_and_undoes 2 Samples.shop eq_refl) as (_ & _ & _ & H).
  split; [exact (H eq_refl) | reflexivity].
Defined.

(** What a deletion does when its statement runs. *)
Lemma delete_runs id w :
  fault_at 0 w = false ->
  delete id w =
    (match List.filter (fun c => c_id c =? id) (coupons (w_db w)) with
     | [] => Failure 404 "Coupon not found"
     | c :: _ => Json 200 (c_id c, c_code c)
     end,
     with_db
       (with_coupons (List.filter (fun c => negb (c_id c =? id)) (coupons (w_db w)))
          (w_db w))
       (with_faults (tl (w_faults w)) w)).
Proof.
  intros F0. unfold delete, handler, bind. rewrite (query_runs _ _ w F0).
  unfold delete_coupon. cbn [fst snd].
  destruct (List.filter _ _); reflexivity.
Qed.

(** Deleting a coupon removes the rows of that id and no other row: the
    answer is 404 exactly when no row has the id, no row of the id is left
    afterwards, and deleting the same id again is answered 404. *)
Theorem delete_removes_coupon id w :
  fault_at 0 w = false ->
  let w1 := snd (delete id w) in
  (forall c, In c (coupons (w_db w1)) <-> In c (coupons (w_db w)) /\ c_id c <> id) /\
  (status_of (fst (delete id w)) = 404 <->
   forall c, In c (coupons (w_db w)) -> c_id c <> id) /\
  (forall i code, fst (delete id w) = Json 200 (i, code) ->
     i = id /\ exists c, In c (coupons (w_db w)) /\ c_id c = id /\ c_code c = code) /\
  (fault_at 1 w = false -> fst (delete id w1) = Failure 404 "Coupon not found").
Proof.
  intros F0 w1. subst w1. rewrite (delete_runs id w F0). cbn [fst snd].
  assert (Hleft : forall c,
            In c (List.filter (fun c => negb (c_id c =? id)) (coupons (w_db w))) <->
            In c (coupons (w_db w)) /\ c_id c <> id).
  { intros c. rewrite filter_In, negb_true_iff, Z.eqb_neq. tauto. }
  split; [exact Hleft|]. split; [|split].
  - destruct (List.filter (fun c => c_id c =? id) _) as [|c rest] eqn:E; simpl.
    + split; [intros _|reflexivity].
      intros c Hc Hid. apply Z.eqb_eq in Hid.
      pose proof (proj1 (filter_nil_iff _ _ _) E c Hc). congruence.
    + split; [discriminate|]. intros Hno. exfalso.
      apply filter_head_In in E as [Hin Hid]. apply Z.eqb_eq in Hid.
      exact (Hno c Hin Hid).
  - intros i code Hr.
    destruct (List.filter (fun c => c_id c =? id) _) as [|c rest] eqn:E;
      [discriminate|]. injection Hr as <- <-.
    apply filter_head_In in E as [Hin Hid]. apply Z.eqb_eq in Hid. eauto.
  - intros F1. rewrite delete_runs by (rewrite fault_at_next; exact F1).
    cbn [fst w_db with_db with_faults with_coupons coupons].
    rewrite (proj2 (filter_nil_iff _ _ _)); [reflexivity|].
    intros c Hc. apply Hleft in Hc as [_ Hne]. now apply Z.eqb_neq.
Qed.

(** The sample shop: OLD (id 4) is deleted, and is gone. *)
Lemma delete_removes_coupon_witness :
  fst (delete 4 Samples.shop) = Json 200 (4, "OLD"%string) /\
  fst (delete 4 (snd (delete 4 Samples.shop))) = Failure 404 "Coupon not found".
Proof.
  destruct (delete_removes_coupon 4 Samples.shop eq_refl) as (_ & _ & _ & H).
  split; [reflexivity | exact (H eq_refl)].
Defined.

(** A creation that is answered 201 found no stored coupon with its code. *)
Lemma create_fresh rq w row w' :
  create rq w = (Json 201 row, w') ->
  forall c, In c (coupons (w_db w)) -> c_code c <> c_code row.
Proof.
  intros H. apply handler_json in H.
  2:{ intros [code|m]; [destruct (String.eqb code "23505")|]; discriminate. }
  destruct (negb _ || negb _ || negb _) in H; [discriminate|].
  destruct (cb_code rq) as [code|]; [|discriminate].
  destruct (cb_discountType rq) as [dtype|]; [|discriminate].
  destruct (cb_discountValue rq) as [value|]; [|discriminate].
  destruct (negb _) in H; [discriminate|].
  destruct (_ && _) in H; [discriminate|].
  apply bind_returned in H as (rows & w1 & Hq & H).
  apply query_returned in Hq as (Hs & Hw1). unfold insert_coupon in Hs.
  destruct (existsb _ _) eqn:Ex; [discriminate|]. injection Hs as <- Hd.
  injection H as <- <-. simpl.
  intros c Hc Heq.
  assert (existsb (fun c => String.eqb (c_code c) (JsString.toUpperCase code))
                  (coupons (w_db w)) = true); [|congruence].
  apply existsb_exists. exists c. split; [exact Hc|]. now apply String.eqb_eq.
Qed.



End CouponsAdminFacts.

Module CouponsUseFacts.
Import Store Io Coupons CouponsAdmin IoFacts ListFacts MoreListFacts MoreIoFacts.
Import CouponsFacts CouponsAdminFacts.

(** The answer of a validation whose lookup runs. *)
Lemma validate_runs code subtotal w :
  code <> EmptyString -> fault_at 0 w = false ->
  validate {| vb_code := Some code; vb_subtotal := subtotal |} w =
    (match List.filter (usable (w_now w) (JsString.toUpperCase code))
             (coupons (w_db w)) with
     | [] => Failure 404 "Invalid or expired coupon code"
     | coupon :: _ =>
         Json 200
           {| vr_valid := true; vr_code := c_code coupon;
              vr_discountType := c_discount_type coupon;
              vr_discountValue := c_discount_value coupon;
              vr_discountAmount :=
                JsNumber.toFixed2 (capped_discount coupon subtotal) |}
     end,
     with_faults (tl (w_faults w)) w).
Proof.
  intros Hne F0. unfold validate, handler. cbn [vb_code vb_subtotal].
  assert (Et : JsString.truthy code = true)
    by (destruct code; [contradiction | reflexivity]).
  rewrite Et. cbn [negb].
  unfold bind at 1. unfold now at 1.
  unfold bind at 1. rewrite (query_runs _ _ w F0).
  unfold select_coupon, select. cbn [fst snd].
  destruct (List.filter _ _); reflexivity.
Qed.

(** A coupon that was just created can be validated: as long as it is
    active, unexpired and has uses left, a validation of its code in any case
    of letters, against the table the creation left, answers 200 with the
    value and type of the new coupon. *)
Theorem created_coupon_validates rq w row w' w2 code subtotal :
  create rq w = (Json 201 row, w') ->
  coupons (w_db w2) = coupons (w_db w') ->
  fault_at 0 w2 = false ->
  JsString.toUpperCase code = c_code row -> code <> EmptyString ->
  c_is_active row = true ->
  (forall e, c_expires_at row = Some e -> w_now w2 < e) ->
  (forall m, c_max_uses row = Some m -> c_used_count row < m) ->
  fst (validate {| vb_code := Some code; vb_subtotal := subtotal |} w2) =
    Json 200
      {| vr_valid := true; vr_code := c_code row;
         vr_discountType := c_discount_type row;
         vr_discountValue := c_discount_value row;
         vr_discountAmount := JsNumber.toFixed2 (capped_discount row subtotal) |}.
Proof.
  intros Hc Hrows F0 Hup Hne Hact Hexp Hmax.
  pose proof (create_fresh _ _ _ _ Hc) as Hfresh.
  apply CouponsLookup.create_ok in Hc
    as (? & ? & ? & _ & _ & _ & _ & _ & _ & _ & _ & _ & Hl).
  rewrite (validate_runs code subtotal w2 Hne F0). cbn [fst].
  rewrite Hrows, Hl, Hup.
  rewrite filter_app_single; [reflexivity| |].
  - intros c Hin. destruct (usable _ _ c) eqn:E; [|reflexivity].
    apply usable_spec in E as (Hcode & _). exfalso. exact (Hfresh c Hin Hcode).
  - apply usable_spec. auto.
Qed.

(** The sample shop: SPRING is created and then validated as "spring". *)
Lemma created_coupon_validates_witness :
  let rq := {| cb_code := Some "Spring"; cb_discountType := Some "percent";
               cb_discountValue := Some (Fin 10); cb_maxUses := Some 5;
               cb_expiresAt := None |} in
  exists r,
    fst (validate {| vb_code := Some "spring"; vb_subtotal := Fin 200 |}
           (snd (create rq Samples.shop))) = Json 200 r /\
    vr_code r = "SPRING"%string /\
    JsNumber.eqv (vr_discountAmount r) (Fin 20).
Proof.
  intros rq. eexists. split.
  - apply (created_coupon_validates rq Samples.shop _ _
             (snd (create rq Samples.shop)) "spring" (Fin 200) eq_refl eq_refl
             eq_refl eq_refl ltac:(discriminate) eq_refl).
    + intros e He. discriminate He.
    + intros m Hm. injection Hm as <-. reflexivity.
  - split; reflexivity.
Defined.

(** A coupon that was switched off or deleted is no longer accepted: with
    unique codes, once a toggle has answered with an inactive row, or a
    deletion has answered, a validation of that code against the table left
    behind is answered 404. *)
Theorem removed_coupon_not_accepted id w :
  List.NoDup (map c_code (coupons (w_db w))) ->
  fault_at 0 w = false ->
  (forall row w2 code subtotal,
     fst (toggle id w) = Json 200 row -> c_is_active row = false ->
     coupons (w_db w2) = coupons (w_db (snd (toggle id w))) ->
     fault_at 0 w2 = false ->
     JsString.toUpperCase code = c_code row -> code <> EmptyString ->
     fst (validate {| vb_code := Some code; vb_subtotal := subtotal |} w2)
     = Failure 404 "Invalid or expired coupon code") /\
  (forall i code0 w2 code subtotal,
     fst (delete id w) = Json 200 (i, code0) ->
     coupons (w_db w2) = coupons (w_db (snd (delete id w))) ->
     fault_at 0 w2 = false ->
     JsString.toUpperCase code = code0 -> code <> EmptyString ->
     fst (validate {| vb_code := Some code; vb_subtotal := subtotal |} w2)
     = Failure 404 "Invalid or expired coupon code").
Proof.
  intros Hnd F0. split.
  - intros row w2 code subtotal Hr Hoff Hrows F2 Hup Hne.
    rewrite (validate_runs code subtotal w2 Hne F2). cbn [fst].
    rewrite Hrows. rewrite (toggle_runs id w F0) in Hr |- *. cbn [fst snd] in *.
    cbn [w_db with_db with_faults with_coupons coupons].
    destruct (List.filter (fun c => c_id c =? id) _) as [|r rest] eqn:E;
      [discriminate|]. injection Hr as ->.
    apply filter_head_In in E as [Hin Hid].
    apply in_map_iff in Hin as (c0 & Hc0 & Hin0).
    rewrite (proj2 (filter_nil_iff _ _ _)); [reflexivity|].
    intros c' Hc'. apply in_map_iff in Hc' as (c1 & Hc1 & Hin1).
    destruct (usable _ _ c') eqn:Eu; [|reflexivity].
    apply usable_spec in Eu as (Hcode & Hact & _). exfalso.
    assert (c1 = c0).
    { apply (NoDup_map_In_eq _ _ c_code _ _ _ Hnd Hin1 Hin0).
      transitivity (c_code c'); [subst c'; now destruct (c_id c1 =? id)|].
      rewrite Hcode, Hup. subst row. now destruct (c_id c0 =? id). }
    subst c1. rewrite Hc0 in Hc1. subst c'. congruence.
  - intros i code0 w2 code subtotal Hr Hrows F2 Hup Hne.
    rewrite (validate_runs code subtotal w2 Hne F2). cbn [fst].
    rewrite Hrows. rewrite (delete_runs id w F0) in Hr |- *. cbn [fst snd] in *.
    cbn [w_db with_db with_faults with_coupons coupons].
    destruct (List.filter (fun c => c_id c =? id) _) as [|c0 rest] eqn:E;
      [discriminate|]. injection Hr as <- <-.
    apply filter_head_In in E as [Hin0 Hid].
    rewrite (proj2 (filter_nil_iff _ _ _)); [reflexivity|].
    intros c' Hc'. apply filter_In in Hc' as [Hin1 Hne1].
    destruct (usable _ _ c') eqn:Eu; [|reflexivity].
    apply usable_spec in Eu as (Hcode & _). exfalso.
    assert (c' = c0).
    { apply (NoDup_map_In_eq _ _ c_code _ _ _ Hnd Hin1 Hin0). congruence. }
    subst c'. rewrite Hid in Hne1. discriminate.
Qed.

(** The sample shop: SAVE20 (id 1) is switched off, then refused. *)
Lemma removed_coupon_not_accepted_witness :
  fst (validate {| vb_code := Some "save20"; vb_subtotal := Fin 50 |}
         (snd (toggle 1 Samples.shop)))
  = Failure 404 "Invalid or expired coupon code".
Proof.
  assert (Hnd : List.NoDup (map c_code (coupons (w_db Samples.shop))))
    by (repeat constructor; simpl; intuition discriminate).
  destruct (removed_coupon_not_accepted 1 Samples.shop Hnd eq_refl) as [H _].
  apply (H _ _ "save20"%string (Fin 50) eq_refl eq_refl eq_refl eq_refl eq_refl).
  discriminate.
Defined.

End CouponsUseFacts.

Module CouponsApplyFacts.
Import Store Io Coupons CouponsAdmin IoFacts ListFacts MoreListFacts MoreIoFacts CouponsFacts.

(** Every way an application can end: nothing written; the booking updated
    and the count not (the second write threw); or both writes done. *)
Lemma apply_outcomes rq w :
  (w_db (snd (apply rq w)) = w_db w /\
   (forall x, fst (apply rq w) <> Json 200 x)) \/
  exists code id c cs b bs,
    ab_code rq = Some code /\ ab_bookingId rq = Some id /\
    List.filter (usable (w_now w) (JsString.toUpperCase code)) (coupons (w_db w))
      = c :: cs /\
    List.filter (fun b => b_id b =? id) (bookings (w_db w)) = b :: bs /\
    let discount := capped_discount c (b_total_amount b) in
    let updated :=
      update_booking_coupon id (c_code c) discount (newTotal b discount)
        (newDeposit b discount) (w_db w) in
    (w_db (snd (apply rq w)) = updated /\
     fst (apply rq w) = Failure 500 "Failed to apply coupon") \/
    (w_db (snd (apply rq w)) = increment_used_count (c_id c) updated /\
     exists x, fst (apply rq w) = Json 200 x).
Proof.
  remember (apply rq w) as res eqn:Hres.
  unfold apply, handler in Hres.
  destruct (negb _ || negb _) in Hres; [nothing_written Hres|].
  destruct (ab_code rq) as [code|]; [|nothing_written Hres].
  destruct (ab_bookingId rq) as [id|]; [|nothing_written Hres].
  unfold bind at 1 in Hres. unfold now at 1 in Hres. unfold bind at 1 in Hres.
  destruct (query_cases _ (select_coupon (w_now w) (JsString.toUpperCase code)) w)
    as [[_ Hq]|[_ Hq]]; rewrite Hq in Hres; clear Hq; [nothing_written Hres|].
  unfold select_coupon, select in Hres. cbn [fst snd] in Hres.
  destruct (List.filter _ _) as [|c cs] eqn:Ec in Hres; [nothing_written Hres|].
  cbv beta iota in Hres. unfold bind at 1 in Hres.
  match type of Hres with context [query (select_booking id) ?w1] =>
    destruct (query_cases _ (select_booking id) w1) as [[_ Hq]|[_ Hq]]
  end; rewrite Hq in Hres; clear Hq; [nothing_written Hres|].
  unfold select_booking, select in Hres.
  cbn [fst snd w_db with_db with_faults] in Hres.
  destruct (List.filter _ (bookings (w_db w))) as [|b bs] eqn:Eb in Hres;
    [nothing_written Hres|].
  cbv beta iota in Hres. unfold bind at 1 in Hres.
  match type of Hres with context [query ?s ?w1] =>
    destruct (query_cases _ s w1) as [[_ Hq]|[_ Hq]]
  end; rewrite Hq in Hres; clear Hq; [nothing_written Hres|].
  unfold execute at 1 in Hres. cbn [fst snd w_db with_db with_faults] in Hres.
  cbv beta iota in Hres. unfold bind at 1 in Hres.
  match type of Hres with context [query ?s ?w1] =>
    destruct (query_cases _ s w1) as [[_ Hq]|[_ Hq]]
  end; rewrite Hq in Hres; clear Hq; subst res;
    right; exists code, id, c, cs, b, bs;
    (split; [reflexivity|]); (split; [reflexivity|]); (split; [exact Ec|]);
    (split; [exact Eb|]).
  - left. split; reflexivity.
  - right. split; [reflexivity|]. eexists. reflexivity.
Qed.

(** Validation only reads: whatever the request and the answer, the database
    is left as it was.  An application that is answered 400 or 404 wrote
    nothing either: in particular a request for an unknown booking does not
    count as a use of the coupon. *)
Theorem refused_requests_write_nothing :
  (forall rq w, w_db (snd (validate rq w)) = w_db w) /\
  (forall rq w,
     status_of (fst (apply rq w)) = 400 \/ status_of (fst (apply rq w)) = 404 ->
     w_db (snd (apply rq w)) = w_db w).
Proof.
  split.
  - intros rq w. unfold validate, handler.
    destruct (vb_code rq) as [code|]; [|reflexivity].
    destruct (negb _); [reflexivity|].
    unfold bind at 1. unfold now at 1. unfold bind at 1.
    destruct (query_cases _ (select_coupon (w_now w) (JsString.toUpperCase code)) w)
      as [[_ ->]|[_ ->]]; [reflexivity|].
    unfold select_coupon, select. cbn [fst snd].
    destruct (List.filter _ _); reflexivity.
  - intros rq w Hs.
    destruct (apply_outcomes rq w)
      as [[Hdb _]|(code & id & c & cs & b & bs & _ & _ & _ & _ & H)]; [exact Hdb|].
    exfalso. cbv zeta in H. destruct H as [[_ Hr]|[_ [x Hr]]];
      rewrite Hr in Hs; simpl in Hs; destruct Hs; discriminate.
Qed.

(** An application changes one booking and one count: whatever the request
    and the answer, the bookings of every other id are left as they were, no
    booking appears or disappears, and no coupon changes in anything but its
    [used_count]. *)
Theorem apply_touches_one_booking_and_count rq w :
  let d := w_db w in
  let d' := w_db (snd (apply rq w)) in
  map b_id (bookings d') = map b_id (bookings d) /\
  (forall b, In b (bookings d) -> ab_bookingId rq <> Some (b_id b) ->
             In b (bookings d')) /\
  map (fun c => (c_id c, c_code c, c_discount_type c, c_discount_value c,
                 c_max_uses c, c_expires_at c, c_is_active c)) (coupons d') =
  map (fun c => (c_id c, c_code c, c_discount_type c, c_discount_value c,
                 c_max_uses c, c_expires_at c, c_is_active c)) (coupons d) /\
  (forall c, In c (coupons d') ->
     exists c0, In c0 (coupons d) /\ c_id c0 = c_id c /\
                (c_used_count c = c_used_count c0 \/
                 c_used_count c = c_used_count c0 + 1)).
Proof.
  intros d d'. subst d d'.
  assert (Hupd : forall id code disc nt nd,
            map b_id (bookings (update_booking_coupon id code disc nt nd (w_db w)))
            = map b_id (bookings (w_db w)) /\
            (forall b, In b (bookings (w_db w)) -> Some id <> Some (b_id b) ->
               In b (bookings (update_booking_coupon id code disc nt nd (w_db w))))).
  { intros id code disc nt nd. unfold update_booking_coupon. simpl. split.
    - apply map_map_same. intros b. now destruct (b_id b =? id).
    - intros b Hb Hne. apply in_map_iff. exists b. split; [|exact Hb].
      destruct (b_id b =? id) eqn:E; [|reflexivity].
      apply Z.eqb_eq in E. congruence. }
  assert (Hsame : forall c0 : coupon, In c0 (coupons (w_db w)) ->
            exists c1, In c1 (coupons (w_db w)) /\ c_id c1 = c_id c0 /\
              (c_used_count c0 = c_used_count c1 \/
               c_used_count c0 = c_used_count c1 + 1)) by eauto.
  destruct (apply_outcomes rq w)
    as [[-> _]|(code & id & c & cs & b & bs & _ & Hid & _ & _ & H)]; [auto|].
  cbv zeta in H. rewrite Hid.
  destruct (Hupd id (c_code c) (capped_discount c (b_total_amount b))
              (newTotal b (capped_discount c (b_total_amount b)))
              (newDeposit b (capped_discount c (b_total_amount b)))) as [Hids Hothers].
  destruct H as [[-> _]|[-> _]].
  - split; [exact Hids|]. split; [exact Hothers|]. split; [reflexivity|exact Hsame].
  - split; [exact Hids|]. split; [exact Hothers|]. split.
    + simpl. apply map_map_same. intros c0. now destruct (c_id c0 =? c_id c).
    + simpl. intros c1 Hc1. apply in_map_iff in Hc1 as (c0 & <- & Hc0).
      exists c0. destruct (c_id c0 =? c_id c); simpl; auto.
Qed.



(** The sample shop: HALF on a booking that does not exist. *)
Lemma refused_requests_write_nothing_witness :
  fst (apply {| ab_code := Some "half"; ab_bookingId := Some 99 |} Samples.shop)
  = Failure 404 "Booking not found" /\
  w_db (snd (apply {| ab_code := Some "half"; ab_bookingId := Some 99 |} Samples.shop))
  = w_db Samples.shop.
Proof.
  split; [reflexivity|].
  apply (proj2 refused_requests_write_nothing). right. reflexivity.
Defined.

Lemma capped_discount_nonneg c x v :
  (0 <= x)%Q -> c_discount_value c = Fin v -> (0 <= v)%Q ->
  exists d, capped_discount c (Fin x) = Fin d /\ (0 <= d <= x)%Q.
Proof.
  intros Hx Hv Hv0. unfold capped_discount, raw_discount. rewrite Hv.
  destruct (String.eqb (c_discount_type c) "percent").
  - simpl. destruct (Qle_bool (x * v / inject_Z 100) x) eqn:E.
    + eexists. split; [reflexivity|]. split; [|now apply Qle_bool_iff].
      pose proof (Qmult_le_0_compat _ _ Hx Hv0) as Hxv.
      apply Qle_shift_div_l; [reflexivity|]. lra.
    + eexists. split; [reflexivity|]. lra.
  - simpl. destruct (Qle_bool v x) eqn:E.
    + eexists. split; [reflexivity|]. split; [exact Hv0|now apply Qle_bool_iff].
    + eexists. split; [reflexivity|]. lra.
Qed.

(** A discount never pushes a total below zero or above what it was: when a
    coupon with a non-negative value is applied to a booking with a
    non-negative total, the stored discount lies between 0 and the old total,
    and the new total is the old total minus the discount, between 0 and the
    old total. *)
Theorem applied_total_within_bounds rq w r w' :
  apply rq w = (Json 200 r, w') ->
  exists id c b,
    ab_bookingId rq = Some id /\
    In c (coupons (w_db w)) /\ In b (bookings (w_db w)) /\ b_id b = id /\
    forall x v b',
      b_total_amount b = Fin x -> (0 <= x)%Q ->
      c_discount_value c = Fin v -> (0 <= v)%Q ->
      In b' (bookings (w_db w')) -> b_id b' = id ->
      exists d z,
        b_coupon_discount b' = Some (Fin d) /\ b_total_amount b' = Fin z /\
        (0 <= d <= x)%Q /\ (z == x - d)%Q /\ (0 <= z <= x)%Q.
Proof.
  intros H.
  apply apply_ok in H as (code & id & c & cs & b & bs & _ & Hid & Hc & Hb & Hdb & _).
  apply filter_head_In in Hc as [Hc _].
  apply filter_head_In in Hb as [Hb Hbid]. apply Z.eqb_eq in Hbid.
  exists id, c, b. repeat (split; [assumption|]).
  intros x v b' Hx Hx0 Hv Hv0 Hin Hb'.
  cbv zeta in Hdb. rewrite Hdb in Hin. simpl in Hin.
  eapply update_booking_coupon_rows in Hin; eauto.
  destruct Hin as (Ht & _ & _ & Hd). rewrite Hx in *.
  destruct (capped_discount_nonneg c x v Hx0 Hv Hv0) as (d & Hcap & Hd0).
  rewrite Hcap in *. exists d, (x + - d)%Q.
  split; [exact Hd|]. split; [rewrite Ht; unfold newTotal; now rewrite Hx|].
  split; [exact Hd0|]. split; lra.
Qed.

(** The sample shop: SAVE20 on the booking of 100 leaves 80. *)
Lemma applied_total_within_bounds_witness :
  exists b' d z,
    In b' (bookings (w_db (snd (apply {| ab_code := Some "save20";
                                         ab_bookingId := Some 1 |} Samples.shop)))) /\
    b_coupon_discount b' = Some (Fin d) /\ b_total_amount b' = Fin z /\
    (0 <= d <= 100)%Q /\ (0 <= z <= 100)%Q.
Proof.
  destruct (applied_total_within_bounds
              {| ab_code := Some "save20"; ab_bookingId := Some 1 |}
              Samples.shop _ _ eq_refl) as (id & c & b & Hid & Hc & Hb & Hbid & H).
  injection Hid as <-.
  destruct Hb as [<-|[]].
  destruct Hc as [<-|[<-|[<-|[<-|[]]]]].
  all: destruct (H 100%Q _ _ eq_refl ltac:(discriminate) eq_refl
                   ltac:(discriminate) ltac:(left; reflexivity) eq_refl)
         as (d & z & Hd & Hz & Hd0 & _ & Hz0);
       eexists _, d, z; (split; [left; reflexivity|]); auto.
Defined.

End CouponsApplyFacts.

Module BookingsUpdateFacts.
Import Store Io Bookings BookingsAdmin IoFacts ListFacts MoreListFacts MoreIoFacts.

(** No assignment of an update reaches the identity of a booking, its
    payment token or its coupon. *)
Lemma assign_keeps_identity b a :
  b_id (assign b a) = b_id b /\
  b_payment_token (assign b a) = b_payment_token b /\
  b_package_id (assign b a) = b_package_id b /\
  b_service_id (assign b a) = b_service_id b /\
  b_coupon_code (assign b a) = b_coupon_code b /\
  b_coupon_discount (assign b a) = b_coupon_discount b.
Proof. destruct a; simpl; auto 10. Qed.

Lemma fold_assign_keeps_identity updates b :
  b_id (fold_left assign updates b) = b_id b /\
  b_payment_token (fold_left assign updates b) = b_payment_token b /\
  b_package_id (fold_left assign updates b) = b_package_id b /\
  b_service_id (fold_left assign updates b) = b_service_id b /\
  b_coupon_code (fold_left assign updates b) = b_coupon_code b /\
  b_coupon_discount (fold_left assign updates b) = b_coupon_discount b.
Proof.
  revert b. induction updates as [|a l IH]; intros b; simpl; [auto 10|].
  destruct (IH (assign b a)) as (-> & -> & -> & -> & -> & ->).
  apply assign_keeps_identity.
Qed.

Lemma update_booking_keeps_identity id updates d :
  map identity_of (bookings (snd (update_booking id updates d)))
  = map identity_of (bookings d).
Proof.
  unfold update_booking. simpl. apply map_map_same. intros b.
  destruct (b_id b =? id); [|reflexivity].
  unfold identity_of.
  destruct (fold_assign_keeps_identity updates b) as (-> & -> & -> & -> & -> & ->).
  reflexivity.
Qed.

(** The assignments an update collects leave the row the body asks for. *)
Lemma fold_put_result rq t b :
  fold_left assign
    (match put_status rq with
     | Some s => plain_updates rq ++ [status s]
     | None => plain_updates rq
     end ++ [updated_at t]) b
  = put_result rq t b.
Proof.
  destruct rq as [n e p v d ti a no ta da s]. unfold plain_updates, push, put_result.
  cbn [put_customerName put_customerEmail put_customerPhone put_vehicleType
       put_bookingDate put_bookingTime put_address put_notes put_totalAmount
       put_depositAmount put_status].
  destruct b. destruct n, e, p, v, d, ti, a, no, ta, da, s; reflexivity.
Qed.

Lemma update_booking_rows id updates d :
  bookings (snd (update_booking id updates d)) =
    map (fun b => if b_id b =? id then fold_left assign updates b else b)
        (bookings d) /\
  fst (update_booking id updates d) =
    Returned (map (fold_left assign updates)
                  (List.filter (fun b => b_id b =? id) (bookings d))).
Proof.
  unfold update_booking. simpl. split; [reflexivity|]. f_equal.
  induction (bookings d) as [|b l IH]; simpl; [reflexivity|].
  destruct (b_id b =? id) eqn:E; simpl.
  - destruct (fold_assign_keeps_identity updates b) as (-> & _).
    rewrite E. now rewrite IH.
  - now rewrite E.
Qed.

(** What an update does when its statement runs. *)
Lemma update_runs id updates w (k404 : string) :
  fault_at 0 w = false ->
  handler
    (result <- query (update_booking id updates) ;;
     match result with
     | [] => ret (Failure 404 k404)
     | row :: _ => ret (Json 200 row)
     end)
    (fun _ => Failure 500 "Failed to update booking") w =
  (match List.filter (fun b => b_id b =? id) (bookings (w_db w)) with
   | [] => Failure 404 k404
   | b :: _ => Json 200 (fold_left assign updates b)
   end,
   with_db (snd (update_booking id updates (w_db w)))
     (with_faults (tl (w_faults w)) w)).
Proof.
  intros F0. unfold handler, bind. rewrite (query_runs _ _ w F0).
  destruct (update_booking_rows id updates (w_db w)) as [_ ->]. cbn [fst snd].
  destruct (List.filter _ _); reflexivity.
Qed.

(** A status update sets the status and the time of the update, and nothing
    else: for a valid status and a statement that runs, the answer is 404
    exactly when no booking has the id; a 200 carries the old row with the new
    status; and the bookings of other ids are left as they were. *)
Theorem patch_status_sets_only_status id s w :
  In s validStatuses -> fault_at 0 w = false ->
  let w1 := snd (patch_status id (Some s) w) in
  (status_of (fst (patch_status id (Some s) w)) = 404 <->
   forall b, In b (bookings (w_db w)) -> b_id b <> id) /\
  (forall row, fst (patch_status id (Some s) w) = Json 200 row ->
     In row (bookings (w_db w1)) /\
     exists b, In b (bookings (w_db w)) /\ b_id b = id /\
       row = put_result
               {| put_customerName := None; put_customerEmail := None;
                  put_customerPhone := None; put_vehicleType := None;
                  put_bookingDate := None; put_bookingTime := None;
                  put_address := None; put_notes := None;
                  put_totalAmount := None; put_depositAmount := None;
                  put_status := Some s |} (w_now w) b /\
       b_status row = s) /\
  (forall b, In b (bookings (w_db w)) -> b_id b <> id -> In b (bookings (w_db w1))) /\
  map identity_of (bookings (w_db w1)) = map identity_of (bookings (w_db w)).
Proof.
  intros Hs F0 w1. subst w1.
  assert (Hrun : patch_status id (Some s) w =
    (match List.filter (fun b => b_id b =? id) (bookings (w_db w)) with
     | [] => Failure 404 "Booking not found"
     | b :: _ => Json 200 (fold_left assign [status s; updated_at (w_now w)] b)
     end,
     with_db (snd (update_booking id [status s; updated_at (w_now w)] (w_db w)))
       (with_faults (tl (w_faults w)) w))).
  { unfold patch_status.
    apply JsStringFacts.includes_In in Hs. rewrite Hs. cbn [negb].
    rewrite <- (update_runs id _ w "Booking not found" F0).
    unfold handler, bind, now. reflexivity. }
  rewrite Hrun. cbn [fst snd w_db with_db].
  split; [|split; [|split]].
  - destruct (List.filter _ _) as [|b rest] eqn:E; simpl.
    + split; [intros _|reflexivity]. intros b Hb Hid. apply Z.eqb_eq in Hid.
      pose proof (proj1 (filter_nil_iff _ _ _) E b Hb). congruence.
    + split; [discriminate|]. intros Hno. exfalso.
      apply filter_head_In in E as [Hin Hid]. apply Z.eqb_eq in Hid.
      exact (Hno b Hin Hid).
  - intros row Hr. destruct (List.filter _ _) as [|b rest] eqn:E; [discriminate|].
    injection Hr as <-. apply filter_head_In in E as [Hin Hid].
    split.
    + destruct (update_booking_rows id [status s; updated_at (w_now w)] (w_db w))
        as [-> _].
      apply in_map_iff. exists b. rewrite Hid. auto.
    + exists b. apply Z.eqb_eq in Hid. split; [exact Hin|]. split; [exact Hid|].
      split; [|reflexivity]. destruct b. reflexivity.
  - intros b Hb Hne.
    destruct (update_booking_rows id [status s; updated_at (w_now w)] (w_db w))
      as [-> _].
    apply in_map_iff. exists b. apply Z.eqb_neq in Hne. rewrite Hne. auto.
  - apply update_booking_keeps_identity.
Qed.

(** The sample shop: booking 1 is confirmed. *)
Lemma patch_status_sets_only_status_witness :
  exists row,
    fst (patch_status 1 (Some "confirmed"%string) Samples.shop) = Json 200 row /\
    b_status row = "confirmed"%string /\
    b_total_amount row = b_total_amount Samples.sample_booking.
Proof.
  destruct (patch_status_sets_only_status 1 "confirmed" Samples.shop
              ltac:(right; left; reflexivity) eq_refl) as (_ & H & _).
  eexists. split; [reflexivity|].
  destruct (H _ eq_refl) as (_ & b & _ & _ & _ & Hst).
  split; [exact Hst | reflexivity].
Defined.

(** An update of a booking writes the fields of its body and nothing else.
    A body without any field is answered 400 with the world as it was.  When
    the statement runs, a 200 carries the old row of that id with each
    supplied field in place of its column and the time of the update, and
    the bookings of other ids stay.  Whatever the body and the answer, no
    booking changes its id, its payment token, its service or package, or its
    coupon. *)
Theorem put_writes_supplied_fields id rq w :
  let w1 := snd (put id rq w) in
  (plain_updates rq = [] -> put_status rq = None ->
   put id rq w = (Failure 400 "No fields to update", w)) /\
  (fault_at 0 w = false ->
   forall row, fst (put id rq w) = Json 200 row ->
     In row (bookings (w_db w1)) /\
     exists b, In b (bookings (w_db w)) /\ b_id b = id /\
               row = put_result rq (w_now w) b) /\
  (fault_at 0 w = false ->
   forall b, In b (bookings (w_db w)) -> b_id b <> id -> In b (bookings (w_db w1))) /\
  map identity_of (bookings (w_db w1)) = map identity_of (bookings (w_db w)).
Proof.
  intros w1. subst w1.
  split; [|split; [|split]].
  - intros Hnone Hst. unfold put, handler. rewrite Hst, Hnone. reflexivity.
  - intros F0 row Hr. unfold put in Hr |- *.
    cbv zeta in Hr |- *.
    destruct (put_status rq) as [s|] eqn:Es.
    + destruct (negb (JsString.includes validStatuses s)); [discriminate|].
      destruct (plain_updates rq ++ [status s]) as [|a l] eqn:Eu;
        [now destruct (plain_updates rq)|].
      pose proof (update_runs id ((a :: l) ++ [updated_at (w_now w)]) w
                    "Booking not found" F0) as Hrun.
      unfold handler, bind, now in Hrun, Hr |- *. rewrite Hrun in Hr |- *.
      cbn [fst snd w_db with_db] in *.
      destruct (List.filter _ _) as [|b rest] eqn:E; [discriminate|].
      injection Hr as <-. apply filter_head_In in E as [Hin Hid].
      pose proof (fold_put_result rq (w_now w) b) as Hfold.
      rewrite Es, Eu in Hfold. split.
      * destruct (update_booking_rows id ((a :: l) ++ [updated_at (w_now w)]) (w_db w))
          as [-> _].
        apply in_map_iff. exists b. rewrite Hid. auto.
      * exists b. apply Z.eqb_eq in Hid. auto.
    + destruct (plain_updates rq) as [|a l] eqn:Eu; [discriminate|].
      pose proof (update_runs id ((a :: l) ++ [updated_at (w_now w)]) w
                    "Booking not found" F0) as Hrun.
      unfold handler, bind, now in Hrun, Hr |- *. rewrite Hrun in Hr |- *.
      cbn [fst snd w_db with_db] in *.
      destruct (List.filter _ _) as [|b rest] eqn:E; [discriminate|].
      injection Hr as <-. apply filter_head_In in E as [Hin Hid].
      pose proof (fold_put_result rq (w_now w) b) as Hfold.
      rewrite Es, Eu in Hfold. split.
      * destruct (update_booking_rows id ((a :: l) ++ [updated_at (w_now w)]) (w_db w))
          as [-> _].
        apply in_map_iff. exists b. rewrite Hid. auto.
      * exists b. apply Z.eqb_eq in Hid. auto.
  - intros F0 b Hb Hne. unfold put. cbv zeta.
    destruct (match put_status rq with
              | Some s => if negb (JsString.includes validStatuses s) then None
                          else Some (plain_updates rq ++ [status s])
              | None => Some (plain_updates rq)
              end) as [[|a l]|]; try exact Hb.
    pose proof (update_runs id ((a :: l) ++ [updated_at (w_now w)]) w
                  "Booking not found" F0) as Hrun.
    unfold handler, bind, now in Hrun |- *. rewrite Hrun. cbn [snd w_db with_db].
    destruct (update_booking_rows id ((a :: l) ++ [updated_at (w_now w)]) (w_db w))
      as [-> _].
    apply in_map_iff. exists b. apply Z.eqb_neq in Hne. rewrite Hne. auto.
  - unfold put. cbv zeta.
    destruct (match put_status rq with
              | Some s => if negb (JsString.includes validStatuses s) then None
                          else Some (plain_updates rq ++ [status s])
              | None => Some (plain_updates rq)
              end) as [[|a l]|]; try reflexivity.
    unfold handler. unfold bind at 1. unfold now at 1. unfold bind at 1.
    destruct (query_cases _ (update_booking id ((a :: l) ++ [updated_at (w_now w)])) w)
      as [[_ ->]|[_ ->]]; [reflexivity|].
    destruct (update_booking_rows id ((a :: l) ++ [updated_at (w_now w)]) (w_db w))
      as [_ Hf]. rewrite Hf.
    destruct (map _ _); cbn [snd w_db with_db]; apply update_booking_keeps_identity.
Qed.

(** The sample shop: the name, the total and the status of booking 1 are
    rewritten; its deposit and its payment token are not. *)
Lemma put_writes_supplied_fields_witness :
  let rq := {| put_customerName := Some "Ada P. Park"; put_customerEmail := None;
               put_customerPhone := None; put_vehicleType := None;
               put_bookingDate := None; put_bookingTime := None;
               put_address := None; put_notes := None;
               put_totalAmount := Some (Fin 120); put_depositAmount := None;
               put_status := Some "confirmed" |} in
  exists row,
    fst (put 1 rq Samples.shop) = Json 200 row /\
    row = put_result rq (w_now Samples.shop) Samples.sample_booking /\
    b_total_amount row = Fin 120 /\ b_deposit_amount row = Fin 25 /\
    b_payment_token row = Some "00a1b2c3d4e5"%string.
Proof.
  intros rq.
  destruct (put_writes_supplied_fields 1 rq Samples.shop) as (_ & H & _).
  eexists. split; [reflexivity|].
  destruct (H eq_refl _ eq_refl) as (_ & b & Hb & _ & Hrow).
  destruct Hb as [<-|[]]. split; [exact Hrow|]. repeat split; reflexivity.
Defined.

End BookingsUpdateFacts.

Module BookingsDeleteFacts.
Import Store Io Bookings BookingsAdmin IoFacts ListFacts MoreListFacts MoreIoFacts.

(** What a deletion does when its first statement runs. *)
Lemma delete_booking_runs id w :
  fault_at 0 w = false ->
  delete id w =
    if fault_at 1 w
    then (Failure 500 "Failed to delete booking",
          with_db (delete_booking_addons id (w_db w))
            (with_faults (tl (tl (w_faults w))) w))
    else (match List.filter (fun b => b_id b =? id) (bookings (w_db w)) with
          | [] => Failure 404 "Booking not found"
          | b :: _ => Json 200 (b_id b, b_customer_name b)
          end,
          with_db
            (with_bookings
               (List.filter (fun b => negb (b_id b =? id)) (bookings (w_db w)))
               (delete_booking_addons id (w_db w)))
            (with_faults (tl (tl (w_faults w))) w)).
Proof.
  intros F0. unfold delete, handler. unfold bind at 1.
  rewrite (query_runs _ _ w F0). unfold execute. cbn [fst snd].
  unfold bind at 1.
  destruct (fault_at 1 w) eqn:F1.
  - rewrite query_throws by (rewrite fault_at_next; exact F1). reflexivity.
  - rewrite query_runs by (rewrite fault_at_next; exact F1).
    unfold delete_booking. cbn [fst snd w_db with_db with_faults].
    change (bookings (delete_booking_addons id (w_db w))) with (bookings (w_db w)).
    destruct (List.filter (fun b => b_id b =? id) _); reflexivity.
Qed.

(** Deleting a booking takes two statements, the add-ons first.  When both
    run, no booking and no add-on row of the id is left, the bookings and
    add-on rows of other ids stay, and the answer is 404 exactly when no
    booking had the id.  When the second statement throws, the answer is 500
    and the add-on rows are gone while the booking is still there. *)
Theorem delete_booking_two_statements id w :
  fault_at 0 w = false ->
  let w1 := snd (delete id w) in
  (fault_at 1 w = false ->
   (forall b, In b (bookings (w_db w1)) <-> In b (bookings (w_db w)) /\ b_id b <> id) /\
   (forall a, In a (booking_addons (w_db w1)) <->
              In a (booking_addons (w_db w)) /\ ba_booking_id a <> id) /\
   (status_of (fst (delete id w)) = 404 <->
    forall b, In b (bookings (w_db w)) -> b_id b <> id)) /\
  (fault_at 1 w = true ->
   fst (delete id w) = Failure 500 "Failed to delete booking" /\
   bookings (w_db w1) = bookings (w_db w) /\
   forall a, In a (booking_addons (w_db w1)) <->
             In a (booking_addons (w_db w)) /\ ba_booking_id a <> id).
Proof.
  intros F0 w1. subst w1.
  assert (Haddons : forall a,
            In a (List.filter (fun a => negb (ba_booking_id a =? id))
                              (booking_addons (w_db w))) <->
            In a (booking_addons (w_db w)) /\ ba_booking_id a <> id).
  { intros a. rewrite filter_In, negb_true_iff, Z.eqb_neq. tauto. }
  rewrite (delete_booking_runs id w F0).
  split; intros F1; rewrite F1; cbn [fst snd w_db with_db].
  - split; [|split].
    + intros b. simpl. rewrite filter_In, negb_true_iff, Z.eqb_neq. tauto.
    + exact Haddons.
    + destruct (List.filter (fun b => b_id b =? id) _) as [|b rest] eqn:E; simpl.
      * split; [intros _|reflexivity]. intros b Hb Hid. apply Z.eqb_eq in Hid.
        pose proof (proj1 (filter_nil_iff _ _ _) E b Hb). congruence.
      * split; [discriminate|]. intros Hno. exfalso.
        apply filter_head_In in E as [Hin Hid]. apply Z.eqb_eq in Hid.
        exact (Hno b Hin Hid).
  - split; [reflexivity|]. split; [reflexivity|]. exact Haddons.
Qed.

(** The sample shop: booking 1 is deleted; with a second statement that
    throws it is not. *)
Lemma delete_booking_two_statements_witness :
  bookings (w_db (snd (delete 1 Samples.shop))) = [] /\
  fst (delete 1 (with_faults [false; true] Samples.shop))
  = Failure 500 "Failed to delete booking" /\
  bookings (w_db (snd (delete 1 (with_faults [false; true] Samples.shop))))
  = bookings (w_db Samples.shop).
Proof.
  split; [reflexivity|].
  destruct (delete_booking_two_statements 1
              (with_faults [false; true] Samples.shop) eq_refl) as [_ H].
  destruct (H eq_refl) as (Hr & Hb & _). split; [exact Hr | exact Hb].
Defined.

End BookingsDeleteFacts.

Module BookingsCreateFacts.
Import Store Io Bookings IoFacts ListFacts MoreListFacts MoreIoFacts.

(** The add-on inserts never touch the bookings nor the notifier, whether
    they succeed or not. *)
Lemma promise_all_bookings id l w :
  let w' := snd (promise_all
      (map (fun a => query (execute (insert_booking_addon id a))) l) w) in
  bookings (w_db w') = bookings (w_db w) /\ w_sent w' = w_sent w /\
  w_notify w' = w_notify w.
Proof.
  revert w. induction l as [|a l IH]; intros w; simpl; [auto|].
  rewrite query_execute.
  destruct (fault_at 0 w); simpl;
    match goal with |- context [promise_all ?ms ?w0] =>
      destruct (IH w0) as (H1 & H2 & H3);
      destruct (promise_all ms w0) as [[[]|e] w1]
    end; simpl in *; auto.
Qed.

(** Once the price is known, the handler stores one pending booking with a
    fresh token, or nothing. *)
Lemma priced_outcomes rq base name w :
  let res := priced rq base name w in
  (bookings (w_db (snd res)) = bookings (w_db w) /\
   w_sent (snd res) = w_sent w /\
   exists e, fst res = Thrown e) \/
  (exists row,
     bookings (w_db (snd res)) = bookings (w_db w) ++ [row] /\
     b_id row = next_id (w_db w) /\
     b_status row = "pending"%string /\
     b_payment_token row
       = Some (JsString.hex (map (w_entropy w) (seq (w_drawn w) 6))) /\
     ((exists e, fst res = Thrown e) /\ w_sent (snd res) = w_sent w \/
      (exists r, fst res = Returned (Json 201 r) /\ cr_booking r = row) /\
      w_notify w = true /\
      w_sent (snd res) = w_sent w ++ [("new_booking"%string, b_id row)])).
Proof.
  cbv zeta. remember (priced rq base name w) as res eqn:Hres.
  unfold priced in Hres. unfold bind at 1 in Hres.
  assert (H1 : exists o fs,
            match addonIds rq with
            | Some ((_ :: _) as ids) =>
                query (select_addons ids (JsString.toLowerCase (vehicleType rq)))
            | _ => ret []
            end w = (o, with_faults fs w)).
  { destruct (addonIds rq) as [[|i ids]|].
    - exists (Returned []), (w_faults w). unfold ret. destruct w; reflexivity.
    - unfold select_addons. rewrite query_select. eauto.
    - exists (Returned []), (w_faults w). unfold ret. destruct w; reflexivity. }
  destruct H1 as (o1 & fs & H1). rewrite H1 in Hres. clear H1.
  set (w1 := with_faults fs w) in Hres.
  destruct o1 as [details|e];
    [|subst res; left; split; [reflexivity|]; split; [reflexivity|]; eauto].
  unfold bind at 1 in Hres. unfold select_deposit_percentage in Hres.
  rewrite query_select in Hres.
  destruct (fault_at 0 w1);
    [subst res; left; split; [reflexivity|]; split; [reflexivity|]; eauto|].
  unfold bind at 1 in Hres. unfold getenv at 1 in Hres.
  unfold bind at 1 in Hres. unfold generatePaymentToken, randomBytes in Hres.
  unfold bind at 1 in Hres. unfold ret at 1 in Hres.
  unfold bind at 1 in Hres. unfold now at 1 in Hres.
  unfold bind at 1 in Hres.
  match type of Hres with context [query ?s ?w2] =>
    destruct (query_cases _ s w2) as [[_ Hq]|[_ Hq]]
  end; rewrite Hq in Hres; clear Hq;
    [subst res; left; split; [reflexivity|]; split; [reflexivity|]; eauto|].
  unfold insert_booking in Hres. cbn [fst snd] in Hres. cbv beta iota zeta in Hres.
  unfold bind at 1 in Hres.
  match type of Hres with context [promise_all ?ms ?w3] =>
    match ms with map (fun a => query (execute (insert_booking_addon ?i a))) _ =>
    destruct (promise_all_bookings i details w3) as (Hb & Hs & Hn);
    destruct (promise_all ms w3) as [[[]|e] w4] eqn:Epa
    end
  end; cbv zeta in Hb, Hs, Hn; cbn [snd] in Hb, Hs, Hn; simpl in Hb, Hs, Hn.
  - unfold bind at 1 in Hres. unfold sendNotification in Hres.
    rewrite Hn, Hs in Hres.
    destruct (w_notify w) eqn:En.
    + unfold bind at 1 in Hres. unfold getenv, ret in Hres.
      cbv beta iota in Hres. subst res. right. eexists. cbn [fst snd].
      split; [simpl; exact Hb|].
      split; [reflexivity|]. split; [reflexivity|]. split; [reflexivity|].
      right. split; [eexists; split; reflexivity|]. split; [reflexivity|].
      reflexivity.
    + subst res. right. eexists. cbn [fst snd].
      split; [exact Hb|].
      split; [reflexivity|]. split; [reflexivity|]. split; [reflexivity|].
      left. split; [eauto|exact Hs].
  - subst res. right. eexists. cbn [fst snd].
    split; [exact Hb|].
    split; [reflexivity|]. split; [reflexivity|]. split; [reflexivity|].
    left. split; [eauto|exact Hs].
Qed.

(** The outcomes of the part of the handler that comes before the price
    is known. *)
Lemma lookup_cases rq w :
  let m := if truthy_id (serviceId rq)
           then by_service rq (default 0 (serviceId rq))
           else if truthy_id (packageId rq)
           then by_package rq (default 0 (packageId rq))
           else ret (Failure 400 "Service or package ID required") in
  let w1 := with_faults (tl (w_faults w)) w in
  let found_services :=
    List.filter (fun s => s_id s =? default 0 (serviceId rq)) (services (w_db w)) in
  let found_packages :=
    List.filter (fun p => p_id p =? default 0 (packageId rq)) (packages (w_db w)) in
  (truthy_id (serviceId rq) = false /\ truthy_id (packageId rq) = false /\
   m w = (Returned (Failure 400 "Service or package ID required"), w)) \/
  ((truthy_id (serviceId rq) = true \/ truthy_id (packageId rq) = true) /\
   fault_at 0 w = true /\ m w = (Thrown (DbError "08006"), w1)) \/
  (truthy_id (serviceId rq) = true /\ fault_at 0 w = false /\
   found_services = [] /\
   m w = (Returned (Failure 404 "Service not found"), w1)) \/
  (truthy_id (serviceId rq) = false /\ truthy_id (packageId rq) = true /\
   fault_at 0 w = false /\ found_packages = [] /\
   m w = (Returned (Failure 404 "Package not found"), w1)) \/
  ((truthy_id (serviceId rq) = true /\ found_services <> [] \/
    truthy_id (serviceId rq) = false /\ truthy_id (packageId rq) = true /\
    found_packages <> []) /\
   fault_at 0 w = false /\
   exists base name, m w = priced rq base name w1).
Proof.
  cbv zeta.
  destruct (truthy_id (serviceId rq)) eqn:Es.
  - unfold by_service, bind, select_service. rewrite query_select.
    destruct (fault_at 0 w) eqn:Ef.
    + right; left. auto.
    + destruct (List.filter _ (services (w_db w))) as [|s l] eqn:El.
      * right; right; left. auto.
      * right; right; right; right.
        split; [left; split; [reflexivity|discriminate]|].
        split; [reflexivity|]. eauto.
  - destruct (truthy_id (packageId rq)) eqn:Ep.
    + unfold by_package, bind, select_package. rewrite query_select.
      destruct (fault_at 0 w) eqn:Ef.
      * right; left. auto.
      * destruct (List.filter _ (packages (w_db w))) as [|p l] eqn:El.
        -- right; right; right; left. auto.
        -- right; right; right; right.
           split; [right; split; [reflexivity|]; split; [reflexivity|discriminate]|].
           split; [reflexivity|]. eauto.
    + left. auto.
Qed.

(** [POST /api/bookings] refuses a request in two ways before it writes.
    It answers 400 exactly when the body has neither a service id nor a
    package id (a missing id and the id 0 count as none), and then the world
    is left as it was.  It answers 404 exactly when the first statement runs
    and finds no row with the id: the service id when there is one, the
    package id otherwise; then one statement has run and nothing else has
    changed: no booking, no token drawn, no notification. *)
Theorem create_refusals rq w :
  let res := create rq w in
  (status_of (fst res) = 400 <->
     truthy_id (serviceId rq) = false /\ truthy_id (packageId rq) = false) /\
  (status_of (fst res) = 404 <->
     fault_at 0 w = false /\
     (truthy_id (serviceId rq) = true /\
      (forall s, In s (services (w_db w)) -> s_id s <> default 0 (serviceId rq)) \/
      truthy_id (serviceId rq) = false /\ truthy_id (packageId rq) = true /\
      (forall p, In p (packages (w_db w)) -> p_id p <> default 0 (packageId rq)))) /\
  (status_of (fst res) = 400 -> snd res = w) /\
  (status_of (fst res) = 404 -> snd res = with_faults (tl (w_faults w)) w).
Proof.
  cbv zeta. unfold create, handler.
  assert (Hnone : forall A (f : A -> Z) k l,
             List.filter (fun x => f x =? k) l = [] <->
             forall x, In x l -> f x <> k).
  { intros A f k l. rewrite filter_nil_iff.
    split; intros H x Hx; specialize (H x Hx); lia. }
  destruct (lookup_cases rq w)
    as [(Es & Ep & ->)|[(Ht & Ef & ->)|[(Es & Ef & El & ->)|
        [(Es & Ep & Ef & El & ->)|(Hfound & Ef & base & name & ->)]]]];
    cbv zeta in *.
  - cbn [fst snd status_of]. rewrite Es, Ep.
    intuition (try discriminate; try congruence).
  - cbn [fst snd status_of]. rewrite Ef.
    intuition (try discriminate; try congruence).
  - cbn [fst snd status_of]. rewrite Es, Ef. pose proof (proj1 (Hnone _ s_id _ _) El) as Hno.
    intuition (try discriminate; try congruence).
  - cbn [fst snd status_of]. rewrite Es, Ep, Ef. pose proof (proj1 (Hnone _ p_id _ _) El) as Hno.
    intuition (try discriminate; try congruence).
  - assert (Hst : status_of (fst (let (o, w') := priced rq base name
                     (with_faults (tl (w_faults w)) w) in
                   match o with
                   | Returned r => (r, w')
                   | Thrown _ => (Failure 500 "Failed to create booking", w')
                   end)) = 201 \/
                  status_of (fst (let (o, w') := priced rq base name
                     (with_faults (tl (w_faults w)) w) in
                   match o with
                   | Returned r => (r, w')
                   | Thrown _ => (Failure 500 "Failed to create booking", w')
                   end)) = 500).
    { pose proof (priced_outcomes rq base name
                    (with_faults (tl (w_faults w)) w)) as H. cbv zeta in H.
      destruct (priced rq base name (with_faults (tl (w_faults w)) w))
        as [o w'].
      cbn [fst snd] in H.
      destruct H as [(_ & _ & e & ->)|(row & _ & _ & _ & _ &
                       [((e & ->) & _)|((r & -> & _) & _)])]; auto. }
    rewrite (Hnone _ s_id), (Hnone _ p_id) in Hfound.
    split; [|split; [|split]];
      try (intros H; rewrite H in Hst; destruct Hst; discriminate);
      (split; [intros H; rewrite H in Hst; destruct Hst; discriminate|]).
    + intros (Hs & Hp).
      destruct Hfound as [(H & _)|(_ & H & _)]; congruence.
    + intros (_ & [(Hs & Hno)|(Hs & Hp & Hno)]);
        destruct Hfound as [(Hs' & Hne)|(Hs' & Hp' & Hne)]; try congruence;
        exfalso; apply Hne; assumption.
Qed.

(** On the sample shop: a request for service 99, which the shop does not
    have, is answered 404 and only the lookup has run. *)
Lemma create_refusals_witness :
  let rq := {| customerName := "Ada Park"; customerEmail := "ada@example.com";
               customerPhone := "555-0100"; vehicleType := "SUV";
               packageId := None; serviceId := Some 99; addonIds := None;
               bookingDate := "2025-06-01"; bookingTime := "10:00";
               address := "1 Main St"; notes := "" |} in
  status_of (fst (create rq Samples.shop)) = 404 /\
  snd (create rq Samples.shop) = Samples.shop.
Proof.
  intros rq.
  destruct (create_refusals rq Samples.shop) as (_ & H404 & _ & Hw).
  assert (H : status_of (fst (create rq Samples.shop)) = 404).
  { apply H404. split; [reflexivity|]. left. split; [reflexivity|].
    intros s [<-|[]]. discriminate. }
  split; [exact H|]. rewrite (Hw H). reflexivity.
Defined.

(** [POST /api/bookings] stores at most one booking, and never touches the
    ones already stored.  Either the bookings are as before, no notification
    is sent and the reply is not 201; or one row is appended, with the next
    id, status 'pending' and a token made of six bytes newly drawn.  In the
    second case the reply is 201 with that row, the notifier is up and
    exactly one 'new_booking' notification for the row is sent; or the reply
    is 500 although the row stays stored, and no notification is sent. *)
Theorem create_stores_at_most_one_booking rq w :
  let res := create rq w in
  (bookings (w_db (snd res)) = bookings (w_db w) /\
   w_sent (snd res) = w_sent w /\
   forall r, fst res <> Json 201 r) \/
  (exists row,
     bookings (w_db (snd res)) = bookings (w_db w) ++ [row] /\
     b_id row = next_id (w_db w) /\
     b_status row = "pending"%string /\
     b_payment_token row
       = Some (JsString.hex (map (w_entropy w) (seq (w_drawn w) 6))) /\
     (fst res = Failure 500 "Failed to create booking" /\
      w_sent (snd res) = w_sent w \/
      (exists r, fst res = Json 201 r /\ cr_booking r = row) /\
      w_notify w = true /\
      w_sent (snd res) = w_sent w ++ [("new_booking"%string, b_id row)])).
Proof.
  cbv zeta. unfold create, handler.
  destruct (lookup_cases rq w)
    as [(Es & Ep & ->)|[(Ht & Ef & ->)|[(Es & Ef & El & ->)|
        [(Es & Ep & Ef & El & ->)|(Hfound & Ef & base & name & ->)]]]];
    cbv zeta in *;
    try (left; cbn [fst snd]; repeat split; try reflexivity;
         intros r; discriminate).
  pose proof (priced_outcomes rq base name
                (with_faults (tl (w_faults w)) w)) as H. cbv zeta in H.
  destruct (priced rq base name (with_faults (tl (w_faults w)) w)) as [o w'].
  cbn [fst snd] in H.
  destruct H as [(Hb & Hs & e & ->)|(row & Hb & Hid & Hst & Htok & H)].
  - left. cbn [fst snd]. split; [exact Hb|]. split; [exact Hs|].
    intros r; discriminate.
  - right. exists row.
    destruct H as [((e & ->) & Hs)|((r & -> & Hr) & Hn & Hs)];
      cbn [fst snd]; do 4 (split; [assumption|]).
    + left. split; [reflexivity|exact Hs].
    + right. split; [eauto|]. split; [exact Hn|exact Hs].
Qed.

(** A forward run of the add-on inserts on a database that answers. *)
Lemma promise_all_answers id l w :
  w_faults w = [] ->
  exists w', promise_all
      (map (fun a => query (execute (insert_booking_addon id a))) l) w
    = (Returned tt, w') /\ w_faults w' = [].
Proof.
  revert w. induction l as [|a l IH]; intros w Hf; simpl.
  - unfold ret. eauto.
  - rewrite query_execute. unfold fault_at. rewrite Hf. simpl.
    match goal with |- context [promise_all ?ms ?w0] =>
      destruct (IH w0) as (w' & -> & Hf')
    end; [reflexivity|]. eauto.
Qed.

(** When the notifier is down, a request that names a service of the table
    gets 500 from a database that answers every statement: yet the booking is
    stored, since the row is inserted before the notification is sent and
    nothing undoes the insert. *)
Theorem notifier_failure_leaves_booking rq w id :
  serviceId rq = Some id -> id <> 0 ->
  (exists s, In s (services (w_db w)) /\ s_id s = id) ->
  w_faults w = [] -> w_notify w = false ->
  fst (create rq w) = Failure 500 "Failed to create booking" /\
  exists row,
    bookings (w_db (snd (create rq w))) = bookings (w_db w) ++ [row] /\
    b_service_id row = Some id /\
    b_customer_email row = customerEmail rq.
Proof.
  intros Hs Hid (s & Hin & Hsid) Hf Hn.
  assert (Ht : truthy_id (serviceId rq) = true).
  { rewrite Hs. simpl. apply negb_true_iff. lia. }
  destruct (List.filter (fun s => s_id s =? id) (services (w_db w)))
    as [|s0 l0] eqn:El.
  { exfalso. rewrite filter_nil_iff in El. specialize (El s Hin). lia. }
  assert (Hrun : exists w',
             create rq w = (Failure 500 "Failed to create booking", w') /\
             exists row,
               bookings (w_db w') = bookings (w_db w) ++ [row] /\
               b_service_id row = Some id /\
               b_customer_email row = customerEmail rq).
  { unfold create, handler. rewrite Ht, Hs. change (default 0 (Some id)) with id.
    unfold by_service, bind at 1, select_service. rewrite query_select.
    unfold fault_at. rewrite Hf. cbn [nth tl]. rewrite El.
    unfold priced. unfold bind at 1.
    assert (H1 : exists details w1,
              match addonIds rq with
              | Some ((_ :: _) as ids) =>
                  query (select_addons ids (JsString.toLowerCase (vehicleType rq)))
              | _ => ret []
              end (with_faults [] w) = (Returned details, w1) /\
              w_faults w1 = [] /\ w_db w1 = w_db w /\ w_notify w1 = false).
    { destruct (addonIds rq) as [[|i ids]|].
      - do 2 eexists. unfold ret. split; [reflexivity|]. simpl. auto.
      - unfold select_addons. rewrite query_select. do 2 eexists.
        split; [reflexivity|]. simpl. auto.
      - do 2 eexists. unfold ret. split; [reflexivity|]. simpl. auto. }
    destruct H1 as (details & w1 & -> & Hf1 & Hd1 & Hn1).
    unfold bind at 1. unfold select_deposit_percentage. rewrite query_select.
    unfold fault_at. rewrite Hf1. cbn [nth tl].
    unfold bind at 1. unfold getenv at 1.
    unfold bind at 1. unfold generatePaymentToken, randomBytes.
    unfold bind at 1. unfold ret at 1.
    unfold bind at 1. unfold now at 1.
    unfold bind at 1.
    match goal with |- context [query ?st ?w2] =>
      destruct (query_cases _ st w2) as [[Hq _]|[_ Hq]]
    end; [discriminate Hq|].
    rewrite Hq. clear Hq.
    unfold insert_booking. cbn [fst snd]. cbv beta iota zeta.
    unfold bind at 1.
    match goal with |- context [promise_all ?ms ?w3] =>
      match ms with map (fun a => query (execute (insert_booking_addon ?i a))) _ =>
        destruct (promise_all_answers i details w3) as (w4 & Hpa & Hf4);
          [reflexivity|];
        destruct (promise_all_bookings i details w3) as (Hb & _ & Hn4)
      end
    end.
    rewrite Hpa in Hb, Hn4 |- *. cbv zeta in Hb, Hn4. cbn [snd] in Hb, Hn4.
    simpl in Hb, Hn4.
    unfold bind at 1. unfold sendNotification. rewrite Hn4, Hn1.
    eexists. split; [reflexivity|].
    eexists. split; [rewrite Hb, Hd1; reflexivity|].
    cbn [b_service_id b_customer_email]. rewrite Ht. auto. }
  destruct Hrun as (w' & -> & Hrow). split; [reflexivity|exact Hrow].
Qed.

(** On the sample shop with its notifier down: the answer is 500 and the
    shop has two bookings where it had one. *)
Lemma notifier_failure_leaves_booking_witness :
  fst (create MoreSamples.suv_request MoreSamples.shop_notifier_down)
    = Failure 500 "Failed to create booking" /\
  length (bookings (w_db (snd (create MoreSamples.suv_request
                                 MoreSamples.shop_notifier_down)))) = 2%nat.
Proof.
  destruct (notifier_failure_leaves_booking
              MoreSamples.suv_request MoreSamples.shop_notifier_down 1
              eq_refl ltac:(discriminate)
              (ex_intro _ _ (conj (or_introl eq_refl) eq_refl))
              eq_refl eq_refl) as (H & row & Hb & _).
  split; [exact H|]. rewrite Hb. reflexivity.
Defined.

End BookingsCreateFacts.

Module PaymentPageFacts.
Import Store Io Bookings BookingsAdmin IoFacts ListFacts MoreListFacts MoreIoFacts.

Lemma first_word_no_space s : has_space (first_word s) = false.
Proof.
  induction s as [|c r IH]; simpl; [reflexivity|].
  destruct (Ascii.eqb c " ") eqn:E; simpl; [reflexivity|].
  now rewrite E, IH.
Qed.

Lemma first_word_prefix s : exists rest, s = (first_word s ++ rest)%string.
Proof.
  induction s as [|c r [rest IH]]; simpl.
  - exists EmptyString. reflexivity.
  - destruct (Ascii.eqb c " ").
    + eexists. reflexivity.
    + exists rest. simpl. rewrite IH at 1. reflexivity.
Qed.

Lemma first_word_whole s : has_space s = false -> first_word s = s.
Proof.
  induction s as [|c r IH]; simpl; [reflexivity|].
  destruct (Ascii.eqb c " "); simpl; [discriminate|].
  intros H. now rewrite IH.
Qed.

Section PaymentPage.

Variable select_payment_row : Z -> statement (list payment_row).

(** [GET /api/bookings/:id/payment-info] answers 200 only to the holder of
    the payment token.  Whenever it answers 200, the query carried a
    non-empty token, the lookup ran and found a row, and the token is the
    [payment_token] stored in the first row found.  The answer then shows
    that row's amounts and dates, and of the customer's name only the part
    before the first space: a prefix of the name with no space in it. *)
Theorem payment_info_needs_the_token id token w r w' :
  get_payment_info select_payment_row id token w = (Json 200 r, w') ->
  exists tok row rest,
    token = Some tok /\ tok <> ""%string /\
    fault_at 0 w = false /\
    fst (select_payment_row id (w_db w)) = Returned (row :: rest) /\
    pr_payment_token row = Some tok /\
    pi_id r = pr_id row /\
    pi_totalAmount r = pr_total_amount row /\
    pi_depositAmount r = pr_deposit_amount row /\
    pi_depositPaid r = pr_deposit_paid row /\
    has_space (pi_customerFirstName r) = false /\
    exists more, pr_customer_name row = (pi_customerFirstName r ++ more)%string.
Proof.
  unfold get_payment_info. intros H.
  apply handler_json in H; [|intros e; discriminate].
  destruct token as [tok|]; [|discriminate].
  destruct (JsString.truthy tok) eqn:Etok; simpl in H; [|discriminate].
  apply bind_returned in H as (rows & w1 & Hq & H).
  destruct (query_cases _ (select_payment_row id) w) as [[_ Hc]|[Ef Hc]];
    rewrite Hc in Hq; [discriminate|].
  injection Hq as Hrows _.
  destruct rows as [|row rest]; [discriminate|].
  destruct (pr_payment_token row) as [stored|] eqn:Es; simpl in H; [|discriminate].
  destruct (String.eqb stored tok) eqn:Eeq; simpl in H; [|discriminate].
  apply String.eqb_eq in Eeq. subst stored.
  injection H as <- _.
  exists tok, row, rest. cbn [pi_id pi_totalAmount pi_depositAmount
                              pi_depositPaid pi_customerFirstName].
  split; [reflexivity|].
  split; [intros ->; discriminate|].
  split; [exact Ef|]. split; [exact Hrows|]. split; [exact Es|].
  do 4 (split; [reflexivity|]).
  split; [apply first_word_no_space|apply first_word_prefix].
Qed.

End PaymentPage.

(** On the sample shop: the stored token opens the page of booking 1, which
    shows 'Ada' for 'Ada Park'. *)
Lemma payment_info_needs_the_token_witness :
  exists r w',
    get_payment_info MoreSamples.unpaid_payment_rows 1 (Some "00a1b2c3d4e5"%string)
      Samples.shop = (Json 200 r, w') /\
    pi_customerFirstName r = "Ada"%string /\
    pi_serviceName r = Some "Full Detail"%string.
Proof.
  destruct (payment_info_needs_the_token MoreSamples.unpaid_payment_rows 1
              (Some "00a1b2c3d4e5"%string) Samples.shop _ _ eq_refl)
    as (tok & row & rest & _).
  do 2 eexists. split; [reflexivity|]. split; reflexivity.
Defined.

End PaymentPageFacts.

Module GoogleReviewsMore.
Import Store Io GoogleReviews IoFacts ListFacts MoreListFacts MoreIoFacts.

Lemma or_else_truthy a b :
  JsString.truthy b = true -> JsString.truthy (JsString.or_else a b) = true.
Proof.
  intros Hb. destruct a as [s|]; simpl; [|exact Hb].
  destruct (JsString.truthy s) eqn:E; [exact E | exact Hb].
Qed.

Lemma num_or_truthy a b :
  JsNumber.truthy b = true -> JsNumber.truthy (num_or a b) = true.
Proof.
  intros Hb. destruct a as [n|]; simpl; [|exact Hb].
  destruct (JsNumber.truthy n) eqn:E; [exact E | exact Hb].
Qed.

(** [transformReviews] fills every gap of the Places answer.  It keeps the
    reviews one for one and in order; every review it returns has a
    non-empty author name ('Anonymous' when the answer has none) and a
    rating that is neither 0 nor NaN (5 when the answer has none); optional
    fields are never the empty string; the overall rating is absent rather
    than 0; and an answer without a [reviews] array gives no reviews. *)
Theorem transformed_reviews_are_complete g :
  let d := transformReviews g in
  length (rd_reviews d) = length (default [] (gp_reviews g)) /\
  Forall (fun r => JsString.truthy (author_name r) = true /\
                   JsNumber.truthy (rating r) = true /\
                   author_photo_url r <> Some ""%string /\
                   publish_time r <> Some ""%string /\
                   google_maps_uri r <> Some ""%string)
         (rd_reviews d) /\
  (forall n, rd_overall_rating d = Some n -> JsNumber.truthy n = true) /\
  (gp_reviews g = None -> rd_reviews d = []) /\
  (forall k r, nth_error (default [] (gp_reviews g)) k = Some r ->
               nth_error (rd_reviews d) k = Some (transformReview r)).
Proof.
  cbv zeta. unfold transformReviews. cbn [rd_reviews rd_overall_rating].
  assert (Hnone : forall o, JsString.or_none o <> Some ""%string).
  { intros [s|]; simpl; [|discriminate].
    destruct s; simpl; discriminate. }
  split; [apply length_map|].
  split.
  { apply List.Forall_forall. intros r Hr.
    apply in_map_iff in Hr as (x & <- & _). unfold transformReview.
    cbn [author_name rating author_photo_url publish_time google_maps_uri].
    split; [now apply or_else_truthy|].
    split; [now apply num_or_truthy|]. auto. }
  split.
  { intros n. destruct (gp_rating g) as [m|]; [|discriminate].
    destruct (JsNumber.truthy m) eqn:E; [|discriminate].
    now intros [= <-]. }
  split.
  { intros ->. reflexivity. }
  intros k r Hk. now apply map_nth_error.
Qed.

(** The two routes on a world whose environment lacks the key or the place
    id. *)
Lemma unconfigured_runs w :
  isConfigured (w_env w) = false ->
  get w = (Json 200 NotConfigured, w) /\
  refresh w = (Failure 400 "Google Reviews not configured", w).
Proof.
  intros H. unfold get, refresh, handler, try_catch, bind, getenv, ret.
  rewrite H. simpl. split; reflexivity.
Qed.

(** Once configured, each route answers with reviews or with a 500. *)
Lemma configured_outcomes w :
  isConfigured (w_env w) = true ->
  ((exists a b c d e f g, fst (get w) = Json 200 (Reviews a b c d e f g)) \/
   fst (get w) = Failure 500 "Failed to fetch Google reviews") /\
  ((exists a b c d g, fst (refresh w) = Json 200 (Reviews a b c d false false g)) \/
   fst (refresh w) = Failure 500 "Failed to refresh Google reviews").
Proof.
  intros Hconf.
  destruct w as [db t env fl ent dr g fe nt snt]. simpl in Hconf.
  split.
  - unfold get, handler, try_catch, bind, getenv, getCachedOrFetch,
      stale_fallback, try_catch, bind, getenv, now, query, select_fresh,
      select_cached, select, execute, fetchFromGoogle, ret.
    simpl. rewrite Hconf. simpl.
    destruct g; destruct fl as [|[] [|[] [|[] fs]]]; simpl;
      repeat (match goal with
              | |- context [match List.filter ?f ?l with _ => _ end] =>
                  destruct (List.filter f l); simpl
              end);
      unfold from_cache; eauto 12.
  - unfold refresh, handler, bind, getenv, getCachedOrFetch, bind, getenv,
      now, query, execute, fetchFromGoogle, ret.
    simpl. rewrite Hconf. simpl.
    destruct g; destruct fl as [|[] fs]; simpl; eauto 12.
Qed.

(** Without the API key or the place id the two routes do nothing, and only
    then do they answer as they do: [GET /api/google-reviews] answers 200
    with [enabled: false] exactly when the environment is not configured,
    [GET /api/google-reviews/refresh] answers 400 exactly then; in both cases
    no statement runs, no upstream call is made and the world is left as it
    was. *)
Theorem unconfigured_routes_do_nothing w :
  (fst (get w) = Json 200 NotConfigured <-> isConfigured (w_env w) = false) /\
  (status_of (fst (refresh w)) = 400 <-> isConfigured (w_env w) = false) /\
  (isConfigured (w_env w) = false -> snd (get w) = w /\ snd (refresh w) = w).
Proof.
  destruct (isConfigured (w_env w)) eqn:E.
  - destruct (configured_outcomes w E) as [Hg Hr].
    split; [|split].
    + split; [|discriminate]. intros H.
      destruct Hg as [(a & b & c & d & e & f & g & Hg)|Hg];
        rewrite Hg in H; discriminate.
    + split; [|discriminate]. intros H.
      destruct Hr as [(a & b & c & d & g & Hr)|Hr];
        rewrite Hr in H; discriminate.
    + discriminate.
  - destruct (unconfigured_runs w E) as [-> ->]. simpl.
    repeat split; reflexivity.
Qed.

(** On the sample shop before the Places key is set. *)
Lemma unconfigured_routes_do_nothing_witness :
  fst (get MoreSamples.shop_without_reviews) = Json 200 NotConfigured /\
  status_of (fst (refresh MoreSamples.shop_without_reviews)) = 400 /\
  snd (get MoreSamples.shop_without_reviews) = MoreSamples.shop_without_reviews.
Proof.
  destruct (unconfigured_routes_do_nothing MoreSamples.shop_without_reviews)
    as (Hg & Hr & Hw).
  split; [apply Hg; reflexivity|]. split; [apply Hr; reflexivity|].
  apply Hw. reflexivity.
Defined.

(** A forward run of the forced refresh. *)
Lemma forced_refresh_runs w :
  isConfigured (w_env w) = true ->
  let place := default ""%string (GOOGLE_PLACE_ID (w_env w)) in
  let w1 := with_fetches (S (w_fetches w)) w in
  refresh w =
    match w_google w with
    | Some g =>
        let data := transformReviews g in
        if fault_at 0 w
        then (Failure 500 "Failed to refresh Google reviews",
              with_faults (tl (w_faults w)) w1)
        else (Json 200 (Reviews (rd_overall_rating data) (rd_total_reviews data)
                          (rd_reviews data) (rd_business_name data)
                          false false (w_now w)),
              with_db (upsert_cache place data (w_now w) (w_db w))
                (with_faults (tl (w_faults w)) w1))
    | None => (Failure 500 "Failed to refresh Google reviews", w1)
    end.
Proof.
  intros Hconf. cbv zeta.
  unfold refresh, handler, bind at 1, getenv at 1. rewrite Hconf.
  cbn [negb]. unfold bind at 1, getCachedOrFetch.
  unfold bind at 1, getenv at 1. unfold bind at 1, getenv at 1.
  unfold bind at 1, now at 1. unfold bind at 1, ret at 1.
  unfold bind at 1, fetchFromGoogle.
  destruct (w_google w) as [g|]; [|reflexivity].
  unfold bind at 1. rewrite query_execute.
  cbn [w_faults with_fetches w_db w_now].
  replace (fault_at 0 (with_fetches (S (w_fetches w)) w)) with (fault_at 0 w)
    by reflexivity.
  destruct (fault_at 0 w); reflexivity.
Qed.

(** [GET /api/google-reviews/refresh], once configured, never answers from
    the cache.  It calls the Places API exactly once whatever happens; when
    the call and the upsert succeed it answers the transformed data with
    [cached = false] and the time of the request, and the cache row of the
    place holds that data; when either fails it answers 500, with no stale
    fallback, and leaves the database as it was. *)
Theorem refresh_bypasses_cache w :
  isConfigured (w_env w) = true ->
  let place := default ""%string (GOOGLE_PLACE_ID (w_env w)) in
  let answer := fst (refresh w) in
  let w' := snd (refresh w) in
  w_fetches w' = S (w_fetches w) /\
  (forall g, w_google w = Some g -> fault_at 0 w = false ->
     let data := transformReviews g in
     answer = Json 200 (Reviews (rd_overall_rating data) (rd_total_reviews data)
                          (rd_reviews data) (rd_business_name data)
                          false false (w_now w)) /\
     w_db w' = upsert_cache place data (w_now w) (w_db w)) /\
  (w_google w = None \/ fault_at 0 w = true ->
     answer = Failure 500 "Failed to refresh Google reviews" /\
     w_db w' = w_db w) /\
  (forall a b c d e f g, answer = Json 200 (Reviews a b c d e f g) -> e = false).
Proof.
  intros Hconf. cbv zeta. rewrite (forced_refresh_runs w Hconf). cbv zeta.
  destruct (w_google w) as [g|] eqn:Eg.
  - destruct (fault_at 0 w) eqn:Ef; cbn [fst snd].
    + split; [reflexivity|]. split; [intros g0 _ H; discriminate|].
      split; [intros _; split; reflexivity|]. intros; discriminate.
    + split; [reflexivity|].
      split; [intros g0 [= <-] _; split; reflexivity|].
      split; [intros [H|H]; discriminate|].
      intros a b c d e f g0 H. now injection H.
  - cbn [fst snd]. split; [reflexivity|].
    split; [intros g0 H; discriminate|].
    split; [intros _; split; reflexivity|]. intros; discriminate.
Qed.

(** On the sample shop with the Places API in reach: the answer is fresh,
    its one review is signed 'Anonymous' and rated 5. *)
Lemma refresh_bypasses_cache_witness :
  w_fetches (snd (refresh MoreSamples.shop_online)) = 1%nat /\
  exists a b r d t,
    fst (refresh MoreSamples.shop_online) = Json 200 (Reviews a b [r] d false false t) /\
    author_name r = "Anonymous"%string /\ rating r = JsNumber.of_Z 5.
Proof.
  destruct (refresh_bypasses_cache MoreSamples.shop_online eq_refl)
    as (Hf & Hok & _).
  split; [exact Hf|].
  destruct (Hok _ eq_refl eq_refl) as (Ha & _).
  do 5 eexists. split; [exact Ha|]. split; reflexivity.
Defined.

(** After the upsert every row of the place is the new row, and there is
    one. *)
Lemma upsert_cache_place_rows place data t d :
  let row := {| gc_place_id := place;
                gc_overall_rating := rd_overall_rating data;
                gc_total_reviews := rd_total_reviews data;
                gc_reviews_data := data;
                gc_cached_at := t |} in
  In row (google_reviews_cache (upsert_cache place data t d)) /\
  forall r, In r (google_reviews_cache (upsert_cache place data t d)) ->
            gc_place_id r = place -> r = row.
Proof.
  cbv zeta. unfold upsert_cache. simpl.
  destruct (existsb _ _) eqn:E.
  - split.
    + apply existsb_exists in E as (r & Hin & Hr).
      apply in_map_iff. exists r. rewrite Hr. auto.
    + intros r Hin Hp. apply in_map_iff in Hin as (r0 & Hr & _).
      destruct (String.eqb (gc_place_id r0) place) eqn:Er; [now subst|].
      subst r0. apply String.eqb_neq in Er. contradiction.
  - split.
    + apply in_or_app. right. now left.
    + intros r Hin Hp. apply in_app_or in Hin as [Hin|[<-|[]]]; [|reflexivity].
      exfalso.
      assert (existsb (fun r => String.eqb (gc_place_id r) place)
                      (google_reviews_cache d) = true); [|congruence].
      apply existsb_exists. exists r. split; [exact Hin|].
      now apply String.eqb_eq.
Qed.

(** A forward run of the cache hit. *)
Lemma get_serves_fresh w row rest :
  isConfigured (w_env w) = true ->
  fault_at 0 w = false ->
  List.filter (fresh (default ""%string (GOOGLE_PLACE_ID (w_env w))) (w_now w)
                     (CACHE_HOURS (w_env w)))
              (google_reviews_cache (w_db w)) = row :: rest ->
  get w = (Json 200 (from_cache row false), with_faults (tl (w_faults w)) w).
Proof.
  intros Hconf Ef Hrows.
  unfold get, handler, try_catch. unfold bind at 1, getenv at 1.
  rewrite Hconf. cbn [negb]. unfold bind at 1, getCachedOrFetch.
  unfold bind at 1, getenv at 1. unfold bind at 1, getenv at 1.
  unfold bind at 1, now at 1. unfold bind at 1.
  unfold select_fresh. rewrite query_select, Ef, Hrows. reflexivity.
Qed.

(** What a forced refresh stores is what the next requests are served.
    After [GET /api/google-reviews/refresh] has fetched and stored the
    reviews, a [GET /api/google-reviews] on the resulting database, made
    less than [CACHE_HOURS] hours later, answers the same data marked
    [cached = true] with the time of the refresh, makes no upstream call and
    writes nothing. *)
Theorem refreshed_reviews_served_from_cache w w2 g :
  isConfigured (w_env w) = true ->
  w_google w = Some g -> fault_at 0 w = false ->
  w_db w2 = w_db (snd (refresh w)) -> w_env w2 = w_env w ->
  w_now w2 - CACHE_HOURS (w_env w) * 3600000 < w_now w ->
  fault_at 0 w2 = false ->
  let data := transformReviews g in
  fst (get w2) =
    Json 200 (Reviews (rd_overall_rating data) (rd_total_reviews data)
                (rd_reviews data) (rd_business_name data)
                true false (w_now w)) /\
  w_fetches (snd (get w2)) = w_fetches w2 /\
  w_db (snd (get w2)) = w_db w2.
Proof.
  intros Hconf Hg Ef Hdb Henv Hnow Ef2. cbv zeta.
  rewrite (forced_refresh_runs w Hconf), Hg, Ef in Hdb. cbv zeta in Hdb.
  cbn [snd with_db w_db] in Hdb.
  set (place := default ""%string (GOOGLE_PLACE_ID (w_env w))) in *.
  set (data := transformReviews g) in *.
  destruct (upsert_cache_place_rows place data (w_now w) (w_db w))
    as [Hin Hall]. cbv zeta in Hin, Hall. rewrite <- Hdb in Hin, Hall.
  set (new := {| gc_place_id := place;
                 gc_overall_rating := rd_overall_rating data;
                 gc_total_reviews := rd_total_reviews data;
                 gc_reviews_data := data;
                 gc_cached_at := w_now w |}) in *.
  assert (Hfresh : fresh place (w_now w2) (CACHE_HOURS (w_env w)) new = true).
  { unfold fresh. cbn [gc_place_id gc_cached_at new].
    rewrite String.eqb_refl. simpl. apply Z.ltb_lt. exact Hnow. }
  destruct (List.filter (fresh place (w_now w2) (CACHE_HOURS (w_env w)))
                        (google_reviews_cache (w_db w2)))
    as [|row rest] eqn:Hrows.
  { exfalso. rewrite filter_nil_iff in Hrows.
    specialize (Hrows new Hin). congruence. }
  assert (Hrow : row = new).
  { apply filter_head_In in Hrows as [Hr Hf]. apply Hall; [exact Hr|].
    unfold fresh in Hf. apply andb_true_iff in Hf as [Hp _].
    now apply String.eqb_eq. }
  subst row.
  assert (Hconf2 : isConfigured (w_env w2) = true) by (now rewrite Henv).
  rewrite (get_serves_fresh w2 new rest Hconf2 Ef2).
  - cbn [fst snd]. repeat split; reflexivity.
  - rewrite Henv. exact Hrows.
Qed.

(** On the sample shop: refreshed while the Places API is in reach, asked
    again an hour later. *)
Lemma refreshed_reviews_served_from_cache_witness :
  exists a b r d,
    fst (get (MoreSamples.shop_an_hour_later (snd (refresh MoreSamples.shop_online))))
      = Json 200 (Reviews a b [r] d true false 432000000) /\
    author_name r = "Anonymous"%string.
Proof.
  destruct (refreshed_reviews_served_from_cache
              MoreSamples.shop_online
              (MoreSamples.shop_an_hour_later (snd (refresh MoreSamples.shop_online)))
              MoreSamples.sample_place
              eq_refl eq_refl eq_refl eq_refl eq_refl eq_refl eq_refl)
    as (H & _).
  do 4 eexists. split; [exact H|reflexivity].
Defined.

End GoogleReviewsMore.

Module AuthSessions.
Import Store Io Auth IoFacts ListFacts MoreListFacts MoreIoFacts.

Section WithLibraries.

Variable sha256_hex : string -> string.
Variable jwt_sign : Z -> string -> string -> string -> Z -> string.
Variable totp_verify : string -> string -> Z -> bool.

(** A forward run of the end of the login handler. *)
Lemma issue_tokens_runs rq em user w :
  issue_tokens sha256_hex jwt_sign rq em user w =
    match JWT_SECRET (w_env w) with
    | Some k =>
        if JsString.truthy k
        then
          let tok := JsString.hex (map (w_entropy w) (seq (w_drawn w) 64)) in
          let w1 := with_drawn (w_drawn w + 64)%nat w in
          if fault_at 0 w
          then (Thrown (DbError "08006"), with_faults (tl (w_faults w)) w1)
          else
            (Returned
               (Json 200
                  (LoggedIn (jwt_sign (u_id user) em "admin" k (w_now w)) tok
                     (u_id user) em
                     (if JsString.truthy (u_name user) then u_name user
                      else "Admin") "admin")),
             with_db
               (insert_refresh_token (u_id user) (sha256_hex tok)
                  (w_now w + (if rememberMe rq then 30 else 1) * 24 * 60 * 60 * 1000)
                  (JsString.or_else (user_agent rq) "Unknown") (w_db w))
               (with_faults (tl (w_faults w)) w1))
        else (Thrown (JsError "secretOrPrivateKey must have a value"), w)
    | None => (Thrown (JsError "secretOrPrivateKey must have a value"), w)
    end.
Proof.
  unfold issue_tokens. unfold bind at 1. unfold sign, bind at 1, getenv at 1.
  unfold bind at 1, now at 1.
  destruct (JWT_SECRET (w_env w)) as [k|]; [|reflexivity].
  destruct (JsString.truthy k); [|reflexivity].
  unfold ret at 1. unfold bind at 1, randomBytes.
  unfold bind at 1, now at 1. unfold bind at 1.
  rewrite query_execute.
  replace (fault_at 0 (with_drawn (w_drawn w + 64)%nat w)) with (fault_at 0 w)
    by reflexivity.
  cbv zeta. destruct (fault_at 0 w); reflexivity.
Qed.

(** The end of the login handler answers with tokens or throws without
    having stored a session. *)
Lemma issue_tokens_outcomes rq em user w :
  let res := issue_tokens sha256_hex jwt_sign rq em user w in
  (exists acc tok nm,
     fst res = Returned (Json 200 (LoggedIn acc tok (u_id user) em nm "admin"))) \/
  ((exists e, fst res = Thrown e) /\
   refresh_tokens (w_db (snd res)) = refresh_tokens (w_db w) /\
   admin_users (w_db (snd res)) = admin_users (w_db w)).
Proof.
  cbv zeta. rewrite issue_tokens_runs.
  destruct (JWT_SECRET (w_env w)) as [k|]; [|right; simpl; eauto].
  destruct (JsString.truthy k); [|right; simpl; eauto].
  cbv zeta. destruct (fault_at 0 w); [right; simpl; eauto|].
  left. simpl. eauto.
Qed.

(** The six ways [POST /api/auth/login] ends. *)
Lemma login_outcomes rq w :
  let res := login sha256_hex jwt_sign totp_verify rq w in
  (snd res = w /\
   (fst res = Failure 500 "Server configuration error" \/
    fst res = Failure 401 "Invalid credentials")) \/
  (snd res = with_faults (tl (w_faults w)) w /\
   (fst res = Json 200 RequiresTwoFactor \/
    fst res = Failure 401 "Invalid 2FA code" \/
    fst res = Failure 500 "Login failed")) \/
  (fst res = Failure 500 "Login failed" /\
   refresh_tokens (w_db (snd res)) = refresh_tokens (w_db w)) \/
  (exists acc tok id em nm role,
     fst res = Json 200 (LoggedIn acc tok id em nm role)).
Proof.
  cbv zeta.
  assert (Hfin : forall em user w1 res,
            refresh_tokens (w_db w1) = refresh_tokens (w_db w) ->
            res = (let (o, w') := issue_tokens sha256_hex jwt_sign rq em user w1 in
                   match o with
                   | Returned r => (r, w')
                   | Thrown _ => (Failure 500 "Login failed", w')
                   end) ->
            (fst res = Failure 500 "Login failed" /\
             refresh_tokens (w_db (snd res)) = refresh_tokens (w_db w)) \/
            (exists acc tok id em nm role,
               fst res = Json 200 (LoggedIn acc tok id em nm role))).
  { intros em user w1 res Hr ->.
    pose proof (issue_tokens_outcomes rq em user w1) as H. cbv zeta in H.
    destruct (issue_tokens sha256_hex jwt_sign rq em user w1) as [o w'].
    cbn [fst snd] in H.
    destruct H as [(acc & tok & nm & ->)|((e & ->) & Ht & _)].
    - right. cbn [fst]. eauto 8.
    - left. cbn [fst snd]. split; [reflexivity|]. now rewrite Ht. }
  remember (login sha256_hex jwt_sign totp_verify rq w) as res eqn:Hres.
  unfold login, handler in Hres.
  unfold bind at 1, getenv at 1 in Hres. unfold bind at 1, getenv at 1 in Hres.
  destruct (ADMIN_EMAIL (w_env w)) as [adminEmail|];
    [|subst res; left; split; [reflexivity|left; reflexivity]].
  destruct (ADMIN_PASSWORD (w_env w)) as [adminPassword|];
    [|subst res; left; split; [reflexivity|left; reflexivity]].
  destruct (negb (JsString.truthy adminEmail) || negb (JsString.truthy adminPassword));
    [subst res; left; split; [reflexivity|left; reflexivity]|].
  destruct (negb (String.eqb (email rq) adminEmail)
            || negb (String.eqb (password rq) adminPassword));
    [subst res; left; split; [reflexivity|right; reflexivity]|].
  unfold bind at 1 in Hres. unfold select_admin in Hres.
  rewrite query_select in Hres.
  destruct (fault_at 0 w);
    [subst res; right; left; split; [reflexivity|right; right; reflexivity]|].
  destruct (List.filter _ (admin_users (w_db w))) as [|user rest].
  - unfold bind at 1 in Hres.
    match type of Hres with context [query ?st ?w2] =>
      destruct (query_cases _ st w2) as [[_ Hq]|[_ Hq]]
    end; rewrite Hq in Hres; clear Hq.
    + subst res. right; right; left. split; reflexivity.
    + unfold insert_admin in Hres. cbn [fst snd] in Hres.
      cbv beta iota zeta in Hres.
      right; right. eapply Hfin; [|exact Hres]. reflexivity.
  - destruct (u_totp_enabled user && JsString.present (u_totp_secret user)).
    + destruct (totpCode rq) as [code|];
        [|subst res; right; left; split; [reflexivity|left; reflexivity]].
      destruct (negb (JsString.truthy code));
        [subst res; right; left; split; [reflexivity|left; reflexivity]|].
      unfold bind at 1, now at 1 in Hres.
      destruct (totp_verify code _ _);
        [|subst res; right; left; split; [reflexivity|right; left; reflexivity]].
      right; right. eapply Hfin; [|exact Hres]. reflexivity.
    + right; right. eapply Hfin; [|exact Hres]. reflexivity.
Qed.

(** [POST /api/auth/login] stores a session only when it hands out tokens.
    A login answered 401 (wrong credentials, wrong 2FA code) or answered
    with the request for a 2FA code leaves the database as it was and draws
    no random bytes; and every login that is not answered with tokens leaves
    the refresh tokens as they were. *)
Theorem login_stores_session_only_with_tokens rq w :
  let res := login sha256_hex jwt_sign totp_verify rq w in
  (status_of (fst res) = 401 \/ fst res = Json 200 RequiresTwoFactor ->
   w_db (snd res) = w_db w /\ w_drawn (snd res) = w_drawn w) /\
  ((forall acc tok id em nm role,
      fst res <> Json 200 (LoggedIn acc tok id em nm role)) ->
   refresh_tokens (w_db (snd res)) = refresh_tokens (w_db w)).
Proof.
  cbv zeta.
  destruct (login_outcomes rq w)
    as [(Hw & [Hr|Hr])|[(Hw & [Hr|[Hr|Hr]])|[(Hr & Ht)|
        (acc & tok & id & em & nm & role & Hr)]]];
    cbv zeta in *; rewrite ?Hw, Hr; cbn [status_of].
  all: split; [intros [H|H]; try discriminate H; split; reflexivity
              | intros H; try reflexivity; try assumption].
  exfalso. now apply (H acc tok id em nm role).
Qed.

(** The 2FA gate of the login.  For a user who has 2FA enabled with a
    secret, correct credentials alone never yield tokens: without a code the
    answer is the request for one, with a code the verifier rejects it is
    401, and in both cases only the lookup has run; tokens are handed out
    only for a code the verifier accepts for the stored secret at the time of
    the request. *)
Theorem two_factor_gate_at_login rq w user rest s :
  ADMIN_EMAIL (w_env w) = Some (email rq) -> email rq <> ""%string ->
  ADMIN_PASSWORD (w_env w) = Some (password rq) -> password rq <> ""%string ->
  fault_at 0 w = false ->
  List.filter (fun u => String.eqb (u_email u) (email rq)) (admin_users (w_db w))
    = user :: rest ->
  u_totp_enabled user = true -> u_totp_secret user = Some s -> s <> ""%string ->
  let res := login sha256_hex jwt_sign totp_verify rq w in
  (JsString.present (totpCode rq) = false ->
   res = (Json 200 RequiresTwoFactor, with_faults (tl (w_faults w)) w)) /\
  (forall c, totpCode rq = Some c -> c <> ""%string ->
             totp_verify c s (w_now w) = false ->
   res = (Failure 401 "Invalid 2FA code", with_faults (tl (w_faults w)) w)) /\
  (forall acc tok id em nm role,
     fst res = Json 200 (LoggedIn acc tok id em nm role) ->
     exists c, totpCode rq = Some c /\ totp_verify c s (w_now w) = true).
Proof.
  intros He Hene Hp Hpne Ef Hrows Hen Hsec Hsne. cbv zeta.
  assert (Htr : forall x, x <> ""%string -> JsString.truthy x = true).
  { intros [|a x] H; [contradiction|reflexivity]. }
  assert (Hrun : login sha256_hex jwt_sign totp_verify rq w =
            match totpCode rq with
            | Some c =>
                if negb (JsString.truthy c)
                then (Json 200 RequiresTwoFactor, with_faults (tl (w_faults w)) w)
                else if totp_verify c s (w_now w)
                then handler (issue_tokens sha256_hex jwt_sign rq (email rq) user)
                       (fun _ => Failure 500 "Login failed")
                       (with_faults (tl (w_faults w)) w)
                else (Failure 401 "Invalid 2FA code", with_faults (tl (w_faults w)) w)
            | None => (Json 200 RequiresTwoFactor, with_faults (tl (w_faults w)) w)
            end).
  { unfold login, handler.
    unfold bind at 1, getenv at 1. unfold bind at 1, getenv at 1.
    rewrite He, Hp, (Htr _ Hene), (Htr _ Hpne), !String.eqb_refl.
    cbn [negb orb]. unfold bind at 1. unfold select_admin.
    rewrite query_select, Ef, Hrows, Hen, Hsec.
    cbn [JsString.present andb]. rewrite (Htr _ Hsne).
    destruct (totpCode rq) as [c|]; [|reflexivity].
    destruct (JsString.truthy c); cbn [negb]; [|reflexivity].
    unfold bind at 1, now at 1. cbn [w_now with_faults].
    change (default ""%string (Some s)) with s.
    destruct (totp_verify c s (w_now w)); reflexivity. }
  rewrite Hrun. split; [|split].
  - destruct (totpCode rq) as [c|]; [|reflexivity].
    simpl. intros ->. reflexivity.
  - intros c -> Hc Hv. rewrite (Htr _ Hc), Hv. reflexivity.
  - intros acc tok id em nm role.
    destruct (totpCode rq) as [c|]; [|discriminate].
    destruct (JsString.truthy c); cbn [negb]; [|discriminate].
    destruct (totp_verify c s (w_now w)) eqn:Ev; [|discriminate].
    intros _. exists c. split; [reflexivity|exact Ev].
Qed.

(** What a login that answers with tokens has stored. *)
Lemma login_session rq w acc tok id em nm role w' :
  login sha256_hex jwt_sign totp_verify rq w
    = (Json 200 (LoggedIn acc tok id em nm role), w') ->
  tok = JsString.hex (map (w_entropy w) (seq (w_drawn w) 64)) /\
  exists row au,
    refresh_tokens (w_db w') = refresh_tokens (w_db w) ++ [row] /\
    rt_user_id row = id /\
    rt_token_hash row = sha256_hex tok /\
    rt_expires_at row
      = w_now w + (if rememberMe rq then 30 else 1) * 24 * 60 * 60 * 1000 /\
    rt_is_revoked row = d_token_is_revoked (schema (w_db w)) /\
    In au (admin_users (w_db w')) /\ u_id au = id.
Proof.
  intros H.
  assert (Hfin : forall e user w1,
            w_entropy w1 = w_entropy w -> w_drawn w1 = w_drawn w ->
            w_now w1 = w_now w ->
            refresh_tokens (w_db w1) = refresh_tokens (w_db w) ->
            schema (w_db w1) = schema (w_db w) ->
            In user (admin_users (w_db w1)) ->
            handler (issue_tokens sha256_hex jwt_sign rq e user)
                    (fun _ => Failure 500 "Login failed") w1
              = (Json 200 (LoggedIn acc tok id em nm role), w') ->
            tok = JsString.hex (map (w_entropy w) (seq (w_drawn w) 64)) /\
            exists row au,
              refresh_tokens (w_db w') = refresh_tokens (w_db w) ++ [row] /\
              rt_user_id row = id /\
              rt_token_hash row = sha256_hex tok /\
              rt_expires_at row
                = w_now w + (if rememberMe rq then 30 else 1) * 24 * 60 * 60 * 1000 /\
              rt_is_revoked row = d_token_is_revoked (schema (w_db w)) /\
              In au (admin_users (w_db w')) /\ u_id au = id).
  { intros e user w1 Hent Hdr Hnow Hrt Hsch Hin Hi.
    unfold handler in Hi. rewrite issue_tokens_runs in Hi.
    destruct (JWT_SECRET (w_env w1)) as [k|]; [|discriminate].
    destruct (JsString.truthy k); [|discriminate].
    cbv zeta in Hi. destruct (fault_at 0 w1); [discriminate|].
    injection Hi as _ <- <- _ _ _ <-.
    rewrite Hent, Hdr. split; [reflexivity|].
    eexists _, user. cbn [w_db with_db insert_refresh_token refresh_tokens
                          with_refresh_tokens admin_users].
    rewrite Hrt, Hnow, Hsch.
    split; [reflexivity|]. split; [reflexivity|]. split; [reflexivity|].
    split; [reflexivity|]. split; [reflexivity|]. split; [|reflexivity].
    destruct (w_db w1); exact Hin. }
  revert H. unfold login. unfold handler at 1.
  unfold bind at 1, getenv at 1. unfold bind at 1, getenv at 1.
  destruct (ADMIN_EMAIL (w_env w)) as [adminEmail|]; [|discriminate].
  destruct (ADMIN_PASSWORD (w_env w)) as [adminPassword|]; [|discriminate].
  destruct (negb (JsString.truthy adminEmail) || negb (JsString.truthy adminPassword));
    [discriminate|].
  destruct (negb (String.eqb (email rq) adminEmail)
            || negb (String.eqb (password rq) adminPassword)); [discriminate|].
  unfold bind at 1. unfold select_admin. rewrite query_select.
  destruct (fault_at 0 w); [discriminate|].
  destruct (List.filter _ (admin_users (w_db w))) as [|user rest] eqn:Hrows.
  - unfold bind at 1.
    match goal with |- context [query ?st ?w2] =>
      destruct (query_cases _ st w2) as [[_ Hq]|[_ Hq]]
    end; rewrite Hq; clear Hq; [discriminate|].
    unfold insert_admin. cbn [fst snd]. cbv beta iota zeta.
    intros H. eapply Hfin; [..|exact H]; try reflexivity.
    cbn [w_db with_db with_faults admin_users with_next_id with_admin_users].
    apply in_or_app. right. now left.
  - apply filter_head_In in Hrows as [Hin _].
    destruct (u_totp_enabled user && JsString.present (u_totp_secret user)).
    + destruct (totpCode rq) as [code|]; [|discriminate].
      destruct (negb (JsString.truthy code)); [discriminate|].
      unfold bind at 1, now at 1.
      destruct (totp_verify code _ _); [|discriminate].
      intros H. eapply Hfin; [..|exact H]; try reflexivity. exact Hin.
    + intros H. eapply Hfin; [..|exact H]; try reflexivity. exact Hin.
Qed.

(** The token a login hands out is good for the session's lifetime: one day,
    or thirty with [rememberMe].  When the column default of [is_revoked] is
    false and the user is active, a refresh with that token on the database
    the login left, by a server that has its JWT secret, is answered 200 as
    long as the time is before the expiry; and from the expiry on it is
    answered 401, provided no older row carries the same digest. *)
Theorem login_then_refresh rq w acc tok id em nm role w' w2 :
  login sha256_hex jwt_sign totp_verify rq w
    = (Json 200 (LoggedIn acc tok id em nm role), w') ->
  d_token_is_revoked (schema (w_db w)) = false ->
  (forall u, In u (admin_users (w_db w')) -> u_id u = id -> u_is_active u = true) ->
  w_db w2 = w_db w' -> fault_at 0 w2 = false ->
  JsString.present (JWT_SECRET (w_env w2)) = true ->
  let expiry := w_now w + (if rememberMe rq then 30 else 1) * 86400000 in
  (w_now w2 < expiry ->
   status_of (fst (refresh sha256_hex jwt_sign (Some tok) w2)) = 200) /\
  (expiry <= w_now w2 ->
   (forall rt, In rt (refresh_tokens (w_db w)) -> rt_token_hash rt <> sha256_hex tok) ->
   fst (refresh sha256_hex jwt_sign (Some tok) w2)
     = Failure 401 "Invalid or expired refresh token").
Proof.
  intros Hlogin Hdef Hactive Hdb Ef Hjwt. cbv zeta.
  apply login_session in Hlogin
    as (Htok & row & au & Hrows & Hid & Hhash & Hexp & Hrev & Hau & Hauid).
  assert (Hne : tok <> ""%string).
  { intros H. pose proof (JsStringFacts.hex_length
                            (map (w_entropy w) (seq (w_drawn w) 64))) as Hl.
    rewrite <- Htok, H, length_map, length_seq in Hl. discriminate Hl. }
  rewrite (AuthFacts.refresh_runs sha256_hex jwt_sign tok w2 Hne Ef).
  unfold select_session, select. cbn [fst]. rewrite Hdb.
  split.
  - intros Hnow.
    assert (Hv : valid_session (sha256_hex tok) (w_now w2) (w_db w')).
    { exists row, au. rewrite Hrows.
      split; [apply in_or_app; right; now left|].
      split; [exact Hau|]. split; [congruence|]. split; [exact Hhash|].
      split; [congruence|]. split; [rewrite Hexp; lia|].
      now apply Hactive. }
    apply (AuthFacts.session_rows_valid jwt_sign totp_verify) in Hv.
    destruct (flat_map _ _) as [|[rt a] l]; [contradiction|].
    destruct (JWT_SECRET (w_env w2)) as [k|]; [|discriminate].
    simpl in Hjwt. rewrite Hjwt. reflexivity.
  - intros Hnow Hfresh.
    rewrite (AuthFacts.session_rows_nil jwt_sign totp_verify); [reflexivity|].
    intros (rt & a & Hrt & _ & _ & Hh & _ & Ht & _).
    rewrite Hrows in Hrt. apply in_app_or in Hrt as [Hrt|[<-|[]]].
    + now apply (Hfresh rt).
    + rewrite Hexp in Ht. lia.
Qed.

(** [POST /api/auth/logout] answers success whatever happens: without a
    token, with a token no row carries, and when the statement fails.  It
    changes nothing but the [is_revoked] flag of the rows that carry the
    digest of the token, which it sets; it never clears a flag, and it leaves
    the database as it was when there is no token or the statement fails. *)
Theorem logout_always_succeeds tok w :
  let res := logout sha256_hex tok w in
  fst res = Json 200 true /\
  (JsString.present tok = false -> snd res = w) /\
  (fault_at 0 w = true -> w_db (snd res) = w_db w) /\
  Forall2 (fun old new =>
             new = old \/
             rt_token_hash old = sha256_hex (default ""%string tok) /\
             new = revoke old)
          (refresh_tokens (w_db w)) (refresh_tokens (w_db (snd res))) /\
  admin_users (w_db (snd res)) = admin_users (w_db w) /\
  Forall2 (fun old new => rt_is_revoked old = true -> rt_is_revoked new = true)
          (refresh_tokens (w_db w)) (refresh_tokens (w_db (snd res))).
Proof.
  cbv zeta.
  assert (Hsame : forall l : list refresh_token,
            Forall2 (fun old new =>
                       new = old \/
                       rt_token_hash old = sha256_hex (default ""%string tok) /\
                       new = revoke old) l l).
  { induction l; constructor; auto. }
  assert (Hsame' : forall l : list refresh_token,
            Forall2 (fun old new => rt_is_revoked old = true ->
                                    rt_is_revoked new = true) l l).
  { induction l; constructor; auto. }
  unfold logout, handler.
  destruct (JsString.present tok) eqn:Ep; unfold bind.
  - unfold try_catch. rewrite query_execute.
    destruct (fault_at 0 w) eqn:Ef; unfold ret; cbn [fst snd].
    + split; [reflexivity|]. split; [discriminate|]. split; [reflexivity|].
      split; [apply Hsame|]. split; [reflexivity|apply Hsame'].
    + split; [reflexivity|]. split; [discriminate|]. split; [discriminate|].
      cbn [w_db with_db revoke_token refresh_tokens with_refresh_tokens
           admin_users].
      split; [|split].
      * induction (refresh_tokens (w_db w)) as [|rt l IH]; simpl; constructor;
          [|exact IH].
        destruct (String.eqb (rt_token_hash rt) _) eqn:E; [|now left].
        right. apply String.eqb_eq in E. auto.
      * destruct (w_db w); reflexivity.
      * induction (refresh_tokens (w_db w)) as [|rt l IH]; simpl; constructor;
          [|exact IH].
        destruct (String.eqb (rt_token_hash rt) _); [reflexivity|auto].
  - unfold ret; cbn [fst snd].
    split; [reflexivity|]. split; [reflexivity|]. split; [reflexivity|].
    split; [apply Hsame|]. split; [reflexivity|apply Hsame'].
Qed.

End WithLibraries.

(** On the sample shop: a wrong password is answered 401 and nothing is
    stored. *)
Lemma login_stores_session_only_with_tokens_witness :
  let rq := {| email := "owner@example.com"; password := "hunter3";
               rememberMe := true; totpCode := None; user_agent := None |} in
  let res := login Samples.toy_digest Samples.toy_sign Samples.toy_totp rq
               Samples.shop in
  fst res = Failure 401 "Invalid credentials" /\
  w_db (snd res) = w_db Samples.shop /\ w_drawn (snd res) = 0%nat.
Proof.
  intros rq res. split; [reflexivity|].
  destruct (login_stores_session_only_with_tokens Samples.toy_digest
              Samples.toy_sign Samples.toy_totp rq Samples.shop) as (H & _).
  apply H. left. reflexivity.
Defined.

(** On the shop whose owner has 2FA enabled: the right password without a
    code gets the request for a code, and no session. *)
Lemma two_factor_gate_at_login_witness :
  login Samples.toy_digest Samples.toy_sign Samples.toy_totp
    MoreSamples.owner_login MoreSamples.guarded_shop
  = (Json 200 RequiresTwoFactor, MoreSamples.guarded_shop).
Proof.
  destruct (two_factor_gate_at_login Samples.toy_digest Samples.toy_sign
              Samples.toy_totp MoreSamples.owner_login MoreSamples.guarded_shop
              MoreSamples.guarded_admin [] "JBSWY3DP"%string
              eq_refl ltac:(discriminate) eq_refl ltac:(discriminate)
              eq_refl eq_refl eq_refl eq_refl ltac:(discriminate))
    as (H & _).
  exact (H eq_refl).
Defined.

(** On the sample shop: the owner logs in without [rememberMe]; the token
    refreshes an hour later. *)
Lemma login_then_refresh_witness :
  let w' := snd (login Samples.toy_digest Samples.toy_sign Samples.toy_totp
                   MoreSamples.owner_login Samples.shop) in
  let tok := JsString.hex (map Samples.sample_entropy (seq 0 64)) in
  status_of (fst (refresh Samples.toy_digest Samples.toy_sign (Some tok)
                    (MoreSamples.shop_an_hour_later w'))) = 200.
Proof.
  intros w' tok.
  destruct (login_then_refresh Samples.toy_digest Samples.toy_sign
              Samples.toy_totp MoreSamples.owner_login Samples.shop
              _ _ _ _ _ _ _ (MoreSamples.shop_an_hour_later w')
              eq_refl eq_refl) as (H & _).
  - intros u [<-|[]] _. reflexivity.
  - reflexivity.
  - reflexivity.
  - reflexivity.
  - apply H. reflexivity.
Defined.

(** On the sample shop: a logout without a token is answered success and
    changes nothing. *)
Lemma logout_always_succeeds_witness :
  logout Samples.toy_digest None Samples.shop = (Json 200 true, Samples.shop).
Proof.
  destruct (logout_always_succeeds Samples.toy_digest None Samples.shop)
    as (Hr & Hw & _).
  rewrite (surjective_pairing (logout Samples.toy_digest None Samples.shop)).
  rewrite Hr, (Hw eq_refl). reflexivity.
Defined.

End AuthSessions.

Module TwoFactorFacts.
Import Store Io TwoFactor IoFacts ListFacts MoreListFacts MoreIoFacts.

Lemma set_totp_id e s u : u_id (set_totp e s u) = u_id u.
Proof. reflexivity. Qed.

(** The three updates keep the ids, in order. *)
Lemma updates_keep_ids d id s :
  map u_id (admin_users (store_secret s id d)) = map u_id (admin_users d) /\
  map u_id (admin_users (enable_totp id d)) = map u_id (admin_users d) /\
  map u_id (admin_users (disable_totp id d)) = map u_id (admin_users d).
Proof.
  unfold store_secret, enable_totp, disable_totp.
  destruct d; cbn [admin_users with_admin_users].
  repeat split; apply map_map_same; intros u;
    destruct (u_id u =? id); reflexivity.
Qed.

Lemma store_secret_keeps_flags d id s :
  map u_totp_enabled (admin_users (store_secret s id d))
  = map u_totp_enabled (admin_users d).
Proof.
  unfold store_secret. destruct d; cbn [admin_users with_admin_users].
  apply map_map_same. intros u. destruct (u_id u =? id); reflexivity.
Qed.

Section WithLibraries.

Variable totp_verify : string -> string -> Z -> bool.
Variable secret_bytes : nat.
Variable encode_secret : list byte -> string.
Variable keyuri : string -> string -> string -> string.
Variable toDataURL : string -> option string.

(** The four ways [POST /api/auth/2fa/setup] ends. *)
Lemma setup_outcomes userId email w :
  let res := setup secret_bytes encode_secret keyuri toDataURL userId email w in
  let enabled :=
    match List.filter (fun u => u_id u =? userId) (admin_users (w_db w)) with
    | user :: _ => u_totp_enabled user
    | [] => false
    end in
  let secret := encode_secret (map (w_entropy w) (seq (w_drawn w) secret_bytes)) in
  (fault_at 0 w = true /\ fst res = Failure 500 "Failed to setup 2FA" /\
   w_db (snd res) = w_db w) \/
  (fault_at 0 w = false /\ enabled = true /\
   fst res = Failure 400 "2FA is already enabled" /\
   snd res = with_faults (tl (w_faults w)) w) \/
  (fault_at 0 w = false /\ enabled = false /\
   (toDataURL (keyuri email "Showers Auto Detail"%string secret) = None \/
    fault_at 1 w = true) /\
   fst res = Failure 500 "Failed to setup 2FA" /\ w_db (snd res) = w_db w) \/
  (fault_at 0 w = false /\ enabled = false /\
   exists qr,
     toDataURL (keyuri email "Showers Auto Detail"%string secret) = Some qr /\
     fault_at 1 w = false /\
     fst res = Json 200 {| sr_secret := secret; sr_qrCode := qr;
                           sr_manualEntry := secret |} /\
     w_db (snd res) = store_secret secret userId (w_db w)).
Proof.
  cbv zeta.
  remember (setup secret_bytes encode_secret keyuri toDataURL userId email w)
    as res eqn:Hres.
  unfold setup, handler in Hres. unfold bind at 1 in Hres.
  unfold select_user in Hres. rewrite query_select in Hres.
  destruct (fault_at 0 w) eqn:Ef; [subst res; left; auto|].
  destruct (match List.filter _ (admin_users (w_db w)) with
            | [] => false | user :: _ => u_totp_enabled user end) eqn:Een.
  { subst res. right; left. auto. }
  unfold bind at 1, randomBytes in Hres.
  cbn [w_entropy w_drawn with_faults] in Hres.
  destruct (toDataURL _) as [qr|] eqn:Eqr.
  - unfold bind at 1 in Hres. rewrite query_execute in Hres.
    match type of Hres with context [fault_at 0 ?w1] =>
      replace (fault_at 0 w1) with (fault_at 1 w) in Hres
        by (unfold fault_at; simpl; now destruct (w_faults w))
    end.
    destruct (fault_at 1 w); subst res.
    + right; right; left. auto 6.
    + right; right; right. split; [reflexivity|]. split; [reflexivity|].
      exists qr. repeat split; reflexivity.
  - subst res. right; right; left. auto 6.
Qed.

(** [POST /api/auth/2fa/setup] never switches 2FA on or off: whatever the
    outcome, every user has the id and the [totp_enabled] flag they had.  It
    answers 400 exactly when the lookup runs and finds the user with 2FA
    enabled, and then nothing but the lookup has happened.  When it answers
    200, the secret of the reply is the one encoded from the bytes newly
    drawn, the QR code is the one made from its key URI, and that secret is
    what every row of the user now stores; any other answer leaves the
    database as it was. *)
Theorem setup_never_enables userId email w :
  let res := setup secret_bytes encode_secret keyuri toDataURL userId email w in
  let enabled :=
    match List.filter (fun u => u_id u =? userId) (admin_users (w_db w)) with
    | user :: _ => u_totp_enabled user
    | [] => false
    end in
  map u_totp_enabled (admin_users (w_db (snd res)))
    = map u_totp_enabled (admin_users (w_db w)) /\
  map u_id (admin_users (w_db (snd res))) = map u_id (admin_users (w_db w)) /\
  (status_of (fst res) = 400 <-> fault_at 0 w = false /\ enabled = true) /\
  (status_of (fst res) = 400 -> snd res = with_faults (tl (w_faults w)) w) /\
  (status_of (fst res) <> 200 -> w_db (snd res) = w_db w) /\
  (forall r, fst res = Json 200 r ->
     sr_secret r = encode_secret (map (w_entropy w) (seq (w_drawn w) secret_bytes)) /\
     sr_manualEntry r = sr_secret r /\
     toDataURL (keyuri email "Showers Auto Detail"%string (sr_secret r))
       = Some (sr_qrCode r) /\
     forall u, In u (admin_users (w_db (snd res))) -> u_id u = userId ->
               u_totp_secret u = Some (sr_secret r)).
Proof.
  cbv zeta.
  destruct (setup_outcomes userId email w)
    as [(Ef & Hr & Hd)|[(Ef & Een & Hr & Hw)|[(Ef & Een & _ & Hr & Hd)|
        (Ef & Een & qr & Hqr & _ & Hr & Hd)]]]; cbv zeta in *;
    rewrite Hr, ?Hw, ?Hd, ?Ef, ?Een; cbn [status_of w_db with_faults].
  - repeat split; try reflexivity; try discriminate.
    + intros (H & _); discriminate.
  - repeat split; try reflexivity; try discriminate.
  - repeat split; try reflexivity; try discriminate.
    + intros (_ & H); discriminate.
  - split; [apply store_secret_keeps_flags|].
    split; [apply (updates_keep_ids (w_db w) userId)|].
    split; [split; [discriminate|intros (_ & H); discriminate]|].
    split; [discriminate|]. split; [intros H; now contradiction H|].
    intros r [= <-]. cbn [sr_secret sr_manualEntry sr_qrCode].
    split; [reflexivity|]. split; [reflexivity|]. split; [exact Hqr|].
    intros u Hin Hid. unfold store_secret in Hin.
    destruct (w_db w); cbn [admin_users with_admin_users] in Hin.
    apply in_map_iff in Hin as (u0 & <- & _).
    destruct (u_id u0 =? userId) eqn:E; [reflexivity|].
    simpl in Hid. lia.
Qed.

(** The ways [POST /api/auth/2fa/verify] ends: it enables 2FA after an
    accepted code, or it leaves the database as it was. *)
Lemma verify_outcomes userId code w :
  let res := verify totp_verify userId code w in
  (w_db (snd res) = w_db w /\ status_of (fst res) <> 200) \/
  (exists c user rest s,
     code = Some c /\ c <> ""%string /\ fault_at 0 w = false /\
     List.filter (fun u => u_id u =? userId) (admin_users (w_db w)) = user :: rest /\
     u_totp_secret user = Some s /\ s <> ""%string /\
     u_totp_enabled user = false /\
     totp_verify c s (w_now w) = true /\ fault_at 1 w = false /\
     fst res = Json 200 "2FA enabled successfully"%string /\
     w_db (snd res) = enable_totp userId (w_db w)).
Proof.
  cbv zeta.
  remember (verify totp_verify userId code w) as res eqn:Hres.
  unfold verify, handler in Hres.
  destruct code as [c|]; [|subst res; left; split; [reflexivity|discriminate]].
  cbn [JsString.present] in Hres.
  destruct c as [|a c]; [subst res; left; split; [reflexivity|discriminate]|].
  cbn [JsString.truthy negb] in Hres.
  unfold bind at 1 in Hres. unfold select_user in Hres.
  rewrite query_select in Hres.
  destruct (fault_at 0 w) eqn:Ef;
    [subst res; left; split; [reflexivity|discriminate]|].
  destruct (List.filter _ (admin_users (w_db w))) as [|user rest] eqn:Erows;
    [subst res; left; split; [reflexivity|discriminate]|].
  destruct (u_totp_secret user) as [s|] eqn:Es;
    [|subst res; left; split; [reflexivity|discriminate]].
  cbn [JsString.present] in Hres.
  destruct s as [|b s]; [subst res; left; split; [reflexivity|discriminate]|].
  cbn [JsString.truthy negb] in Hres.
  destruct (u_totp_enabled user) eqn:Een;
    [subst res; left; split; [reflexivity|discriminate]|].
  unfold bind at 1, now at 1 in Hres.
  cbn [w_now with_faults] in Hres.
  change (default ""%string (Some (String a c))) with (String a c) in Hres.
  change (default ""%string (Some (String b s))) with (String b s) in Hres.
  destruct (totp_verify (String a c) (String b s) (w_now w)) eqn:Ev;
    [|subst res; left; split; [reflexivity|discriminate]].
  cbn [negb] in Hres. unfold bind at 1 in Hres.
  rewrite query_execute in Hres.
  match type of Hres with context [fault_at 0 ?w1] =>
    replace (fault_at 0 w1) with (fault_at 1 w) in Hres
      by (unfold fault_at; simpl; now destruct (w_faults w))
  end.
  destruct (fault_at 1 w); subst res;
    [left; split; [reflexivity|discriminate]|].
  right. exists (String a c), user, rest, (String b s).
  repeat split; try reflexivity; try discriminate; assumption.
Qed.

(** The ways [POST /api/auth/2fa/disable] ends. *)
Lemma disable_outcomes userId code w :
  let res := disable totp_verify userId code w in
  (w_db (snd res) = w_db w /\ status_of (fst res) <> 200) \/
  (exists c user rest,
     code = Some c /\ c <> ""%string /\ fault_at 0 w = false /\
     List.filter (fun u => u_id u =? userId) (admin_users (w_db w)) = user :: rest /\
     u_totp_enabled user = true /\
     totp_verify c (default ""%string (u_totp_secret user)) (w_now w) = true /\
     fault_at 1 w = false /\
     fst res = Json 200 "2FA disabled successfully"%string /\
     w_db (snd res) = disable_totp userId (w_db w)).
Proof.
  cbv zeta.
  remember (disable totp_verify userId code w) as res eqn:Hres.
  unfold disable, handler in Hres.
  destruct code as [c|]; [|subst res; left; split; [reflexivity|discriminate]].
  cbn [JsString.present] in Hres.
  destruct c as [|a c]; [subst res; left; split; [reflexivity|discriminate]|].
  cbn [JsString.truthy negb] in Hres.
  unfold bind at 1 in Hres. unfold select_user in Hres.
  rewrite query_select in Hres.
  destruct (fault_at 0 w) eqn:Ef;
    [subst res; left; split; [reflexivity|discriminate]|].
  destruct (List.filter _ (admin_users (w_db w))) as [|user rest] eqn:Erows;
    [subst res; left; split; [reflexivity|discriminate]|].
  destruct (u_totp_enabled user) eqn:Een;
    [|subst res; left; split; [reflexivity|discriminate]].
  cbn [negb] in Hres.
  unfold bind at 1, now at 1 in Hres.
  cbn [w_now with_faults] in Hres.
  change (default ""%string (Some (String a c))) with (String a c) in Hres.
  destruct (totp_verify (String a c) _ (w_now w)) eqn:Ev;
    [|subst res; left; split; [reflexivity|discriminate]].
  cbn [negb] in Hres. unfold bind at 1 in Hres.
  rewrite query_execute in Hres.
  match type of Hres with context [fault_at 0 ?w1] =>
    replace (fault_at 0 w1) with (fault_at 1 w) in Hres
      by (unfold fault_at; simpl; now destruct (w_faults w))
  end.
  destruct (fault_at 1 w); subst res;
    [left; split; [reflexivity|discriminate]|].
  right. exists (String a c), user, rest.
  repeat split; try reflexivity; try discriminate; assumption.
Qed.

(** [POST /api/auth/2fa/verify] enables 2FA only for a code the verifier
    accepts.  When it answers 200, the body carried a non-empty code, the
    user has a non-empty secret and had 2FA off, the verifier accepted the
    code for that secret at the time of the request, and the flag of the
    user's rows is now set; the secrets are never touched.  Any other
    answer leaves the database as it was. *)
Theorem verify_enables_only_with_valid_code userId code w :
  let res := verify totp_verify userId code w in
  (status_of (fst res) = 200 ->
   exists c user rest s,
     code = Some c /\ c <> ""%string /\
     List.filter (fun u => u_id u =? userId) (admin_users (w_db w)) = user :: rest /\
     u_totp_secret user = Some s /\ s <> ""%string /\
     u_totp_enabled user = false /\
     totp_verify c s (w_now w) = true /\
     forall u, In u (admin_users (w_db (snd res))) -> u_id u = userId ->
               u_totp_enabled u = true) /\
  (status_of (fst res) <> 200 -> w_db (snd res) = w_db w) /\
  map u_totp_secret (admin_users (w_db (snd res)))
    = map u_totp_secret (admin_users (w_db w)) /\
  forall u, In u (admin_users (w_db (snd res))) -> u_id u <> userId ->
            In u (admin_users (w_db w)).
Proof.
  cbv zeta.
  destruct (verify_outcomes userId code w)
    as [(Hd & Hs)|(c & user & rest & s & Hc & Hcne & Ef & Hrows & Hsec & Hsne &
                   Hen & Hv & _ & Hr & Hd)]; cbv zeta in *.
  - rewrite Hd. split; [intros H; contradiction|]. auto.
  - rewrite Hr, Hd. cbn [status_of].
    split.
    { intros _. exists c, user, rest, s. repeat split; try assumption.
      intros u Hin Hid. unfold enable_totp in Hin.
      destruct (w_db w); cbn [admin_users with_admin_users] in Hin.
      apply in_map_iff in Hin as (u0 & <- & _).
      destruct (u_id u0 =? userId) eqn:E; [reflexivity|]. simpl in Hid. lia. }
    split; [intros H; now contradiction H|].
    unfold enable_totp. destruct (w_db w); cbn [admin_users with_admin_users].
    split.
    + apply map_map_same. intros u. destruct (u_id u =? userId); reflexivity.
    + intros u Hin Hid. apply in_map_iff in Hin as (u0 & <- & Hin).
      destruct (u_id u0 =? userId) eqn:E; [|exact Hin].
      exfalso. apply Hid. simpl. lia.
Qed.

(** [POST /api/auth/2fa/disable] switches 2FA off only for a user who has
    it on and for a code the verifier accepts for the stored secret.  When it
    answers 200, every row of the user has the flag cleared and no secret
    left, and the rows of the other users are as they were; any other answer
    leaves the database as it was. *)
Theorem disable_clears_flag_and_secret userId code w :
  let res := disable totp_verify userId code w in
  (status_of (fst res) = 200 ->
   exists c user rest,
     code = Some c /\ c <> ""%string /\
     List.filter (fun u => u_id u =? userId) (admin_users (w_db w)) = user :: rest /\
     u_totp_enabled user = true /\
     (forall s, u_totp_secret user = Some s -> totp_verify c s (w_now w) = true) /\
     forall u, In u (admin_users (w_db (snd res))) -> u_id u = userId ->
               u_totp_enabled u = false /\ u_totp_secret u = None) /\
  (status_of (fst res) <> 200 -> w_db (snd res) = w_db w) /\
  forall u, In u (admin_users (w_db (snd res))) -> u_id u <> userId ->
            In u (admin_users (w_db w)).
Proof.
  cbv zeta.
  destruct (disable_outcomes userId code w)
    as [(Hd & Hs)|(c & user & rest & Hc & Hcne & Ef & Hrows & Hen & Hv & _ &
                   Hr & Hd)]; cbv zeta in *.
  - rewrite Hd. split; [intros H; contradiction|]. auto.
  - rewrite Hr, Hd. cbn [status_of].
    split.
    { intros _. exists c, user, rest. repeat split; try assumption.
      - intros s Hs. rewrite Hs in Hv. exact Hv.
      - unfold disable_totp in H.
        destruct (w_db w); cbn [admin_users with_admin_users] in H.
        apply in_map_iff in H as (u0 & <- & _).
        destruct (u_id u0 =? userId) eqn:E; [reflexivity|]. simpl in H0. lia.
      - unfold disable_totp in H.
        destruct (w_db w); cbn [admin_users with_admin_users] in H.
        apply in_map_iff in H as (u0 & <- & _).
        destruct (u_id u0 =? userId) eqn:E; [reflexivity|]. simpl in H0. lia. }
    split; [intros H; now contradiction H|].
    unfold disable_totp. destruct (w_db w); cbn [admin_users with_admin_users].
    intros u Hin Hid. apply in_map_iff in Hin as (u0 & <- & Hin).
    destruct (u_id u0 =? userId) eqn:E; [|exact Hin].
    exfalso. apply Hid. simpl. lia.
Qed.

(** The first row the lookup finds is the only row with the id, when ids are
    unique. *)
Lemma first_row_is_the_row (l : list admin_user) id user rest u :
  List.NoDup (map u_id l) ->
  List.filter (fun u => u_id u =? id) l = user :: rest ->
  In u l -> u_id u = id -> u = user.
Proof.
  intros Hnd Hrows Hin Hid. apply filter_head_In in Hrows as [Hu He].
  apply (NoDup_map_In_eq _ _ u_id l); auto. lia.
Qed.


(** Forward runs of the routes on a database that answers. *)
Lemma setup_runs userId email w user rest qr :
  w_faults w = [] ->
  List.filter (fun u => u_id u =? userId) (admin_users (w_db w)) = user :: rest ->
  u_totp_enabled user = false ->
  let secret := encode_secret (map (w_entropy w) (seq (w_drawn w) secret_bytes)) in
  toDataURL (keyuri email "Showers Auto Detail"%string secret) = Some qr ->
  exists w',
    setup secret_bytes encode_secret keyuri toDataURL userId email w
      = (Json 200 {| sr_secret := secret; sr_qrCode := qr;
                     sr_manualEntry := secret |}, w') /\
    w_db w' = store_secret secret userId (w_db w) /\
    w_faults w' = [] /\ w_now w' = w_now w.
Proof.
  intros Hf Hrows Hen secret Hqr. subst secret.
  unfold setup, handler. unfold bind at 1. unfold select_user.
  rewrite query_select. unfold fault_at. rewrite Hf. cbn [nth tl].
  rewrite Hrows, Hen. unfold bind at 1, randomBytes.
  cbn [w_entropy w_drawn with_faults]. rewrite Hqr.
  unfold bind at 1. rewrite query_execute. unfold fault_at.
  cbn [w_faults with_drawn with_faults nth tl].
  eexists. split; [reflexivity|]. repeat split; reflexivity.
Qed.

Lemma verify_runs userId c w user rest s :
  w_faults w = [] -> c <> ""%string ->
  List.filter (fun u => u_id u =? userId) (admin_users (w_db w)) = user :: rest ->
  u_totp_secret user = Some s -> s <> ""%string ->
  u_totp_enabled user = false ->
  totp_verify c s (w_now w) = true ->
  exists w',
    verify totp_verify userId (Some c) w
      = (Json 200 "2FA enabled successfully"%string, w') /\
    w_db w' = enable_totp userId (w_db w) /\
    w_faults w' = [] /\ w_now w' = w_now w.
Proof.
  intros Hf Hc Hrows Hsec Hs Hen Hv.
  unfold verify, handler. cbn [JsString.present].
  destruct c as [|a c]; [contradiction|]. cbn [JsString.truthy negb].
  unfold bind at 1. unfold select_user.
  rewrite query_select. unfold fault_at. rewrite Hf. cbn [nth tl].
  rewrite Hrows, Hsec, Hen. cbn [JsString.present].
  destruct s as [|b s]; [contradiction|]. cbn [JsString.truthy negb].
  unfold bind at 1, now at 1. cbn [w_now with_faults].
  change (default ""%string (Some (String a c))) with (String a c).
  change (default ""%string (Some (String b s))) with (String b s).
  rewrite Hv. cbn [negb]. unfold bind at 1. rewrite query_execute.
  unfold fault_at. cbn [w_faults with_faults nth tl].
  eexists. split; [reflexivity|]. repeat split; reflexivity.
Qed.

Lemma disable_runs userId c w user rest s :
  w_faults w = [] -> c <> ""%string ->
  List.filter (fun u => u_id u =? userId) (admin_users (w_db w)) = user :: rest ->
  u_totp_secret user = Some s ->
  u_totp_enabled user = true ->
  totp_verify c s (w_now w) = true ->
  exists w',
    disable totp_verify userId (Some c) w
      = (Json 200 "2FA disabled successfully"%string, w') /\
    w_db w' = disable_totp userId (w_db w) /\
    w_faults w' = [] /\ w_now w' = w_now w.
Proof.
  intros Hf Hc Hrows Hsec Hen Hv.
  unfold disable, handler. cbn [JsString.present].
  destruct c as [|a c]; [contradiction|]. cbn [JsString.truthy negb].
  unfold bind at 1. unfold select_user.
  rewrite query_select. unfold fault_at. rewrite Hf. cbn [nth tl].
  rewrite Hrows, Hsec, Hen. cbn [negb].
  unfold bind at 1, now at 1. cbn [w_now with_faults].
  change (default ""%string (Some (String a c))) with (String a c).
  change (default ""%string (Some s)) with s.
  rewrite Hv. cbn [negb]. unfold bind at 1. rewrite query_execute.
  unfold fault_at. cbn [w_faults with_faults nth tl].
  eexists. split; [reflexivity|]. repeat split; reflexivity.
Qed.

Lemma status_runs userId w :
  w_faults w = [] ->
  fst (status userId w) =
    Json 200 match List.filter (fun u => u_id u =? userId) (admin_users (w_db w)) with
             | user :: _ => u_totp_enabled user
             | [] => false
             end.
Proof.
  intros Hf. unfold status, handler, bind. unfold select_user.
  rewrite query_select. unfold fault_at. rewrite Hf. reflexivity.
Qed.

Lemma filter_map_keep A (p : A -> bool) (f : A -> A) l :
  (forall x, p (f x) = p x) ->
  List.filter p (map f l) = map f (List.filter p l).
Proof.
  intros H. induction l as [|a l IH]; simpl; [reflexivity|].
  rewrite H. destruct (p a); simpl; now rewrite IH.
Qed.

(** Enrolment, end to end, on a database that answers.  A user without 2FA
    who runs [setup], then [verify] with a code the verifier accepts for the
    secret of the reply, has 2FA on: [status] says so, where it said no
    before; and a [disable] with an accepted code switches it off again. *)
Theorem enrolment_round_trip userId email c w user :
  w_faults w = [] ->
  List.NoDup (map u_id (admin_users (w_db w))) ->
  In user (admin_users (w_db w)) -> u_id user = userId ->
  u_totp_enabled user = false ->
  let secret := encode_secret (map (w_entropy w) (seq (w_drawn w) secret_bytes)) in
  toDataURL (keyuri email "Showers Auto Detail"%string secret) <> None ->
  secret <> ""%string -> c <> ""%string ->
  totp_verify c secret (w_now w) = true ->
  let w1 := snd (setup secret_bytes encode_secret keyuri toDataURL userId email w) in
  let w2 := snd (verify totp_verify userId (Some c) w1) in
  let w3 := snd (disable totp_verify userId (Some c) w2) in
  (exists r, fst (setup secret_bytes encode_secret keyuri toDataURL userId email w)
               = Json 200 r /\ sr_secret r = secret) /\
  fst (status userId w1) = Json 200 false /\
  fst (verify totp_verify userId (Some c) w1)
    = Json 200 "2FA enabled successfully"%string /\
  fst (status userId w2) = Json 200 true /\
  fst (disable totp_verify userId (Some c) w2)
    = Json 200 "2FA disabled successfully"%string /\
  fst (status userId w3) = Json 200 false.
Proof.
  intros Hf Hnd Hin Hid Hen secret Hqr Hsne Hcne Hv.
  destruct (toDataURL _) as [qr|] eqn:Eqr; [clear Hqr|contradiction].
  destruct (List.filter (fun u => u_id u =? userId) (admin_users (w_db w)))
    as [|u0 rest] eqn:Hrows.
  { exfalso. rewrite filter_nil_iff in Hrows. specialize (Hrows user Hin).
    simpl in Hrows. lia. }
  assert (u0 = user).
  { symmetry. eapply first_row_is_the_row; eauto. }
  subst u0.
  destruct (setup_runs userId email w user rest qr Hf Hrows Hen Eqr)
    as (w1 & Hr1 & Hd1 & Hf1 & Hn1).
  rewrite Hr1. cbn [fst snd].
  assert (Hrows1 : List.filter (fun u => u_id u =? userId) (admin_users (w_db w1))
                   = set_totp false (Some secret) user
                     :: map (fun u => if u_id u =? userId
                                      then set_totp (u_totp_enabled u) (Some secret) u
                                      else u) rest).
  { rewrite Hd1. unfold store_secret, with_admin_users. cbn [admin_users].
    rewrite filter_map_keep, Hrows.
    - cbn [map]. rewrite Hid, Z.eqb_refl, Hen. reflexivity.
    - intros u. destruct (u_id u =? userId) eqn:E; exact E. }
  destruct (verify_runs userId c w1 _ _ secret Hf1 Hcne Hrows1 eq_refl Hsne eq_refl)
    as (w2 & Hr2 & Hd2 & Hf2 & Hn2); [now rewrite Hn1|].
  rewrite Hr2. cbn [fst snd].
  assert (Hrows2 : exists rest2,
            List.filter (fun u => u_id u =? userId) (admin_users (w_db w2))
            = set_totp true (Some secret) user :: rest2).
  { rewrite Hd2. unfold enable_totp, with_admin_users. cbn [admin_users].
    rewrite filter_map_keep, Hrows1.
    - cbn [map u_id set_totp]. rewrite Hid, Z.eqb_refl. eauto.
    - intros u. destruct (u_id u =? userId) eqn:E; exact E. }
  destruct Hrows2 as (rest2 & Hrows2).
  destruct (disable_runs userId c w2 _ _ secret Hf2 Hcne Hrows2 eq_refl eq_refl)
    as (w3 & Hr3 & Hd3 & Hf3 & Hn3); [now rewrite Hn2, Hn1|].
  rewrite Hr3. cbn [fst snd].
  assert (Hrows3 : exists rest3,
            List.filter (fun u => u_id u =? userId) (admin_users (w_db w3))
            = set_totp false None user :: rest3).
  { rewrite Hd3. unfold disable_totp, with_admin_users. cbn [admin_users].
    rewrite filter_map_keep, Hrows2.
    - cbn [map u_id set_totp]. rewrite Hid, Z.eqb_refl. eauto.
    - intros u. destruct (u_id u =? userId) eqn:E; exact E. }
  destruct Hrows3 as (rest3 & Hrows3).
  rewrite (status_runs userId w1 Hf1), (status_runs userId w2 Hf2),
    (status_runs userId w3 Hf3), Hrows1, Hrows2, Hrows3.
  split; [eexists; split; reflexivity|].
  repeat split; reflexivity.
Qed.

End WithLibraries.

(** On the sample shop: the setup answers with a secret of twenty
    hexadecimal characters, which the owner's row now stores, with 2FA still
    off. *)
Lemma setup_never_enables_witness :
  let res := setup 10 JsString.hex MoreSamples.toy_keyuri MoreSamples.toy_qr
               7 "owner@example.com"%string Samples.shop in
  exists r, fst res = Json 200 r /\
            map u_totp_secret (admin_users (w_db (snd res))) = [Some (sr_secret r)] /\
            map u_totp_enabled (admin_users (w_db (snd res))) = [false].
Proof.
  intros res.
  destruct (setup_never_enables 10 JsString.hex MoreSamples.toy_keyuri
              MoreSamples.toy_qr 7 "owner@example.com"%string Samples.shop)
    as (Hflags & _ & _ & _ & _ & Hok).
  eexists. split; [reflexivity|].
  split; [reflexivity|exact Hflags].
Defined.

(** On the sample shop after a setup: the secret as the code is accepted,
    and the owner's row has 2FA on. *)
Lemma verify_enables_only_with_valid_code_witness :
  let secret := JsString.hex (map Samples.sample_entropy (seq 0 10)) in
  let w1 := snd (setup 10 JsString.hex MoreSamples.toy_keyuri MoreSamples.toy_qr
                   7 "owner@example.com"%string Samples.shop) in
  exists c s,
    Samples.toy_totp c s (w_now w1) = true /\
    map u_totp_enabled
        (admin_users (w_db (snd (verify Samples.toy_totp 7 (Some secret) w1))))
    = [true].
Proof.
  intros secret w1.
  destruct (verify_enables_only_with_valid_code Samples.toy_totp 7 (Some secret) w1)
    as (Hok & _).
  destruct (Hok eq_refl) as (c & user & rest & s & _ & _ & _ & _ & _ & _ & Hv & _).
  exists c, s. split; [exact Hv|reflexivity].
Defined.

(** On the shop whose owner has 2FA on: a disable with the accepted code
    leaves the owner without flag and without secret. *)
Lemma disable_clears_flag_and_secret_witness :
  let res := disable Samples.toy_totp 7 (Some "JBSWY3DP"%string)
               MoreSamples.guarded_shop in
  fst res = Json 200 "2FA disabled successfully"%string /\
  Forall (fun u => u_totp_enabled u = false /\ u_totp_secret u = None)
         (admin_users (w_db (snd res))).
Proof.
  intros res.
  destruct (disable_clears_flag_and_secret Samples.toy_totp 7
              (Some "JBSWY3DP"%string) MoreSamples.guarded_shop) as (Hok & _).
  destruct (Hok eq_refl) as (c & user & rest & _ & _ & _ & _ & _ & Hrows).
  split; [reflexivity|].
  apply List.Forall_forall. intros u Hu. apply Hrows; [exact Hu|].
  destruct Hu as [<-|[]]. reflexivity.
Defined.


(** On the sample shop, with the secret itself standing in for the code the
    authenticator shows. *)
Lemma enrolment_round_trip_witness :
  let secret := JsString.hex (map Samples.sample_entropy (seq 0 10)) in
  let w1 := snd (setup 10 JsString.hex MoreSamples.toy_keyuri MoreSamples.toy_qr
                   7 "owner@example.com"%string Samples.shop) in
  let w2 := snd (verify Samples.toy_totp 7 (Some secret) w1) in
  fst (status 7 w1) = Json 200 false /\ fst (status 7 w2) = Json 200 true.
Proof.
  intros secret w1 w2.
  destruct (enrolment_round_trip Samples.toy_totp 10 JsString.hex
              MoreSamples.toy_keyuri MoreSamples.toy_qr
              7 "owner@example.com"%string secret Samples.shop
              Samples.sample_admin eq_refl)
    as (_ & H1 & _ & H2 & _).
  - repeat constructor. intros [].
  - left. reflexivity.
  - reflexivity.
  - reflexivity.
  - discriminate.
  - discriminate.
  - discriminate.
  - reflexivity.
  - split; [exact H1 | exact H2].
Defined.

End TwoFactorFacts.
